(** * twrpdtgen: artifact discovery and device-tree assembly

    A shallow embedding of [twrpdtgen/device_tree.py]: the search for the
    property file, the partition table and the init scripts inside an
    unpacked boot image ([DeviceTree.__init__]) and the generation of the
    output directory ([DeviceTree.dump_to_folder]).

    The code works on the file system, on a debug log and on git
    configuration; it is embedded as functions over an explicit [World]
    in a state-and-exception monad. *)

From Stdlib Require Import ZArith Ascii String.
From stdpp Require Import gmap strings list fin_maps pretty.

Open Scope string_scope.
Open Scope list_scope.

(** ** Paths

    A [Path] holds the parts of a [pathlib.Path] below its anchor.  The
    anchor itself ([/], or none for a relative path) is left implicit: no
    operation of the program changes it.  [Path()] is the empty list.

    A path names the entry that is reached by its parts taken one after
    the other as names of directory entries.  [pathlib] keeps a part [..]
    as it is and leaves its meaning to the operating system, which takes
    it for the directory above; the file system below has entries by name
    only, so it stands for the system on paths without such a part
    ([entry_name]), and without symbolic links. *)

Module Pathlib.

Abbreviation Path := (list string) (only parsing).

(** [p / q] for a relative path [q]. *)
Definition joinpath (p q : Path) : Path := p ++ q.

(** [p.parent]: the anchor is its own parent. *)
Definition parent (p : Path) : Path := removelast p.

(** [p.name]: the last part, empty for the anchor. *)
Definition name (p : Path) : string := List.last p "".

(** Parsing of a string segment into parts: split at [/], empty parts and
    [.] parts are dropped. *)
Fixpoint split_parts (cur : string) (s : string) : list string :=
  match s with
  | EmptyString => [String.rev cur]
  | String c s' =>
      if Ascii.eqb c "/"%char then String.rev cur :: split_parts "" s'
      else split_parts (String c cur) s'
  end.

Definition keep_part (s : string) : bool :=
  negb (String.eqb s "" || String.eqb s ".").

Definition parts_of (s : string) : list string :=
  List.filter keep_part (split_parts "" s).

Definition is_absolute (s : string) : bool :=
  match s with
  | String c _ => Ascii.eqb c "/"%char
  | EmptyString => false
  end.

(** [p / s] for a string [s]: an absolute segment replaces [p]. *)
Definition joinstr (p : Path) (s : string) : Path :=
  if is_absolute s then parts_of s else p ++ parts_of s.

(** A string that is one part of a path: joining it appends it as it is. *)
Definition plain (s : string) : bool :=
  negb (is_absolute s) && bool_decide (parts_of s = [s]).

(** A string that names an entry of a directory: one part, and not the
    [..] the operating system reads as the directory above. *)
Definition entry_name (s : string) : bool :=
  plain s && negb (String.eqb s "..").

(** [str(p)] for an absolute path. *)
Definition path_str (p : Path) : string :=
  "/" +:+ String.concat "/" p.

(** [s.endswith(suffix)] *)
Definition endswith (s suffix : string) : bool :=
  let n := String.length s in
  let k := String.length suffix in
  (k <=? n)%nat && String.eqb (substring (n - k) k s) suffix.

End Pathlib.
Export Pathlib.

Infix "//" := joinpath (at level 40, left associativity).

(** ** File system *)

Inductive node : Type :=
  | File (content : string) (mode : Z)
  | Dir.

Definition is_file (fs : gmap Path node) (p : Path) : bool :=
  match fs !! p with Some (File _ _) => true | _ => false end.

Definition is_dir (fs : gmap Path node) (p : Path) : bool :=
  match fs !! p with Some Dir => true | _ => false end.

Definition exists_ (fs : gmap Path node) (p : Path) : bool :=
  match fs !! p with Some _ => true | None => false end.

(** A well-formed file system has a root directory, and every entry lies in
    a directory. *)
Definition fs_wf (fs : gmap Path node) : Prop :=
  fs !! [] = Some Dir ∧
  ∀ p n, fs !! p = Some n → p ≠ [] → fs !! parent p = Some Dir.

(** The same, as a check that can be run. *)
Definition fs_wfb (fs : gmap Path node) : bool :=
  is_dir fs []
  && forallb (λ kv : Path * node, bool_decide (kv.1 = []) || is_dir fs (parent kv.1))
             (map_to_list fs).

(** ** Candidate locations *)

Definition BUILDPROP_LOCATIONS : list Path :=
  ([ [] // ["default.prop"];
     [] // ["prop.default"] ]
   ++ map (λ dir, [] // [dir] // ["build.prop"]) ["system"; "vendor"])
  ++ map (λ dir, [] // [dir] // ["etc"] // ["build.prop"]) ["system"; "vendor"].

Definition extended_locations (dump_dir : Path) : list Path :=
  [ dump_dir // ["system"] // ["system"] // ["build.prop"];
    dump_dir // ["system"] // ["build.prop"];
    dump_dir // ["vendor"] // ["build.prop"];
    dump_dir // ["vendor_boot"] // ["ramdisk"] // ["default.prop"];
    dump_dir // ["vendor_boot"] // ["ramdisk"] // ["prop.default"];
    dump_dir // ["vendor_boot"] // ["ramdisk"] // ["build.prop"];
    dump_dir // ["vendor_boot"] // ["ramdisk"] // ["system"] // ["build.prop"];
    dump_dir // ["vendor_boot"] // ["ramdisk"] // ["vendor"] // ["build.prop"];
    dump_dir // ["system"] // ["etc"] // ["build.prop"];
    dump_dir // ["vendor"] // ["etc"] // ["build.prop"];
    dump_dir // ["product"] // ["build.prop"];
    dump_dir // ["system_ext"] // ["build.prop"];
    dump_dir // ["odm"] // ["build.prop"];
    dump_dir // ["boot"] // ["ramdisk"] // ["default.prop"];
    dump_dir // ["boot"] // ["ramdisk"] // ["prop.default"];
    dump_dir // ["recovery"] // ["ramdisk"] // ["default.prop"];
    dump_dir // ["recovery"] // ["ramdisk"] // ["prop.default"] ].

Definition get_extended_buildprop_locations
    (fs : gmap Path node) (base_path : Path) : list Path :=
  let locations := map (λ location, base_path // location) BUILDPROP_LOCATIONS in
  let dump_path := parent base_path in
  let possible_dump_paths :=
    [ dump_path; parent dump_path; parent (parent dump_path) ] in
  fold_left
    (λ locations dump_dir,
       if negb (exists_ fs dump_dir) then locations
       else locations ++ extended_locations dump_dir)
    possible_dump_paths locations.

Definition FSTAB_LOCATIONS : list Path :=
  [ [] // ["etc"] // ["recovery.fstab"] ]
  ++ map (λ dir, [] // [dir] // ["etc"] // ["recovery.fstab"]) ["system"; "vendor"].

Definition INIT_RC_LOCATIONS : list Path :=
  [ [] ] ++ map (λ dir, [] // [dir] // ["etc"] // ["init"]) ["system"; "vendor"].

(** ** The world the program runs in *)

(** Exceptions.  The ones the program raises itself carry their message;
    those raised by the operating system or by a library are kept by class. *)
Inductive exn : Type :=
  | FileNotFoundError (msg : string)
  | FileExistsError
  | NotADirectoryError
  | IsADirectoryError
  | SameFileError
  | AssertionError (msg : string)
  | NoOptionError
  | CollaboratorError (msg : string).

Definition ENOENT : exn := FileNotFoundError "[Errno 2] No such file or directory".

Inductive result (A : Type) : Type :=
  | Ok (a : A)
  | Err (e : exn).
Arguments Ok {A} a.
Arguments Err {A} e.

(** Git: a commit, and the repository of a working directory, with its
    configuration as values by (section, option). *)
Record Commit : Type := {
  message : string;
  (* effective user.name and user.email when the commit was made *)
  author_name : option string;
  author_email : option string;
  (* the time the commit was made *)
  committed_date : Z;
  (* the files of the commit, by their path, each with the mode git
     records for it *)
  tree : gmap Path node;
}.

Record Repo : Type := {
  repo_config : gmap (string * string) string;
  commits : list Commit;
}.

Record World : Type := {
  fs : gmap Path node;
  (* lines written by LOGD *)
  log : list string;
  (* files whose content was read, in order *)
  reads : list Path;
  (* repositories, by working directory *)
  repos : gmap Path Repo;
  (* git configuration above the repository level (system, user, global) *)
  git_global : gmap (string * string) string;
  (* process umask *)
  umask : Z;
  (* datetime.now().year *)
  now_year : nat;
  (* entries the operating system refuses to remove *)
  undeletable : Path → bool;
  (* order in which the operating system lists directory entries *)
  dir_order : list Path → list Path;
}.

Definition set_fs (f : gmap Path node) (w : World) : World :=
  {| fs := f; log := log w; reads := reads w; repos := repos w;
     git_global := git_global w; umask := umask w; now_year := now_year w;
     undeletable := undeletable w; dir_order := dir_order w |}.

Definition set_log (l : list string) (w : World) : World :=
  {| fs := fs w; log := l; reads := reads w; repos := repos w;
     git_global := git_global w; umask := umask w; now_year := now_year w;
     undeletable := undeletable w; dir_order := dir_order w |}.

Definition set_reads (r : list Path) (w : World) : World :=
  {| fs := fs w; log := log w; reads := r; repos := repos w;
     git_global := git_global w; umask := umask w; now_year := now_year w;
     undeletable := undeletable w; dir_order := dir_order w |}.

Definition set_repos (r : gmap Path Repo) (w : World) : World :=
  {| fs := fs w; log := log w; reads := reads w; repos := r;
     git_global := git_global w; umask := umask w; now_year := now_year w;
     undeletable := undeletable w; dir_order := dir_order w |}.

(** ** State and exception monad *)

Definition M (A : Type) : Type := World → result A * World.

Definition ret {A} (a : A) : M A := λ w, (Ok a, w).

Definition raise {A} (e : exn) : M A := λ w, (Err e, w).

Definition bind {A B} (m : M A) (f : A → M B) : M B :=
  λ w, match m w with
       | (Ok a, w') => f a w'
       | (Err e, w') => (Err e, w')
       end.

(** [try: m except Exception: h] *)
Definition try_except {A} (m : M A) (h : M A) : M A :=
  λ w, match m w with
       | (Ok a, w') => (Ok a, w')
       | (Err _, w') => h w'
       end.

Definition get_world : M World := λ w, (Ok w, w).

Definition lift {A} (r : result A) : M A := λ w, (r, w).

Declare Scope m_scope.
Delimit Scope m_scope with M.
Notation "'let!' x ':=' m 'in' k" := (bind m (λ x, k))
  (at level 10, x name, m at level 100, k at level 200) : m_scope.
Notation "m ;;; k" := (bind m (λ _, k))
  (at level 100, right associativity) : m_scope.
Open Scope m_scope.

(** [for x in l: body x] *)
Fixpoint for_each {A} (l : list A) (body : A → M unit) : M unit :=
  match l with
  | [] => ret tt
  | x :: l' => body x ;;; for_each l' body
  end.

(** ** File-system primitives *)

Definition LOGD (s : string) : M unit :=
  λ w, (Ok tt, set_log (log w ++ [s]) w).

Definition path_is_file (p : Path) : M bool := λ w, (Ok (is_file (fs w) p), w).
Definition path_is_dir (p : Path) : M bool := λ w, (Ok (is_dir (fs w) p), w).
Definition path_exists (p : Path) : M bool := λ w, (Ok (exists_ (fs w) p), w).

(** A regular file lies above [p]. *)
Definition below_a_file (fs : gmap Path node) (p : Path) : bool :=
  existsb (λ k, is_file fs (take k p)) (seq 0 (length p)).

(** The error of the operating system for a path that cannot be reached:
    ENOTDIR when a regular file lies above it, else ENOENT. *)
Definition missing (fs : gmap Path node) (p : Path) : exn :=
  if below_a_file fs p then NotADirectoryError else ENOENT.

(** [open(p).read()] *)
Definition read_text (p : Path) : M string :=
  λ w, match fs w !! p with
       | Some (File c _) => (Ok c, set_reads (reads w ++ [p]) w)
       | Some Dir => (Err IsADirectoryError, w)
       | None => (Err (missing (fs w) p), w)
       end.

(** Mode of a file created by [open(p, "w")]: [0o666 & ~umask]. *)
Definition created_mode (w : World) : Z :=
  Z.land 438 (Z.lnot (umask w)).

(** [open(p, "w").write(c)]: creates or truncates; an existing file keeps
    its mode. *)
Definition write_text (p : Path) (c : string) : M unit :=
  λ w, match fs w !! p with
       | Some (File _ m) => (Ok tt, set_fs (<[p := File c m]> (fs w)) w)
       | Some Dir => (Err IsADirectoryError, w)
       | None =>
           match p with
           | [] => (Err IsADirectoryError, w)
           | _ =>
             match fs w !! parent p with
             | Some Dir => (Ok tt, set_fs (<[p := File c (created_mode w)]> (fs w)) w)
             | Some (File _ _) => (Err NotADirectoryError, w)
             | None => (Err (missing (fs w) p), w)
             end
           end
       end.

(** [os.chmod(p, mode)] *)
Definition chmod (p : Path) (mode : Z) : M unit :=
  λ w, match fs w !! p with
       | Some (File c _) => (Ok tt, set_fs (<[p := File c mode]> (fs w)) w)
       | Some Dir => (Ok tt, w)
       | None => (Err (missing (fs w) p), w)
       end.

(** [shutil.copyfile(src, dst, follow_symlinks=True)]: content only. *)
Definition copyfile (src dst : Path) : M unit :=
  let! w := get_world in
  if bool_decide (src = dst) && exists_ (fs w) src
  then raise SameFileError
  else let! c := read_text src in write_text dst c.

(** [os.mkdir(p)] *)
Definition os_mkdir (p : Path) : M unit :=
  λ w, match fs w !! p with
       | Some _ => (Err FileExistsError, w)
       | None =>
           match p with
           | [] => (Err FileExistsError, w)
           | _ =>
             match fs w !! parent p with
             | Some Dir => (Ok tt, set_fs (<[p := Dir]> (fs w)) w)
             | Some (File _ _) => (Err NotADirectoryError, w)
             | None => (Err (missing (fs w) p), w)
             end
           end
       end.

(** [Path.mkdir(parents=False, exist_ok=...)] *)
Definition mkdir_noparents (exist_ok : bool) (p : Path) : M unit :=
  λ w, match os_mkdir p w with
       | (Ok tt, w') => (Ok tt, w')
       | (Err (FileNotFoundError msg), w') => (Err (FileNotFoundError msg), w')
       | (Err e, w') =>
           if negb exist_ok || negb (is_dir (fs w') p)
           then (Err e, w') else (Ok tt, w')
       end.

(** [Path.mkdir(parents=True, exist_ok=...)]: on a missing parent, the
    parents are created first (tolerating existing ones), then [p].  The
    recursion is on the parent, so [fuel] at least the number of parts of
    [p] is enough. *)
Fixpoint mkdir_parents (fuel : nat) (exist_ok : bool) (p : Path) : M unit :=
  λ w, match os_mkdir p w with
       | (Ok tt, w') => (Ok tt, w')
       | (Err (FileNotFoundError msg), w') =>
           match fuel with
           | O => (Err (FileNotFoundError msg), w')
           | S fuel' =>
               if bool_decide (parent p = p)
               then (Err (FileNotFoundError msg), w')
               else (mkdir_parents fuel' true (parent p) ;;;
                     mkdir_noparents exist_ok p) w'
           end
       | (Err e, w') =>
           if negb exist_ok || negb (is_dir (fs w') p)
           then (Err e, w') else (Ok tt, w')
       end.

Definition mkdir (p : Path) : M unit :=
  mkdir_parents (length p) false p.

(** [p] lies in the tree rooted at [d] ([d] included). *)
Definition under (d p : Path) : bool := bool_decide (d `prefix_of` p).

(** [shutil.rmtree(d, ignore_errors=True)]: every entry of the tree is
    removed, except the entries the system refuses to remove and the
    directories above them; no error is reported. *)
Definition survives (w : World) (d p : Path) : bool :=
  bool_decide (Exists (λ q, under d q && under p q && undeletable w q = true)
                      (map fst (map_to_list (fs w)))).

Definition rmtree_ignore_errors (d : Path) : M unit :=
  λ w, if is_dir (fs w) d
       then (Ok tt,
             set_fs (filter (λ kv, under d kv.1 = false ∨ survives w d kv.1 = true)
                            (fs w)) w)
       else (Ok tt, w).

(** [d.iterdir()] *)
Definition children (fs : gmap Path node) (d : Path) : list Path :=
  List.filter (λ q, bool_decide (q ≠ [] ∧ parent q = d)) (map fst (map_to_list fs)).

Definition iterdir (d : Path) : M (list Path) :=
  λ w, match fs w !! d with
       | Some Dir => (Ok (dir_order w (children (fs w) d)), w)
       | Some (File _ _) => (Err NotADirectoryError, w)
       | None => (Err (missing (fs w) d), w)
       end.

(** ** Collaborators

    The libraries the program calls: the image unpacker (AIK), the property
    and partition-table parsers, the template renderer, and git, for what
    it keeps in its own directory. *)

Record ImageInfo : Type := {
  kernel : option Path;
  dt : option Path;
  dtb : option Path;
  dtbo : option Path;
  ramdisk : option Path;
  vendor_ramdisk : option Path;
  (* the remaining attributes (command line, offsets, ...), read by templates only *)
  attributes : list (string * string);
}.

Class Collaborators : Type := {
  BuildProp : Type;
  (* BuildProp() *)
  BuildProp_new : BuildProp;
  (* the properties of a file's text, added to a BuildProp *)
  parse_props : BuildProp → string → result BuildProp;
  DeviceInfo : Type;
  (* DeviceInfo(build_prop) *)
  DeviceInfo_new : BuildProp → result DeviceInfo;
  manufacturer : DeviceInfo → string;
  codename : DeviceInfo → string;
  Fstab : Type;
  (* the partition table of a file's text *)
  parse_fstab : string → result Fstab;
  (* fstab.format(twrp=...) *)
  Fstab_format : Fstab → bool → string;
  (* AIKManager().unpackimg(image) *)
  unpackimg : Path → M ImageInfo;
  (* twrpdtgen.__version__ *)
  version : string;
  (* the template engine: the text of a named template for the keyword
     arguments comment_prefix, current_year, device_info, fstab,
     image_info, version *)
  render_text :
    string → string → string → DeviceInfo → Fstab → ImageInfo → string → string;
  (* git: the entries it keeps below the [.git] directory of a working
     directory once it has acted there in a world (HEAD, config, hooks,
     index, logs, objects, ...), by their paths below [.git] *)
  dot_git : World → Path → list (Path * node);
  (* git: the time it gives a commit made in a world *)
  commit_time : World → Z;
  (* glob, on which [index.add(["*"])] relies: the files it stages in a
     world for a working directory whose own path has a character that
     glob reads as a pattern *)
  glob_staged : World → Path → gmap Path node;
}.

(** ** Git primitives (GitPython)

    The file system holds the working tree and the directory [.git]; what
    git keeps below [.git] is its own: after each of its writes it is what
    [dot_git] gives for the world of the write.  What the program asks of
    a repository (its configuration and its commits) is kept in [repos].
    Git itself is taken to work: the only exception of these primitives is
    the one for an option that is not set. *)

Section Git.

Context `{Collaborators}.

Definition empty_repo : Repo := {| repo_config := ∅; commits := [] |}.

Definition get_repo (w : World) (path : Path) : Repo :=
  default empty_repo (repos w !! path).

(** [p] lies below [d]; [d] itself does not. *)
Definition strictly_under (d p : Path) : bool :=
  under d p && negb (bool_decide (p = d)).

(** The file system in which the entries below the directory [d] are
    [entries], given by their paths below [d]. *)
Definition put_below (d : Path) (entries : list (Path * node)) (fs : gmap Path node)
    : gmap Path node :=
  foldr (λ e acc, match e.1 with
                  | [] => acc
                  | _ :: _ => <[d ++ e.1 := e.2]> acc
                  end)
        (filter (λ kv, strictly_under d kv.1 = false) fs) entries.

(** A write of git to the repository of a working directory. *)
Definition git_writes (repo : Path) : M unit :=
  λ w, (Ok tt,
        if is_dir (fs w) (repo // [".git"])
        then set_fs (put_below (repo // [".git"]) (dot_git w repo) (fs w)) w
        else w).

(** [Repo.init(path)] for a folder that is there (the program has just
    created it): an existing repository is reused. *)
Definition Repo_init (path : Path) : M Path :=
  let! w := get_world in
  if is_dir (fs w) (path // [".git"]) then ret path
  else os_mkdir (path // [".git"]) ;;;
       (λ w', (Ok tt, set_repos (<[path := empty_repo]> (repos w')) w')) ;;;
       git_writes path ;;;
       ret path.

(** The value a reader over all configuration levels sees: the repository
    level overrides the levels above it. *)
Definition effective_config (w : World) (repo : Path) (key : string * string)
    : option string :=
  match repo_config (get_repo w repo) !! key with
  | Some v => Some v
  | None => git_global w !! key
  end.

(** [config_reader().get_value(section, option)]: raises when unset. *)
Definition config_get_value (repo : Path) (section option : string) : M string :=
  λ w, match effective_config w repo (section, option) with
       | Some v => (Ok v, w)
       | None => (Err NoOptionError, w)
       end.

(** [config_writer().set_value(section, option, value)]: writes the
    repository level. *)
Definition config_set_value (repo : Path) (section option value : string) : M unit :=
  (λ w, let r := get_repo w repo in
        (Ok tt,
         set_repos (<[repo := {| repo_config := <[(section, option) := value]> (repo_config r);
                                 commits := commits r |}]> (repos w)) w)) ;;;
  git_writes repo.

(** The entries that [index.add(["*"])] takes from the working tree:
    everything below a top-level entry whose name does not start with a
    dot. *)
Definition staged (repo : Path) (p : Path) : bool :=
  match drop (length repo) p with
  | String c _ :: _ => under repo p && negb (Ascii.eqb c ".")
  | _ => false
  end.

Definition is_file_node (n : node) : bool :=
  match n with File _ _ => true | Dir => false end.

(** The characters glob reads as a pattern. *)
Definition glob_magic (s : string) : bool :=
  existsb (λ c, Ascii.eqb c "*" || Ascii.eqb c "?" || Ascii.eqb c "[")%char
          (list_ascii_of_string s).

Definition is_pattern (p : Path) : bool := existsb glob_magic p.

(** The mode git records for a file: 0o755 (493) when its owner may
    execute it (0o100 is 64), else 0o644 (420). *)
Definition index_mode (m : Z) : Z :=
  if (Z.land m 64 =? 0)%Z then 420%Z else 493%Z.

Definition index_entry (n : node) : node :=
  match n with
  | File c m => File c (index_mode m)
  | Dir => Dir
  end.

(** What [index.add(["*"])] stages: the pattern is joined to the path of
    the working directory and given to glob as a whole, which lists the
    working directory only when its path has no character it reads as a
    pattern; the files of the entries listed are staged, directories are
    not. *)
Definition staged_files (w : World) (repo : Path) : gmap Path node :=
  if is_pattern repo then glob_staged w repo
  else index_entry <$> filter (λ kv, staged repo kv.1 && is_file_node kv.2 = true) (fs w).

(** [index.add(["*"])] followed by [index.commit(message)] *)
Definition index_add_commit (repo : Path) (msg : string) : M unit :=
  (λ w, let r := get_repo w repo in
        let c := {| message := msg;
                    author_name := effective_config w repo ("user", "name");
                    author_email := effective_config w repo ("user", "email");
                    committed_date := commit_time w;
                    tree := staged_files w repo |} in
        (Ok tt,
         set_repos (<[repo := {| repo_config := repo_config r;
                                 commits := commits r ++ [c] |}]> (repos w)) w)) ;;;
  git_writes repo.

End Git.

(** ** The DeviceTree class *)

Section DeviceTree.

Context `{Collaborators}.

Record DeviceTree : Type := {
  image : Path;
  current_year : string;
  image_info : ImageInfo;
  build_prop : BuildProp;
  device_info : DeviceInfo;
  fstab : Fstab;
  init_rcs : list Path;
}.

(** Modelled from the spec: [twrpdtgen.templates.render_template], whose
    source is not at hand.  It renders the named template with the given
    context; with [to_file] the text is written to [out_file] (the
    template's own name when empty) in [device_tree_path], else it is only
    returned. *)
Definition render_template (device_tree_path : option Path) (template_file : string)
    (out_file : string) (to_file : bool) (rendered : string) : M string :=
  if to_file then
    match device_tree_path with
    | Some folder =>
        let out_file := if String.eqb out_file "" then template_file else out_file in
        write_text (folder ++ parts_of out_file) rendered ;;; ret rendered
    | None => raise (CollaboratorError "no output folder")
    end
  else ret rendered.

Definition _render_template (self : DeviceTree) (device_tree_path : option Path)
    (template_file : string) (comment_prefix : string)
    (out_file : string) (to_file : bool) : M string :=
  render_template device_tree_path template_file out_file to_file
    (render_text template_file comment_prefix (current_year self)
       (device_info self) (fstab self) (image_info self) version).

Definition is_dir_opt (fs : gmap Path node) (p : option Path) : bool :=
  match p with Some p => is_dir fs p | None => false end.

(** The choice of the ramdisk in [__init__]: the standard one when it is a
    directory, else the vendor one. *)
Definition select_ramdisk (image_info : ImageInfo) : M Path :=
  let! w := get_world in
  if is_dir_opt (fs w) (ramdisk image_info) then
    LOGD "Using standard ramdisk" ;;;
    ret (default [] (ramdisk image_info))
  else if is_dir_opt (fs w) (vendor_ramdisk image_info) then
    LOGD "Using vendor_ramdisk (vendor_boot v4 detected)" ;;;
    ret (default [] (vendor_ramdisk image_info))
  else raise (AssertionError "No valid ramdisk found (neither ramdisk nor vendor_ramdisk)").

(** [build_prop.import_props(file)] *)
Definition import_props (build_prop : BuildProp) (file : Path) : M BuildProp :=
  let! text := read_text file in lift (parse_props build_prop text).

(** The loop over [search_locations]: the result is the pair
    [(build_prop, build_prop_found)]. *)
Fixpoint load_build_prop (search_locations : list Path) (build_prop : BuildProp)
    : M (BuildProp * bool) :=
  match search_locations with
  | [] => ret (build_prop, false)
  | build_prop_location :: rest =>
      let! f := path_is_file build_prop_location in
      if negb f then load_build_prop rest build_prop
      else
        LOGD ("Loading build.prop from " +:+ path_str build_prop_location) ;;;
        let! build_prop := import_props build_prop build_prop_location in
        ret (build_prop, true)
  end.

(** The report written before the failure when no property file is found. *)
Definition log_searched (search_locations : list Path) : M unit :=
  LOGD "Searched locations:" ;;;
  for_each search_locations (λ location,
    let! e := path_exists location in
    LOGD ("  - " +:+ path_str location +:+
          " (" +:+ (if e then "EXISTS" else "NOT FOUND") +:+ ")")).

(** [Fstab(file)] *)
Definition Fstab_new (file : Path) : M Fstab :=
  let! text := read_text file in lift (parse_fstab text).

(** The loop over the partition-table candidates. *)
Fixpoint load_fstab (locations : list Path) : M (option Fstab) :=
  match locations with
  | [] => ret None
  | fstab_location :: rest =>
      let! f := path_is_file fstab_location in
      if negb f then load_fstab rest
      else
        LOGD ("Generating fstab using " +:+ path_str fstab_location +:+ " as reference...") ;;;
        let! fstab := Fstab_new fstab_location in
        ret (Some fstab)
  end.

Definition is_init_rc (init_rc : Path) : bool :=
  endswith (name init_rc) ".rc" && negb (String.eqb (name init_rc) "init.rc").

(** The loop over the script directories. *)
Fixpoint collect_init_rcs (dirs : list Path) (init_rcs : list Path) : M (list Path) :=
  match dirs with
  | [] => ret init_rcs
  | init_rc_path :: rest =>
      let! d := path_is_dir init_rc_path in
      if negb d then collect_init_rcs rest init_rcs
      else
        let! entries := iterdir init_rc_path in
        collect_init_rcs rest (init_rcs ++ List.filter is_init_rc entries)
  end.

(** The search for the property file in [__init__]. *)
Definition find_build_prop (ramdisk_path : Path) : M BuildProp :=
  let! w := get_world in
  let search_locations := get_extended_buildprop_locations (fs w) ramdisk_path in
  LOGD ("Searching for build.prop in " +:+ pretty (length search_locations)
        +:+ " locations...") ;;;
  let! found := load_build_prop search_locations BuildProp_new in
  if negb found.2
  then log_searched search_locations ;;;
       raise (AssertionError "No build.prop file found in any of the searched locations")
  else ret found.1.

(** The search for the partition table in [__init__]. *)
Definition find_fstab (ramdisk_path : Path) : M Fstab :=
  let! fstab := load_fstab (map (λ location, ramdisk_path // location) FSTAB_LOCATIONS) in
  match fstab with
  | None => raise (AssertionError "fstab not found")
  | Some fstab => ret fstab
  end.

(** The search for the init scripts in [__init__]. *)
Definition find_init_rcs (ramdisk_path : Path) : M (list Path) :=
  collect_init_rcs (map (λ location, ramdisk_path // location) INIT_RC_LOCATIONS) [].

(** [DeviceTree.__init__] *)
Definition DeviceTree_init (image : Path) : M DeviceTree :=
  let! w := get_world in
  let current_year := pretty (now_year w) in
  let! image_is_file := path_is_file image in
  if negb image_is_file then raise (FileNotFoundError "Specified file doesn't exist")
  else
  let! image_info := unpackimg image in
  let! ramdisk_path := select_ramdisk image_info in
  LOGD "Getting device infos..." ;;;
  let! build_prop := find_build_prop ramdisk_path in
  let! device_info := lift (DeviceInfo_new build_prop) in
  let! fstab := find_fstab ramdisk_path in
  let! init_rcs := find_init_rcs ramdisk_path in
  ret {| image := image; current_year := current_year; image_info := image_info;
         build_prop := build_prop; device_info := device_info; fstab := fstab;
         init_rcs := init_rcs |}.

Definition S_IRWXU : Z := 448.   (* 0o700 *)
Definition S_IRGRP : Z := 32.    (* 0o040 *)
Definition S_IROTH : Z := 4.     (* 0o004 *)

Definition copy_if_present (artifact : option Path) (dst : Path) : M unit :=
  match artifact with
  | Some src => copyfile src dst
  | None => ret tt
  end.

(** The binary artifacts of an image, each with its name in [prebuilt]. *)
Definition artifacts (image_info : ImageInfo) : list (option Path * string) :=
  [ (kernel image_info, "kernel"); (dt image_info, "dt.img");
    (dtb image_info, "dtb.img"); (dtbo image_info, "dtbo.img") ].

Definition device_tree_folder_of (self : DeviceTree) (output_path : Path) : Path :=
  joinstr (joinstr output_path (manufacturer (device_info self)))
          (codename (device_info self)).

(** The snapshot part of [dump_to_folder]. *)
Definition create_git_repo (self : DeviceTree) (device_tree_folder : Path) : M unit :=
  LOGD "Creating git repo..." ;;;
  let! git_repo := Repo_init device_tree_folder in
  let! identity :=
    try_except
      (let! email := config_get_value git_repo "user" "email" in
       let! name := config_get_value git_repo "user" "name" in
       ret (Some email, Some name))
      (ret (None, None)) in
  (if bool_decide (identity.1 = None) || bool_decide (identity.2 = None)
   then config_set_value git_repo "user" "email" "barezzisebastiano@gmail.com" ;;;
        config_set_value git_repo "user" "name" "Sebastiano Barezzi"
   else ret tt) ;;;
  let! commit_message := _render_template self None "commit_message" "#" "" false in
  index_add_commit git_repo commit_message.

(** What [create_git_repo] reads as the configured identity: both values,
    or none when one of the two is unset. *)
Definition read_identity (w : World) (repo : Path) : option string * option string :=
  match effective_config w repo ("user", "email"), effective_config w repo ("user", "name") with
  | Some email, Some name => (Some email, Some name)
  | _, _ => (None, None)
  end.

(** The blocks of [dump_to_folder], in the order of the code. *)
Definition remove_existing (device_tree_folder : Path) : M unit :=
  LOGD "Creating device tree folders..." ;;;
  let! d := path_is_dir device_tree_folder in
  if d then rmtree_ignore_errors device_tree_folder else ret tt.

Definition create_folders (device_tree_folder : Path) : M unit :=
  remove_existing device_tree_folder ;;;
  mkdir device_tree_folder ;;;
  mkdir (device_tree_folder // ["prebuilt"]) ;;;
  mkdir (device_tree_folder // ["recovery"] // ["root"]).

Definition write_makefiles (self : DeviceTree) (device_tree_folder : Path) : M unit :=
  LOGD "Writing makefiles/blueprints" ;;;
  _render_template self (Some device_tree_folder) "Android.bp" "//" "" true ;;;
  _render_template self (Some device_tree_folder) "Android.mk" "#" "" true ;;;
  _render_template self (Some device_tree_folder) "AndroidProducts.mk" "#" "" true ;;;
  _render_template self (Some device_tree_folder) "BoardConfig.mk" "#" "" true ;;;
  _render_template self (Some device_tree_folder) "device.mk" "#" "" true ;;;
  _render_template self (Some device_tree_folder) "extract-files.sh" "#" "" true ;;;
  _render_template self (Some device_tree_folder) "omni_device.mk" "#"
    ("omni_" +:+ codename (device_info self) +:+ ".mk") true ;;;
  _render_template self (Some device_tree_folder) "README.md" "#" "" true ;;;
  _render_template self (Some device_tree_folder) "setup-makefiles.sh" "#" "" true ;;;
  _render_template self (Some device_tree_folder) "vendorsetup.sh" "#" "" true ;;;
  ret tt.

Definition set_permissions (device_tree_folder : Path) : M unit :=
  chmod (device_tree_folder // ["extract-files.sh"]) (Z.lor (Z.lor S_IRWXU S_IRGRP) S_IROTH) ;;;
  chmod (device_tree_folder // ["setup-makefiles.sh"]) (Z.lor (Z.lor S_IRWXU S_IRGRP) S_IROTH).

Definition copy_prebuilts (self : DeviceTree) (prebuilt_path : Path) : M unit :=
  LOGD "Copying kernel..." ;;;
  copy_if_present (kernel (image_info self)) (prebuilt_path // ["kernel"]) ;;;
  copy_if_present (dt (image_info self)) (prebuilt_path // ["dt.img"]) ;;;
  copy_if_present (dtb (image_info self)) (prebuilt_path // ["dtb.img"]) ;;;
  copy_if_present (dtbo (image_info self)) (prebuilt_path // ["dtbo.img"]).

Definition write_fstab (self : DeviceTree) (device_tree_folder : Path) : M unit :=
  LOGD "Copying fstab..." ;;;
  write_text (device_tree_folder // ["recovery.fstab"]) (Fstab_format (fstab self) true).

Definition copy_init_scripts (self : DeviceTree) (recovery_root_path : Path) : M unit :=
  LOGD "Copying init scripts..." ;;;
  for_each (init_rcs self) (λ init_rc,
    copyfile init_rc (joinstr recovery_root_path (name init_rc))).

(** [DeviceTree.dump_to_folder] *)
Definition dump_to_folder (self : DeviceTree) (output_path : Path) (git : bool) : M Path :=
  let device_tree_folder := device_tree_folder_of self output_path in
  let prebuilt_path := device_tree_folder // ["prebuilt"] in
  let recovery_root_path := device_tree_folder // ["recovery"] // ["root"] in
  create_folders device_tree_folder ;;;
  write_makefiles self device_tree_folder ;;;
  set_permissions device_tree_folder ;;;
  copy_prebuilts self prebuilt_path ;;;
  write_fstab self device_tree_folder ;;;
  copy_init_scripts self recovery_root_path ;;;
  if negb git then ret device_tree_folder
  else create_git_repo self device_tree_folder ;;; ret device_tree_folder.

End DeviceTree.

(** ** A concrete setting, for examples *)

Module Demo.

(** Collaborators that keep the text they are given. *)
#[export] Instance demo : Collaborators := {|
  BuildProp := string;
  BuildProp_new := "";
  parse_props := λ bp text, Ok (bp +:+ text);
  DeviceInfo := string;
  DeviceInfo_new := λ bp, Ok bp;
  manufacturer := λ _, "acme";
  codename := λ di, di;
  Fstab := string;
  parse_fstab := λ text, Ok text;
  Fstab_format := λ f twrp, if twrp then "twrp:" +:+ f else f;
  unpackimg := λ image,
    ret {| kernel := Some (parent image // ["out"; "kernel"]);
           dt := None; dtb := None; dtbo := None;
           ramdisk := Some (parent image // ["out"; "ramdisk"]);
           vendor_ramdisk := None; attributes := [] |};
  version := "1.0";
  render_text := λ template comment_prefix year di f ii v,
    comment_prefix +:+ " " +:+ template +:+ " " +:+ year +:+ " " +:+ di;
  dot_git := λ w repo,
    [ (["HEAD"], File "ref: refs/heads/master" 420);
      (["hooks"], Dir);
      (["hooks"; "pre-commit.sample"], File "#!/bin/sh" 493);
      (["logs"], Dir);
      (["logs"; "HEAD"], File (String.concat ";" (log w)) 420) ];
  commit_time := λ w, Z.of_nat (length (log w));
  glob_staged := λ _ _, ∅;
|}.

Definition mkfs (l : list (Path * node)) : gmap Path node := list_to_map l.

Definition world_of (f : gmap Path node) : World :=
  {| fs := f; log := []; reads := []; repos := ∅; git_global := ∅;
     umask := 18; now_year := 2022; undeletable := λ _, false;
     dir_order := λ l, l |}.

Definition image_fs : gmap Path node :=
  mkfs [ ([], Dir); (["w"], Dir); (["w"; "boot.img"], File "img" 420);
         (["w"; "out"], Dir); (["w"; "out"; "kernel"], File "KERNEL" 420);
         (["w"; "out"; "ramdisk"], Dir);
         (["w"; "out"; "ramdisk"; "prop.default"], File "crab" 420);
         (["w"; "out"; "ramdisk"; "init.rc"], File "main" 420);
         (["w"; "out"; "ramdisk"; "init.usb.rc"], File "usb-root" 420);
         (["w"; "out"; "ramdisk"; "system"], Dir);
         (["w"; "out"; "ramdisk"; "system"; "build.prop"], File "lobster" 420);
         (["w"; "out"; "ramdisk"; "system"; "etc"], Dir);
         (["w"; "out"; "ramdisk"; "system"; "etc"; "recovery.fstab"], File "/data ext4" 420);
         (["w"; "out"; "ramdisk"; "vendor"], Dir);
         (["w"; "out"; "ramdisk"; "vendor"; "etc"], Dir);
         (["w"; "out"; "ramdisk"; "vendor"; "etc"; "recovery.fstab"], File "/vendor ext4" 420);
         (["w"; "out"; "ramdisk"; "vendor"; "etc"; "init"], Dir);
         (["w"; "out"; "ramdisk"; "vendor"; "etc"; "init"; "init.usb.rc"], File "usb-vendor" 420);
         (["w"; "odm"], Dir);
         (["w"; "odm"; "build.prop"], File "shrimp" 420) ].

(** The device tree that [DeviceTree_init] builds from the demo image. *)
Definition demo_tree : DeviceTree :=
  {| image := ["w"; "boot.img"];
     current_year := "2022";
     image_info :=
       {| kernel := Some ["w"; "out"; "kernel"];
          dt := None; dtb := None; dtbo := None;
          ramdisk := Some ["w"; "out"; "ramdisk"];
          vendor_ramdisk := None; attributes := [] |};
     build_prop := "crab";
     device_info := "crab";
     fstab := "/data ext4";
     init_rcs := [ ["w"; "out"; "ramdisk"; "init.usb.rc"];
                   ["w"; "out"; "ramdisk"; "vendor"; "etc"; "init"; "init.usb.rc"] ] |}.

(** Where the demo tree goes for the output path [/o]. *)
Definition demo_folder : Path := ["o"; "acme"; "crab"].

(** The demo image next to an output folder left by an earlier run, which
    holds a stale file. *)
Definition stale_fs : gmap Path node :=
  <[ ["o"] := Dir ]> (<[ ["o"; "acme"] := Dir ]> (<[ demo_folder := Dir ]>
    (<[ demo_folder ++ ["old.txt"] := File "stale" 420 ]> image_fs))).

(** A world in which the stale file cannot be removed. *)
Definition locked_world : World :=
  {| fs := stale_fs; log := []; reads := []; repos := ∅; git_global := ∅;
     umask := 18; now_year := 2022;
     undeletable := λ p, bool_decide (p = demo_folder ++ ["old.txt"]);
     dir_order := λ l, l |}.

(** The demo tree for an image without kernel and device-tree blobs. *)
Definition no_blob_tree : DeviceTree :=
  {| image := image demo_tree;
     current_year := current_year demo_tree;
     image_info :=
       {| kernel := None; dt := None; dtb := None; dtbo := None;
          ramdisk := Some ["w"; "out"; "ramdisk"];
          vendor_ramdisk := None; attributes := [] |};
     build_prop := build_prop demo_tree;
     device_info := device_info demo_tree;
     fstab := fstab demo_tree;
     init_rcs := init_rcs demo_tree |}.

(** The world a first run on the demo image leaves, and the same with a
    file added to the device tree folder afterwards. *)
Definition first_run : World :=
  (dump_to_folder demo_tree ["o"] false (world_of image_fs)).2.

Definition littered : World :=
  set_fs (<[ demo_folder ++ ["old.txt"] := File "stale" 420 ]> (fs first_run)) first_run.

(** The world a first run with snapshot leaves. *)
Definition first_snapshot : World :=
  (dump_to_folder demo_tree ["o"] true (world_of image_fs)).2.

(** A world in which git knows an e-mail address but no name. *)
Definition email_only_world : World :=
  {| fs := image_fs; log := []; reads := []; repos := ∅;
     git_global := {[ ("user", "email") := "dev@example.org" ]};
     umask := 18; now_year := 2022; undeletable := λ _, false;
     dir_order := λ l, l |}.

(** A bare file system: nothing but the root. *)
Definition bare_fs : gmap Path node := mkfs [ ([], Dir) ].

Definition ramdisk_root : Path := ["w"; "out"; "ramdisk"].

End Demo.
Import Demo.

(** ** The search list as the specification words it

    The specification lets the extended search start at the ramdisk root
    ("itself, parent, grandparent"). *)
Definition spec_search_locations (fs : gmap Path node) (base_path : Path) : list Path :=
  map (λ location, base_path // location) BUILDPROP_LOCATIONS
  ++ concat (map (λ d, if exists_ fs d then extended_locations d else [])
                 [ base_path; parent base_path; parent (parent base_path) ]).

(** * Properties *)

(** ** Paths *)

Lemma parent_snoc (p : Path) (x : string) : parent (p ++ [x]) = p.
Proof. unfold parent. apply removelast_last. Qed.

Lemma name_snoc (p : Path) (x : string) : name (p ++ [x]) = x.
Proof. unfold name. apply last_last. Qed.

Lemma parent_nonempty (p : Path) : p ≠ [] → p = parent p ++ [name p].
Proof. intros Hp. unfold parent, name. by apply app_removelast_last. Qed.

Lemma parent_length (p : Path) : p ≠ [] → S (length (parent p)) = length p.
Proof.
  intros Hp. rewrite (parent_nonempty p Hp) at 2. rewrite length_app. cbn. lia.
Qed.

Lemma parent_fixed (p : Path) : parent p = p → p = [].
Proof.
  intros E. destruct (decide (p = [])) as [|Hp]; [done|].
  apply parent_length in Hp. rewrite E in Hp. lia.
Qed.

Lemma under_true (d p : Path) : under d p = true ↔ d `prefix_of` p.
Proof. unfold under. apply bool_decide_eq_true. Qed.

Lemma under_false (d p : Path) : under d p = false ↔ ¬ d `prefix_of` p.
Proof. unfold under. apply bool_decide_eq_false. Qed.


Lemma prefix_parent (p : Path) : parent p `prefix_of` p.
Proof.
  destruct (decide (p = [])) as [->|Hp]; [done|].
  exists [name p]. by apply parent_nonempty.
Qed.

Lemma prefix_snoc_cases (q p : Path) (x : string) :
  q `prefix_of` p ++ [x] → q = p ++ [x] ∨ q `prefix_of` p.
Proof.
  intros [k Hk]. destruct k as [|y k _] using rev_ind.
  - left. by rewrite app_nil_r in Hk.
  - right. rewrite app_assoc in Hk. apply app_inj_tail in Hk as [-> _].
    by apply prefix_app_r.
Qed.

Lemma prefix_cases (q p : Path) :
  q `prefix_of` p → q = p ∨ (p ≠ [] ∧ q `prefix_of` parent p).
Proof.
  intros Hq. destruct (decide (p = [])) as [->|Hp].
  - left. by apply prefix_nil_inv in Hq.
  - rewrite (parent_nonempty p Hp) in Hq. apply prefix_snoc_cases in Hq as [->|Hq].
    + left. by rewrite <- parent_nonempty.
    + by right.
Qed.

Lemma prefix_between (d q l : Path) :
  d `prefix_of` q → q `prefix_of` d ++ l → ∃ l', q = d ++ l' ∧ l' `prefix_of` l.
Proof.
  intros [l' ->] Hq. exists l'. split; [done|]. by apply prefix_app_inv in Hq.
Qed.

(** ** Well-formed file systems *)

Lemma is_dir_true (fs : gmap Path node) (p : Path) :
  is_dir fs p = true ↔ fs !! p = Some Dir.
Proof. unfold is_dir. destruct (fs !! p) as [[]|]; split; congruence. Qed.

Lemma is_file_true (fs : gmap Path node) (p : Path) :
  is_file fs p = true ↔ ∃ c m, fs !! p = Some (File c m).
Proof.
  unfold is_file. destruct (fs !! p) as [[c m|]|]; split; try congruence; eauto.
  - by intros (? & ? & ?).
  - by intros (? & ? & ?).
Qed.

Lemma below_a_file_true (fs : gmap Path node) (p : Path) :
  below_a_file fs p = true ↔
  ∃ q c m, q `prefix_of` p ∧ q ≠ p ∧ fs !! q = Some (File c m).
Proof.
  unfold below_a_file. rewrite existsb_exists. split.
  - intros (k & Hk & Hf). apply in_seq in Hk. apply is_file_true in Hf as (c & m & Hf).
    exists (take k p), c, m. split; [apply prefix_take|]. split; [|done].
    intros E. apply (f_equal length) in E. rewrite length_take in E. lia.
  - intros (q & c & m & [l ->] & Hne & Hf). exists (length q). split.
    + apply in_seq. rewrite length_app. destruct l; [by rewrite app_nil_r in Hne|].
      cbn. lia.
    + rewrite take_app_length. apply is_file_true. eauto.
Qed.

Lemma below_a_file_false (fs : gmap Path node) (p : Path) :
  (∀ q, q `prefix_of` p → q ≠ p → fs !! q = None ∨ fs !! q = Some Dir) →
  below_a_file fs p = false.
Proof.
  intros Hanc. apply not_true_is_false. intros Hb.
  apply below_a_file_true in Hb as (q & c & m & Hq & Hne & Hf).
  destruct (Hanc q Hq Hne); congruence.
Qed.

Lemma missing_ENOENT (fs : gmap Path node) (p : Path) :
  (∀ q, q `prefix_of` p → q ≠ p → fs !! q = None ∨ fs !! q = Some Dir) →
  missing fs p = ENOENT.
Proof. intros Hanc. unfold missing. by rewrite below_a_file_false. Qed.

Lemma missing_ENOTDIR (fs : gmap Path node) (p q : Path) c m :
  q `prefix_of` p → q ≠ p → fs !! q = Some (File c m) →
  missing fs p = NotADirectoryError.
Proof.
  intros Hq Hne Hf. unfold missing.
  assert (below_a_file fs p = true) as ->; [|done].
  apply below_a_file_true. by exists q, c, m.
Qed.

Lemma fs_wfb_correct (fs : gmap Path node) : fs_wfb fs = true → fs_wf fs.
Proof.
  unfold fs_wfb, is_dir. intros Hb. apply andb_prop in Hb as [Hroot Hall]. split.
  - by destruct (fs !! []) as [[]|].
  - intros p n Hp Hne. rewrite forallb_forall in Hall.
    specialize (Hall (p, n)). cbn in Hall.
    rewrite bool_decide_eq_false_2 in Hall by done. cbn [orb] in Hall.
    apply is_dir_true, Hall, list_elem_of_In, elem_of_map_to_list, Hp.
Qed.

Lemma Ok_inj {A} (a b : A) : Ok a = Ok b → a = b.
Proof. by intros [= ->]. Qed.

Lemma run_eq {A} (x : result A * World) (r : result A) : x.1 = r → x = (r, x.2).
Proof. destruct x. by intros <-. Qed.

Lemma wf_prefix_dir (fs : gmap Path node) (q k : Path) n :
  fs_wf fs → fs !! (q ++ k) = Some n → k ≠ [] → fs !! q = Some Dir.
Proof.
  intros [_ Hwf]. revert n. induction k as [|y k IH] using rev_ind; intros n Hn Hk; [done|].
  rewrite app_assoc in Hn. apply Hwf in Hn as Hpar.
  - rewrite parent_snoc in Hpar. destruct (decide (k = [])) as [->|Hk'].
    + by rewrite app_nil_r in Hpar.
    + by eapply IH.
  - intros E. by apply app_nil in E as [_ ?].
Qed.

Lemma wf_ancestor_dir (fs : gmap Path node) (q p : Path) n :
  fs_wf fs → fs !! p = Some n → q `prefix_of` p → q ≠ p → fs !! q = Some Dir.
Proof.
  intros Hwf Hp [k ->] Hne. eapply wf_prefix_dir; [done..|].
  intros ->. by rewrite app_nil_r in Hne.
Qed.

Lemma wf_absent_under (fs : gmap Path node) (d q : Path) :
  fs_wf fs → fs !! d = None → d `prefix_of` q → fs !! q = None.
Proof.
  intros Hwf Hd Hq. destruct (fs !! q) as [n|] eqn:E; [|done].
  destruct (decide (d = q)) as [->|Hne]; [congruence|].
  by rewrite (wf_ancestor_dir fs d q n) in Hd.
Qed.

Lemma wf_insert_dir (fs : gmap Path node) (p : Path) :
  fs_wf fs → fs !! parent p = Some Dir → fs_wf (<[p := Dir]> fs).
Proof.
  intros [Hroot Hwf] Hpar. split.
  - destruct (decide (p = [])) as [->|Hp]; [by rewrite lookup_insert_eq|].
    by rewrite lookup_insert_ne.
  - intros q n Hq Hne. destruct (decide (p = parent q)) as [->|Hpq].
    + by rewrite lookup_insert_eq.
    + rewrite lookup_insert_ne by done.
      destruct (decide (p = q)) as [->|Hpq']; [done|].
      rewrite lookup_insert_ne in Hq by done. by eapply Hwf.
Qed.

Lemma wf_insert_file (fs : gmap Path node) (p : Path) c m :
  fs_wf fs → p ≠ [] → fs !! parent p = Some Dir → fs !! p ≠ Some Dir →
  fs_wf (<[p := File c m]> fs).
Proof.
  intros [Hroot Hwf] Hp Hpar Hnd. split.
  - by rewrite lookup_insert_ne.
  - intros q n Hq Hne. destruct (decide (p = parent q)) as [->|Hpq].
    + exfalso. destruct (decide (parent q = q)) as [E|Hpq'].
      { by apply parent_fixed in E. }
      rewrite lookup_insert_ne in Hq by done. by apply Hwf in Hq.
    + rewrite lookup_insert_ne by done.
      destruct (decide (p = q)) as [->|Hpq']; [done|].
      rewrite lookup_insert_ne in Hq by done. by eapply Hwf.
Qed.

(** ** Running the monad *)

Lemma bind_run {A B} (m : M A) (f : A → M B) w :
  bind m f w = match m w with
               | (Ok a, w') => f a w'
               | (Err e, w') => (Err e, w')
               end.
Proof. reflexivity. Qed.

Lemma bind_Ok {A B} (m : M A) (f : A → M B) w a w' :
  m w = (Ok a, w') → bind m f w = f a w'.
Proof. intros E. unfold bind. by rewrite E. Qed.

Lemma bind_Err {A B} (m : M A) (f : A → M B) w e w' :
  m w = (Err e, w') → bind m f w = (Err e, w').
Proof. intros E. unfold bind. by rewrite E. Qed.

Lemma bind_Ok_inv {A B} (m : M A) (f : A → M B) w b w' :
  bind m f w = (Ok b, w') → ∃ a w1, m w = (Ok a, w1) ∧ f a w1 = (Ok b, w').
Proof.
  unfold bind. destruct (m w) as [[a|e] w1]; intros E; [eauto | discriminate].
Qed.

(** ** What a computation may change

    [steps T m]: every run of [m], failed or not, takes a world to a world
    related to it by [T]. *)

Definition steps {A} (T : World → World → Prop) (m : M A) : Prop :=
  ∀ w, T w (m w).2.

Lemma steps_ret {A} T `{!Reflexive T} (a : A) : steps T (ret a).
Proof. intros w. reflexivity. Qed.

Lemma steps_raise {A} T `{!Reflexive T} e : steps T (@raise A e).
Proof. intros w. reflexivity. Qed.

Lemma steps_lift {A} T `{!Reflexive T} (r : result A) : steps T (lift r).
Proof. intros w. reflexivity. Qed.

Lemma steps_get_world T `{!Reflexive T} : steps T get_world.
Proof. intros w. reflexivity. Qed.

Lemma steps_bind {A B} T `{!Transitive T} (m : M A) (f : A → M B) :
  steps T m → (∀ a, steps T (f a)) → steps T (bind m f).
Proof.
  intros Hm Hf w. unfold bind. specialize (Hm w).
  destruct (m w) as [[a|e] w1]; cbn in *; [|done].
  etransitivity; [exact Hm | apply Hf].
Qed.

Lemma steps_try_except {A} T `{!Transitive T} (m h : M A) :
  steps T m → steps T h → steps T (try_except m h).
Proof.
  intros Hm Hh w. unfold try_except. specialize (Hm w).
  destruct (m w) as [[a|e] w1]; cbn in *; [done|].
  etransitivity; [exact Hm | apply Hh].
Qed.

Lemma steps_for_each {A} T `{!PreOrder T} (l : list A) (body : A → M unit) :
  (∀ x, x ∈ l → steps T (body x)) → steps T (for_each l body).
Proof.
  induction l as [|x l IH]; intros Hb; cbn [for_each].
  - apply steps_ret, _.
  - apply steps_bind; [apply _ | apply Hb; left | intros _; apply IH].
    intros y Hy. apply Hb. by right.
Qed.

Lemma steps_weaken {A} (T T' : World → World → Prop) (m : M A) :
  (∀ w w', T w w' → T' w w') → steps T m → steps T' m.
Proof. intros HT Hm w. apply HT, Hm. Qed.

(** The environment of the program: what no file operation changes. *)
Definition same_env (w w' : World) : Prop :=
  umask w' = umask w ∧ git_global w' = git_global w ∧ now_year w' = now_year w
  ∧ undeletable w' = undeletable w ∧ dir_order w' = dir_order w.

(** [changes S]: the environment is kept, and so is every entry of the file
    system outside [S]. *)
Definition changes (S : Path → Prop) (w w' : World) : Prop :=
  same_env w w' ∧ ∀ q, ¬ S q → fs w' !! q = fs w !! q.

#[export] Instance same_env_preorder : PreOrder same_env.
Proof.
  split.
  - by intros w.
  - intros w1 w2 w3 (?&?&?&?&?) (?&?&?&?&?). unfold same_env. by repeat split; etransitivity.
Qed.

#[export] Instance changes_preorder S : PreOrder (changes S).
Proof.
  split.
  - intros w. split; [reflexivity | done].
  - intros w1 w2 w3 [E1 F1] [E2 F2]. split; [by etransitivity|].
    intros q Hq. rewrite F2, F1; done.
Qed.

Lemma changes_mono (S S' : Path → Prop) w w' :
  (∀ q, S q → S' q) → changes S w w' → changes S' w w'.
Proof. intros HS [E F]. split; [done|]. intros q Hq. apply F. intros HSq. apply Hq, HS, HSq. Qed.

Lemma changes_LOGD S line : steps (changes S) (LOGD line).
Proof. intros w. split; [by unfold same_env | done]. Qed.

Lemma changes_read_text S p : steps (changes S) (read_text p).
Proof.
  intros w. unfold read_text. destruct (fs w !! p) as [[c m|]|]; cbn;
    (split; [by unfold same_env | done]).
Qed.

Lemma changes_write_text (S : Path → Prop) p c : S p → steps (changes S) (write_text p c).
Proof.
  intros Hp w. unfold write_text.
  destruct (fs w !! p) as [[c' m|]|] eqn:E.
  - split; [by unfold same_env|]. intros q Hq. apply lookup_insert_ne. by intros <-.
  - split; [by unfold same_env | done].
  - destruct p as [|x p']; [split; [by unfold same_env | done]|].
    match goal with |- context [match ?o with _ => _ end] => destruct o as [[? ?|]|] end;
      (split; [by unfold same_env|]); try done.
    intros q Hq. apply lookup_insert_ne. by intros <-.
Qed.

Lemma changes_chmod (S : Path → Prop) p mode : S p → steps (changes S) (chmod p mode).
Proof.
  intros Hp w. unfold chmod. destruct (fs w !! p) as [[c m|]|]; cbn;
    (split; [by unfold same_env|]); try done.
  intros q Hq. apply lookup_insert_ne. by intros <-.
Qed.

Lemma changes_os_mkdir (S : Path → Prop) p : S p → steps (changes S) (os_mkdir p).
Proof.
  intros Hp w. unfold os_mkdir. destruct (fs w !! p) as [n|].
  - split; [by unfold same_env | done].
  - destruct p as [|x p']; [split; [by unfold same_env | done]|].
    match goal with |- context [match ?o with _ => _ end] => destruct o as [[? ?|]|] end;
      (split; [by unfold same_env|]); try done.
    intros q Hq. apply lookup_insert_ne. by intros <-.
Qed.

Lemma changes_copyfile (S : Path → Prop) src dst : S dst → steps (changes S) (copyfile src dst).
Proof.
  intros Hd. unfold copyfile.
  apply steps_bind; [apply _ | apply steps_get_world, _ | intros w0].
  destruct (bool_decide (src = dst) && exists_ (fs w0) src).
  - apply steps_raise, _.
  - apply steps_bind; [apply _ | apply changes_read_text | intros c].
    by apply changes_write_text.
Qed.

Lemma changes_set_repos S r w : changes S w (set_repos r w).
Proof. split; [by unfold same_env | done]. Qed.

(** ** Creating and removing directories *)

Lemma os_mkdir_Ok (p : Path) w w' :
  os_mkdir p w = (Ok tt, w') →
  fs w !! p = None ∧ p ≠ [] ∧ fs w !! parent p = Some Dir
  ∧ w' = set_fs (<[p := Dir]> (fs w)) w.
Proof.
  unfold os_mkdir. destruct (fs w !! p) as [n|]; [discriminate|].
  destruct p as [|x p]; [discriminate|].
  match goal with |- context [match ?o with _ => _ end] => destruct o as [[? ?|]|] end;
    intros [= <-]; done.
Qed.

Lemma os_mkdir_Err (p : Path) w e w' :
  os_mkdir p w = (Err e, w') →
  w' = w ∧ (∀ msg, e = FileNotFoundError msg → fs w !! p = None).
Proof.
  unfold os_mkdir. destruct (fs w !! p) as [n|]; [by intros [= <- <-]|].
  destruct p as [|x p]; [by intros [= <- <-]|].
  match goal with |- context [match ?o with _ => _ end] => destruct o as [[? ?|]|] end;
    intros [= <- <-]; done.
Qed.

Lemma os_mkdir_exists (p : Path) w n :
  fs w !! p = Some n → os_mkdir p w = (Err FileExistsError, w).
Proof. intros E. unfold os_mkdir. by rewrite E. Qed.

(** C10's core: [mkdir] without [exist_ok] refuses an existing entry. *)
Lemma mkdir_exists (p : Path) w n :
  fs w !! p = Some n → mkdir p w = (Err FileExistsError, w).
Proof.
  intros E. unfold mkdir.
  destruct (length p); cbn [mkdir_parents]; by rewrite (os_mkdir_exists p w n E).
Qed.

Definition is_prefix_of (p : Path) : Path → Prop := λ q, q `prefix_of` p.

Lemma mkdir_parents_Ok (fuel : nat) (exist_ok : bool) (p : Path) w w' :
  fs_wf (fs w) → (length p ≤ fuel)%nat →
  mkdir_parents fuel exist_ok p w = (Ok tt, w') →
  fs_wf (fs w') ∧ changes (is_prefix_of p) w w'
  ∧ (∀ q, q `prefix_of` p → fs w' !! q = Some Dir)
  ∧ (exist_ok = false → fs w !! p = None).
Proof.
  revert exist_ok p w w'. induction fuel as [|fuel IH]; intros ok p w w' Hwf Hlen.
  - destruct p; [|cbn in Hlen; lia]. cbn [mkdir_parents].
    destruct (os_mkdir [] w) as [[[]|e] w1] eqn:E.
    { apply os_mkdir_Ok in E as (_ & ? & _); done. }
    apply os_mkdir_Err in E as [-> E].
    destruct e; try discriminate;
      (destruct (negb ok || negb (is_dir (fs w) [])) eqn:Hd; [discriminate|]);
      intros [= <-]; apply orb_false_elim in Hd as [Hok Hd];
      apply negb_false_iff in Hok, Hd; subst ok;
      (split; [done|]; split; [reflexivity|]; split; [|done]);
      intros q Hq; apply prefix_nil_inv in Hq as ->;
      by apply is_dir_true.
  - cbn [mkdir_parents]. destruct (os_mkdir p w) as [[[]|e] w1] eqn:E.
    + intros [= <-]. apply os_mkdir_Ok in E as (Hnone & Hp & Hpar & ->). cbn [fs set_fs].
      split; [by apply wf_insert_dir|]. split; [|split; [|done]].
      * split; [by unfold same_env|]. intros q Hq. cbn. apply lookup_insert_ne.
        intros <-. apply Hq. by unfold is_prefix_of.
      * intros q Hq. apply prefix_cases in Hq as [->|[_ Hq]]; [by rewrite lookup_insert_eq|].
        rewrite lookup_insert_ne.
        2:{ intros <-. rewrite (parent_nonempty p Hp) in Hq at 1.
            by apply prefix_snoc_not in Hq. }
        destruct (decide (q = parent p)) as [->|Hne]; [done|].
        by eapply wf_ancestor_dir.
    + apply os_mkdir_Err in E as [-> E].
      assert (Hother : negb ok || negb (is_dir (fs w) p) = false →
                fs_wf (fs w) ∧ changes (is_prefix_of p) w w
                ∧ (∀ q, q `prefix_of` p → fs w !! q = Some Dir) ∧ (ok = false → fs w !! p = None)).
      { intros Hd. apply orb_false_elim in Hd as [Hok Hd].
        apply negb_false_iff in Hok, Hd; subst ok.
        split; [done|]. split; [reflexivity|]. split; [|done].
        assert (Hpd : fs w !! p = Some Dir) by (by apply is_dir_true).
        intros q Hq. destruct (decide (q = p)) as [->|Hne]; [done|].
        by eapply wf_ancestor_dir. }
      destruct e;
        try (destruct (negb ok || negb (is_dir (fs w) p)) eqn:Hd;
             [discriminate | intros [= <-]; by apply Hother]).
      destruct (bool_decide (parent p = p)) eqn:Hpp; [discriminate|].
      apply bool_decide_eq_false in Hpp.
      assert (Hp : p ≠ []) by (by intros ->).
      intros Hrun. apply bind_Ok_inv in Hrun as ([] & w2 & Hrec & Hlast).
      apply IH in Hrec as (Hwf2 & Hch2 & Hdirs2 & _); [|done|].
      2:{ apply parent_length in Hp. lia. }
      assert (Hnone : fs w !! p = None) by (by eapply E).
      assert (Hnone2 : fs w2 !! p = None).
      { destruct Hch2 as [_ ->]; [done|]. unfold is_prefix_of.
        rewrite (parent_nonempty p Hp) at 1. apply prefix_snoc_not. }
      unfold mkdir_noparents in Hlast.
      destruct (os_mkdir p w2) as [[[]|e'] w3] eqn:E3.
      * injection Hlast as <-. apply os_mkdir_Ok in E3 as (_ & _ & Hpar & ->). cbn [fs set_fs].
        split; [by apply wf_insert_dir|]. split; [|split; [|done]].
        -- etransitivity.
           { eapply changes_mono; [|exact Hch2]. intros q Hq. unfold is_prefix_of in *.
             etransitivity; [exact Hq | apply prefix_parent]. }
           split; [by unfold same_env|]. intros q Hq. cbn. apply lookup_insert_ne.
           intros <-. apply Hq. by unfold is_prefix_of.
        -- intros q Hq. apply prefix_cases in Hq as [->|[_ Hq]]; [by rewrite lookup_insert_eq|].
           rewrite lookup_insert_ne; [by apply Hdirs2|].
           intros <-. rewrite (parent_nonempty p Hp) in Hq at 1.
           by apply prefix_snoc_not in Hq.
      * apply os_mkdir_Err in E3 as [-> _].
        destruct e'; try discriminate;
          (destruct (negb ok || negb (is_dir (fs w2) p)) eqn:Hd; [discriminate|]);
          apply orb_false_elim in Hd as [_ Hd]; apply negb_false_iff in Hd;
          apply is_dir_true in Hd; congruence.
Qed.

Lemma mkdir_Ok (p : Path) w w' :
  fs_wf (fs w) → mkdir p w = (Ok tt, w') →
  fs_wf (fs w') ∧ changes (is_prefix_of p) w w'
  ∧ (∀ q, q `prefix_of` p → fs w' !! q = Some Dir)
  ∧ fs w !! p = None.
Proof.
  intros Hwf Hrun. apply mkdir_parents_Ok in Hrun as (? & ? & ? & Hn); [|done..].
  split; [done|]. split; [done|]. split; [done|]. by apply Hn.
Qed.

Lemma survives_true (w : World) (d p : Path) :
  survives w d p = true ↔
  ∃ q n, fs w !! q = Some n ∧ d `prefix_of` q ∧ p `prefix_of` q ∧ undeletable w q = true.
Proof.
  unfold survives. rewrite bool_decide_eq_true, Exists_exists. split.
  - intros (q & Hq & HP). apply list_elem_of_In, in_map_iff in Hq as ([q' n] & <- & Hq).
    apply list_elem_of_In, elem_of_map_to_list in Hq. cbn in HP.
    apply andb_prop in HP as [HP Hu]. apply andb_prop in HP as [Hd Hp].
    exists q', n. by rewrite <- !under_true.
  - intros (q & n & Hq & Hd & Hp & Hu). exists q. split.
    + apply list_elem_of_In, in_map_iff. exists (q, n). split; [done|].
      by apply list_elem_of_In, elem_of_map_to_list.
    + apply under_true in Hd, Hp. by rewrite Hd, Hp, Hu.
Qed.

Definition is_under (d : Path) : Path → Prop := λ q, d `prefix_of` q.

Lemma rmtree_changes (d : Path) : steps (changes (is_under d)) (rmtree_ignore_errors d).
Proof.
  intros w. unfold rmtree_ignore_errors. destruct (is_dir (fs w) d); [|reflexivity].
  split; [by unfold same_env|]. intros q Hq. cbn.
  rewrite map_lookup_filter. destruct (fs w !! q) as [n|]; [|done]. cbn.
  rewrite option_guard_True; [done|]. left. by apply under_false.
Qed.

Lemma rmtree_wf (d : Path) w :
  d ≠ [] → fs_wf (fs w) → fs_wf (fs (rmtree_ignore_errors d w).2).
Proof.
  intros Hd [Hroot Hwf]. unfold rmtree_ignore_errors.
  destruct (is_dir (fs w) d); [|done]. cbn. split.
  - apply map_lookup_filter_Some. split; [done|]. left. apply under_false.
    intros Hp. by apply prefix_nil_inv in Hp.
  - intros q n Hq Hne. apply map_lookup_filter_Some in Hq as [Hq HP]. cbn in HP.
    apply map_lookup_filter_Some. split; [by eapply Hwf|]. cbn.
    destruct (under d (parent q)) eqn:Hup; [|by left]. right.
    apply under_true in Hup.
    destruct HP as [HP|HP].
    + apply under_false in HP. destruct HP. etransitivity; [done | apply prefix_parent].
    + apply survives_true in HP as (q' & n' & ? & ? & ? & ?). apply survives_true.
      exists q', n'. repeat split; try done. etransitivity; [apply prefix_parent | done].
Qed.

Lemma rmtree_all (d : Path) w q :
  is_dir (fs w) d = true →
  (∀ q, d `prefix_of` q → undeletable w q = false) →
  d `prefix_of` q → fs (rmtree_ignore_errors d w).2 !! q = None.
Proof.
  intros Hd Hdel Hq. unfold rmtree_ignore_errors. rewrite Hd. cbn.
  apply map_lookup_filter_None. destruct (fs w !! q) as [n|] eqn:E; [right|by left].
  intros n' _ [HP|HP]; cbn in HP.
  - apply under_false in HP. by apply HP.
  - apply survives_true in HP as (q' & ? & _ & Hq' & _ & Hu). by rewrite Hdel in Hu.
Qed.

Lemma os_mkdir_run (p : Path) w :
  fs w !! p = None → p ≠ [] → fs w !! parent p = Some Dir →
  os_mkdir p w = (Ok tt, set_fs (<[p := Dir]> (fs w)) w).
Proof.
  intros Hn Hp Hpar. unfold os_mkdir. rewrite Hn. destruct p as [|x p]; [done|].
  by rewrite Hpar.
Qed.

Lemma mkdir_parents_succeeds (fuel : nat) (exist_ok : bool) (p : Path) w :
  fs_wf (fs w) → (length p ≤ fuel)%nat →
  (∀ q, q `prefix_of` p → q ≠ p → fs w !! q = None ∨ fs w !! q = Some Dir) →
  fs w !! p = None ∨ (exist_ok = true ∧ fs w !! p = Some Dir) →
  ∃ w', mkdir_parents fuel exist_ok p w = (Ok tt, w').
Proof.
  revert exist_ok p w. induction fuel as [|fuel IH]; intros ok p w Hwf Hlen Hanc Hp.
  - destruct p; [|cbn in Hlen; lia]. destruct Hwf as [Hroot _].
    destruct Hp as [Hp|[-> Hp]]; [congruence|].
    cbn [mkdir_parents]. rewrite (os_mkdir_exists [] w Dir Hp).
    cbn. apply is_dir_true in Hp. rewrite Hp. eauto.
  - cbn [mkdir_parents]. destruct Hp as [Hp|[-> Hp]].
    2:{ rewrite (os_mkdir_exists p w Dir Hp). cbn. apply is_dir_true in Hp.
        rewrite Hp. eauto. }
    assert (Hne : p ≠ []).
    { intros ->. destruct Hwf as [Hroot _]. congruence. }
    assert (Hpp : parent p ≠ p).
    { intros E. by apply parent_fixed in E. }
    destruct (Hanc (parent p)) as [Hpar|Hpar]; [apply prefix_parent | done | |].
    + unfold os_mkdir at 1. rewrite Hp. destruct p as [|x p]; [done|]. rewrite Hpar.
      rewrite (missing_ENOENT _ _ Hanc).
      unfold ENOENT. rewrite bool_decide_eq_false_2 by done.
      destruct (IH true (parent (x :: p)) w) as [w1 Hrec]; [done| | |by left|].
      { apply parent_length in Hne. lia. }
      { intros q Hq Hqne. apply Hanc.
        - etransitivity; [done | apply prefix_parent].
        - intros ->. rewrite (parent_nonempty _ Hne) in Hq at 1.
          by apply prefix_snoc_not in Hq. }
      rewrite (bind_Ok _ _ _ _ _ Hrec).
      apply mkdir_parents_Ok in Hrec as (Hwf1 & [_ Hch1] & Hdirs1 & _); [|done|].
      2:{ apply parent_length in Hne. lia. }
      unfold mkdir_noparents. rewrite os_mkdir_run; [eauto| |done|by apply Hdirs1].
      rewrite Hch1; [done|]. unfold is_prefix_of.
      rewrite (parent_nonempty _ Hne) at 1. apply prefix_snoc_not.
    + rewrite os_mkdir_run by done. eauto.
Qed.

Lemma mkdir_root w : mkdir [] w = (Err FileExistsError, w).
Proof.
  unfold mkdir. cbn. unfold os_mkdir. by destruct (fs w !! []).
Qed.

Lemma remove_existing_run (d : Path) w :
  remove_existing d w
  = rmtree_ignore_errors d (set_log (log w ++ ["Creating device tree folders..."]) w).
Proof.
  unfold remove_existing, bind, LOGD, path_is_dir. cbn [fs set_log].
  unfold rmtree_ignore_errors. cbn [fs set_log].
  destruct (is_dir (fs w) d) eqn:E; [|done]. cbn [fs set_log]. by rewrite E.
Qed.

Lemma remove_existing_changes (d : Path) : steps (changes (is_under d)) (remove_existing d).
Proof.
  intros w. rewrite remove_existing_run.
  etransitivity; [|apply rmtree_changes]. split; [by unfold same_env | done].
Qed.

(** The four directories that [create_folders] leaves in the device tree
    folder, as paths relative to it. *)
Definition base_dirs : list Path :=
  [ []; ["prebuilt"]; ["recovery"]; ["recovery"; "root"] ].

Lemma prefix_comparable (q t l : Path) :
  q `prefix_of` t ++ l → q `prefix_of` t ∨ t `prefix_of` q.
Proof. intros Hq. eapply prefix_weak_total; [done | by apply prefix_app_r]. Qed.

Lemma create_folders_Ok (t : Path) w s :
  fs_wf (fs w) → create_folders t w = (Ok tt, s) →
  t ≠ [] ∧ fs_wf (fs s) ∧ same_env w s
  ∧ (∀ l, fs s !! (t ++ l) = if bool_decide (l ∈ base_dirs) then Some Dir else None)
  ∧ (∀ q, ¬ t `prefix_of` q →
       fs s !! q = if bool_decide (q `prefix_of` t) then Some Dir else fs w !! q).
Proof.
  intros Hwf Hrun. unfold create_folders in Hrun.
  apply bind_Ok_inv in Hrun as ([] & w0 & H0 & Hrun).
  apply bind_Ok_inv in Hrun as ([] & w1 & H1 & Hrun).
  apply bind_Ok_inv in Hrun as ([] & w2 & H2 & H3).
  assert (Ht : t ≠ []).
  { intros ->. by rewrite mkdir_root in H1. }
  pose proof (remove_existing_changes t w) as [Henv0 Hfr0]. rewrite H0 in Henv0, Hfr0.
  cbn [snd] in Henv0, Hfr0.
  assert (Hwf0 : fs_wf (fs w0)).
  { rewrite remove_existing_run in H0. pose proof (rmtree_wf t (set_log (log w ++ ["Creating device tree folders..."]) w) Ht Hwf) as Hw.
    by rewrite H0 in Hw. }
  apply mkdir_Ok in H1 as (Hwf1 & [Henv1 Hfr1] & Hd1 & Hn1); [|done].
  apply mkdir_Ok in H2 as (Hwf2 & [Henv2 Hfr2] & Hd2 & Hn2); [|done].
  apply mkdir_Ok in H3 as (Hwf3 & [Henv3 Hfr3] & Hd3 & Hn3); [|done].
  unfold joinpath in *. rewrite <- app_assoc in Hd3, Hfr3. cbn [app] in Hd3, Hfr3.
  unfold is_prefix_of, is_under in *.
  split; [done|]. split; [done|]. split.
  { etransitivity; [done|]. etransitivity; [done|]. by etransitivity. }
  split.
  - intros l. case_bool_decide as Hl.
    + unfold base_dirs in Hl. rewrite !elem_of_cons in Hl.
      destruct Hl as [->|[->|[->|[->|Hl]]]]; [| | | |by apply elem_of_nil in Hl].
      * apply Hd3. apply prefix_app, prefix_nil.
      * rewrite Hfr3; [by apply Hd2|].
        intros Hp. apply prefix_app_inv in Hp. by apply prefix_cons_inv_1 in Hp.
      * apply Hd3. apply prefix_app. by exists ["root"].
      * by apply Hd3.
    + assert (Hnot : ∀ l0, l0 ∈ base_dirs → ¬ t ++ l `prefix_of` t ++ l0).
      { intros l0 Hl0 Hp. apply prefix_app_inv in Hp. apply Hl.
        unfold base_dirs in *. rewrite !elem_of_cons in Hl0.
        destruct Hl0 as [->|[->|[->|[->|Hl0]]]]; [| | | |by apply elem_of_nil in Hl0].
        - apply prefix_nil_inv in Hp as ->. set_solver.
        - apply prefix_cases in Hp as [->|[_ Hp]]; [set_solver|].
          cbn in Hp. apply prefix_nil_inv in Hp as ->. set_solver.
        - apply prefix_cases in Hp as [->|[_ Hp]]; [set_solver|].
          cbn in Hp. apply prefix_nil_inv in Hp as ->. set_solver.
        - apply prefix_cases in Hp as [->|[_ Hp]]; [set_solver|].
          cbn in Hp. apply prefix_cases in Hp as [->|[_ Hp]]; [set_solver|].
          cbn in Hp. apply prefix_nil_inv in Hp as ->. set_solver. }
      rewrite Hfr3 by (apply (Hnot ["recovery"; "root"]); set_solver).
      rewrite Hfr2 by (apply (Hnot ["prebuilt"]); set_solver).
      rewrite Hfr1.
      2:{ intros Hp. apply (Hnot []); [set_solver|]. by rewrite app_nil_r. }
      apply (wf_absent_under _ t); [done..|]. by apply prefix_app_r.
  - intros q Hq. case_bool_decide as Hp.
    + apply Hd3. by apply prefix_app_r.
    + assert (Hnot : ∀ l0, ¬ q `prefix_of` t ++ l0).
      { intros l0 Hp0. by apply prefix_comparable in Hp0 as [?|?]. }
      rewrite Hfr3 by apply Hnot. rewrite Hfr2 by apply Hnot.
      rewrite Hfr1 by done. by apply Hfr0.
Qed.

(** ** Modes

    [keeps_modes]: no entry disappears or changes its kind, no file changes
    its mode, and a new file has the mode of a created file. *)
Definition keeps_modes (w w' : World) : Prop :=
  same_env w w'
  ∧ ∀ q, match fs w !! q with
         | Some (File _ m) => ∃ c', fs w' !! q = Some (File c' m)
         | Some Dir => fs w' !! q = Some Dir
         | None => ∀ c m, fs w' !! q = Some (File c m) → m = created_mode w
         end.

Lemma created_mode_env w w' : same_env w w' → created_mode w' = created_mode w.
Proof. intros (E & _). unfold created_mode. by rewrite E. Qed.

#[export] Instance keeps_modes_preorder : PreOrder keeps_modes.
Proof.
  split.
  - intros w. split; [reflexivity|]. intros q.
    destruct (fs w !! q) as [[c m|]|]; [by exists c|done|done].
  - intros w1 w2 w3 [E1 F1] [E2 F2]. split; [by etransitivity|]. intros q.
    specialize (F1 q). specialize (F2 q).
    destruct (fs w1 !! q) as [[c m|]|].
    + destruct F1 as [c' F1]. rewrite F1 in F2. exact F2.
    + by rewrite F1 in F2.
    + destruct (fs w2 !! q) as [[c m|]|] eqn:E.
      * destruct F2 as [c' F2]. intros c0 m0 E0. rewrite F2 in E0.
        injection E0 as <- <-. by eapply F1.
      * intros c0 m0 E0. congruence.
      * intros c0 m0 E0. rewrite <- (created_mode_env w1 w2) by done. by eapply F2.
Qed.

Lemma keeps_modes_same_fs w w' : same_env w w' → fs w' = fs w → keeps_modes w w'.
Proof.
  intros E F. split; [done|]. intros q. rewrite F.
  destruct (fs w !! q) as [[c m|]|]; [by exists c|done|done].
Qed.

Lemma keeps_modes_insert_file w p c c0 m :
  fs w !! p = Some (File c0 m) →
  keeps_modes w (set_fs (<[p := File c m]> (fs w)) w).
Proof.
  intros Hp. split; [by unfold same_env|]. intros q. cbn.
  destruct (decide (p = q)) as [<-|Hne].
  - rewrite Hp, lookup_insert_eq. by exists c.
  - rewrite lookup_insert_ne by done.
    destruct (fs w !! q) as [[c' m'|]|]; [by exists c'|done|done].
Qed.

Lemma keeps_modes_insert_new w p n :
  fs w !! p = None → (∀ c m, n = File c m → m = created_mode w) →
  keeps_modes w (set_fs (<[p := n]> (fs w)) w).
Proof.
  intros Hp Hn. split; [by unfold same_env|]. intros q. cbn.
  destruct (decide (p = q)) as [<-|Hne].
  - rewrite Hp, lookup_insert_eq. intros c m [= ->]. by eapply Hn.
  - rewrite lookup_insert_ne by done.
    destruct (fs w !! q) as [[c' m'|]|]; [by exists c'|done|done].
Qed.

Lemma km_LOGD line : steps keeps_modes (LOGD line).
Proof. intros w. by apply keeps_modes_same_fs. Qed.

Lemma km_read_text p : steps keeps_modes (read_text p).
Proof.
  intros w. unfold read_text. destruct (fs w !! p) as [[c m|]|]; by apply keeps_modes_same_fs.
Qed.

Lemma km_write_text p c : steps keeps_modes (write_text p c).
Proof.
  intros w. unfold write_text. destruct (fs w !! p) as [[c' m|]|] eqn:E.
  - by eapply keeps_modes_insert_file.
  - reflexivity.
  - destruct p as [|x p']; [reflexivity|].
    match goal with |- context [match ?o with _ => _ end] => destruct o as [[? ?|]|] end;
      try reflexivity.
    apply keeps_modes_insert_new; [done|]. by intros ? ? [= _ <-].
Qed.

Lemma km_os_mkdir p : steps keeps_modes (os_mkdir p).
Proof.
  intros w. unfold os_mkdir. destruct (fs w !! p) as [n|] eqn:E; [reflexivity|].
  destruct p as [|x p']; [reflexivity|].
  match goal with |- context [match ?o with _ => _ end] => destruct o as [[? ?|]|] end;
    try reflexivity.
  by apply keeps_modes_insert_new.
Qed.

Lemma km_copyfile src dst : steps keeps_modes (copyfile src dst).
Proof.
  unfold copyfile.
  apply steps_bind; [apply _ | apply steps_get_world, _ | intros w0].
  destruct (bool_decide (src = dst) && exists_ (fs w0) src).
  - apply steps_raise, _.
  - apply steps_bind; [apply _ | apply km_read_text | intros c]. apply km_write_text.
Qed.

(** ** File names *)

Lemma split_parts_head (cur s : string) :
  ∃ x rest, split_parts cur s = String.rev_app cur x :: rest.
Proof.
  revert cur. induction s as [|c s IH]; intros cur; cbn [split_parts].
  - by exists "", [].
  - destruct (Ascii.eqb c "/"); [by exists "", (split_parts "" s)|].
    destruct (IH (String c cur)) as (x & rest & ->). by exists (String c x), rest.
Qed.

Lemma parts_of_omni (codename : string) :
  ∃ x rest, parts_of ("omni_" +:+ codename +:+ ".mk") = String "o" x :: rest.
Proof.
  unfold parts_of.
  change (split_parts "" ("omni_" +:+ codename +:+ ".mk"))
    with (split_parts "_inmo" (codename +:+ ".mk")).
  destruct (split_parts_head "_inmo" (codename +:+ ".mk")) as (x & rest & ->).
  cbn. eauto.
Qed.

(** ** Runs in two worlds

    [sim P Q m]: in two worlds related by [P], [m] raises the same
    exception or returns the same value, and then in worlds related by
    [Q]. *)
Definition sim {A} (P Q : World → World → Prop) (m : M A) : Prop :=
  ∀ w1 w2, P w1 w2 →
    match m w1, m w2 with
    | (Ok a1, w1'), (Ok a2, w2') => a1 = a2 ∧ Q w1' w2'
    | (Err e1, _), (Err e2, _) => e1 = e2
    | _, _ => False
    end.

(** Two worlds with the same files and the same settings. *)
Definition agree (w1 w2 : World) : Prop :=
  fs w1 = fs w2 ∧ umask w1 = umask w2 ∧ git_global w1 = git_global w2.

Lemma sim_ret {A} (P : World → World → Prop) (a : A) : sim P P (ret a).
Proof. by intros w1 w2 HP. Qed.

Lemma sim_raise {A} (P Q : World → World → Prop) e : sim P Q (@raise A e).
Proof. by intros w1 w2 HP. Qed.

Lemma sim_bind {A B} (P Q R : World → World → Prop) (m : M A) (f : A → M B) :
  sim P Q m → (∀ a, sim Q R (f a)) → sim P R (bind m f).
Proof.
  intros Hm Hf w1 w2 HP. specialize (Hm w1 w2 HP). unfold bind.
  destruct (m w1) as [[a1|e1] w1'], (m w2) as [[a2|e2] w2']; try done.
  destruct Hm as [<- HQ]. by apply Hf.
Qed.

Lemma sim_for_each {A} (P : World → World → Prop) (l : list A) (body : A → M unit) :
  (∀ x, sim P P (body x)) → sim P P (for_each l body).
Proof.
  intros Hb. induction l as [|x l IH]; cbn [for_each]; [apply sim_ret|].
  eapply sim_bind; [apply Hb | intros _; apply IH].
Qed.

Lemma sim_try_except {A} (P : World → World → Prop) (m h : M A) :
  (∀ w1 w2, P w1 w2 → (m w1).1 = (m w2).1 ∧ P (m w1).2 (m w2).2) →
  sim P P h → sim P P (try_except m h).
Proof.
  intros Hm Hh w1 w2 HP. specialize (Hm w1 w2 HP). unfold try_except.
  destruct (m w1) as [[a1|e1] w1'], (m w2) as [[a2|e2] w2']; cbn in Hm;
    destruct Hm as [Hr HP']; try discriminate.
  - by injection Hr as <-.
  - by apply Hh.
Qed.

Lemma created_mode_agree w1 w2 : agree w1 w2 → created_mode w1 = created_mode w2.
Proof. intros (_ & E & _). unfold created_mode. by rewrite E. Qed.

Lemma sim_LOGD line : sim agree agree (LOGD line).
Proof. intros w1 w2 HP. split; [done|]. exact HP. Qed.

Lemma sim_read_text p : sim agree agree (read_text p).
Proof.
  intros w1 w2 HP. unfold read_text. destruct HP as (Hfs & Hum & Hgg). rewrite <- Hfs.
  destruct (fs w1 !! p) as [[c m|]|]; done.
Qed.

Lemma sim_write_text p c : sim agree agree (write_text p c).
Proof.
  intros w1 w2 HP. unfold write_text. rewrite <- (created_mode_agree _ _ HP).
  destruct HP as (Hfs & Hum & Hgg). rewrite <- Hfs.
  destruct (fs w1 !! p) as [[c' m|]|].
  - done.
  - done.
  - destruct p as [|x p']; [done|].
    match goal with |- context [match ?o with _ => _ end] => destruct o as [[? ?|]|] end;
      try done.
Qed.

Lemma sim_chmod p mode : sim agree agree (chmod p mode).
Proof.
  intros w1 w2 HP. unfold chmod. destruct HP as (Hfs & Hum & Hgg). rewrite <- Hfs.
  destruct (fs w1 !! p) as [[c' m|]|]; done.
Qed.

Lemma sim_os_mkdir p : sim agree agree (os_mkdir p).
Proof.
  intros w1 w2 HP. unfold os_mkdir. destruct HP as (Hfs & Hum & Hgg). rewrite <- Hfs.
  destruct (fs w1 !! p) as [n|]; [done|].
  destruct p as [|x p']; [done|].
  match goal with |- context [match ?o with _ => _ end] => destruct o as [[? ?|]|] end;
    done.
Qed.

Lemma copyfile_unfold (src dst : Path) w :
  copyfile src dst w
  = (if bool_decide (src = dst) && exists_ (fs w) src
     then raise SameFileError
     else let! c := read_text src in write_text dst c) w.
Proof. reflexivity. Qed.

Lemma sim_copyfile src dst : sim agree agree (copyfile src dst).
Proof.
  intros w1 w2 HP. rewrite !copyfile_unfold.
  destruct HP as (Hfs & Hum & Hgg). rewrite <- Hfs.
  destruct (bool_decide (src = dst) && exists_ (fs w1) src); [done|].
  apply (sim_bind agree agree agree);
    [apply sim_read_text | intros c; apply sim_write_text | by split].
Qed.

(** ** The blocks of [dump_to_folder] *)

Section Assembly.

Context `{Collaborators}.

Lemma dump_to_folder_Ok_inv (self : DeviceTree) (output_path : Path) (git : bool) w p w' :
  dump_to_folder self output_path git w = (Ok p, w') →
  let t := device_tree_folder_of self output_path in
  ∃ s1 s2 s3 s4 s5 s6,
    create_folders t w = (Ok tt, s1)
    ∧ write_makefiles self t s1 = (Ok tt, s2)
    ∧ set_permissions t s2 = (Ok tt, s3)
    ∧ copy_prebuilts self (t ++ ["prebuilt"]) s3 = (Ok tt, s4)
    ∧ write_fstab self t s4 = (Ok tt, s5)
    ∧ copy_init_scripts self (t ++ ["recovery"; "root"]) s5 = (Ok tt, s6)
    ∧ p = t
    ∧ (if git then create_git_repo self t s6 = (Ok tt, w') else w' = s6).
Proof.
  intros Hrun t. unfold dump_to_folder in Hrun. fold t in Hrun.
  unfold joinpath in Hrun. rewrite <- app_assoc in Hrun. cbn [app] in Hrun.
  apply bind_Ok_inv in Hrun as ([] & s1 & H1 & Hrun).
  apply bind_Ok_inv in Hrun as ([] & s2 & H2 & Hrun).
  apply bind_Ok_inv in Hrun as ([] & s3 & H3 & Hrun).
  apply bind_Ok_inv in Hrun as ([] & s4 & H4 & Hrun).
  apply bind_Ok_inv in Hrun as ([] & s5 & H5 & Hrun).
  apply bind_Ok_inv in Hrun as ([] & s6 & H6 & Hrun).
  exists s1, s2, s3, s4, s5, s6. repeat (split; [done|]).
  destruct git; cbn [negb] in Hrun.
  - apply bind_Ok_inv in Hrun as ([] & s7 & H7 & Hrun). by injection Hrun as <- <-.
  - by injection Hrun as <- <-.
Qed.

(** Where the blocks write, relative to the device tree folder [t]. *)
Definition top_level (t : Path) : Path → Prop :=
  λ q, ∃ x r, q = t ++ x :: r ∧ x ≠ "prebuilt" ∧ x ≠ "recovery" ∧ x ≠ ".git".

Definition in_prebuilt (pre : Path) : Path → Prop :=
  λ q, ∃ x, x ∈ ["kernel"; "dt.img"; "dtb.img"; "dtbo.img"] ∧ q = pre ++ [x].

Definition in_recovery_root (t : Path) : Path → Prop :=
  λ q, ∃ r, q = t ++ "recovery" :: "root" :: r.

Definition git_dir (t : Path) : Path → Prop :=
  λ q, ∃ r, q = t ++ ".git" :: r.

Definition inside (t : Path) : Path → Prop :=
  λ q, ∃ x r, q = t ++ x :: r.

(** Names of scripts that are no absolute paths (a part of a path never
    is). *)
Definition relative_names (l : list Path) : Prop :=
  Forall (λ p, is_absolute (name p) = false) l.

Definition out_name (template_file out_file : string) : string :=
  if String.eqb out_file "" then template_file else out_file.

Lemma ch_render (S : Path → Prop) folder template_file out_file text :
  S (folder ++ parts_of (out_name template_file out_file)) →
  steps (changes S) (render_template (Some folder) template_file out_file true text).
Proof.
  intros HS. unfold render_template.
  apply steps_bind; [apply _ | by apply changes_write_text | intros _].
  apply steps_ret, _.
Qed.

Lemma km_render folder template_file out_file to_file text :
  steps keeps_modes (render_template folder template_file out_file to_file text).
Proof.
  unfold render_template. destruct to_file; [|apply steps_ret, _].
  destruct folder; [|apply steps_raise, _].
  apply steps_bind; [apply _ | apply km_write_text | intros _].
  apply steps_ret, _.
Qed.

Lemma render_Ok folder template_file out_file text w r w' :
  render_template (Some folder) template_file out_file true text w = (Ok r, w') →
  ∃ m, fs w' !! (folder ++ parts_of (out_name template_file out_file)) = Some (File text m).
Proof.
  unfold render_template. intros Hrun.
  apply bind_Ok_inv in Hrun as ([] & w1 & Hw & Hret). injection Hret as _ <-.
  fold (out_name template_file out_file) in Hw.
  set (p := folder ++ parts_of (out_name template_file out_file)) in *.
  unfold write_text in Hw. destruct (fs w !! p) as [[c m|]|] eqn:E.
  - injection Hw as <-. exists m. cbn. by rewrite lookup_insert_eq.
  - discriminate.
  - destruct p as [|x p']; [discriminate|].
    match type of Hw with context [match ?o with _ => _ end] => destruct o as [[? ?|]|] end;
      try discriminate.
    injection Hw as <-. eexists. cbn. by rewrite lookup_insert_eq.
Qed.

Ltac steps_binds leaf :=
  repeat first
    [ leaf
    | apply steps_ret; apply _
    | apply steps_raise; apply _
    | apply steps_get_world; apply _
    | apply steps_bind; [apply _ | | intros ?] ].

Lemma top_level_name (t : Path) (x : string) :
  x ≠ "prebuilt" → x ≠ "recovery" → x ≠ ".git" → top_level t (t ++ [x]).
Proof. intros. by exists x, []. Qed.

Lemma top_level_omni (t : Path) (c : string) :
  top_level t (t ++ parts_of (out_name "omni_device.mk" ("omni_" +:+ c +:+ ".mk"))).
Proof.
  unfold out_name. change (String.eqb ("omni_" +:+ c +:+ ".mk") "") with false.
  destruct (parts_of_omni c) as (x & rest & ->).
  exists (String "o" x), rest. by repeat split.
Qed.

Lemma ch_write_makefiles (self : DeviceTree) (t : Path) :
  steps (changes (top_level t)) (write_makefiles self t).
Proof.
  unfold write_makefiles, _render_template.
  steps_binds ltac:(first
    [ apply changes_LOGD
    | apply ch_render; first [apply top_level_omni | by apply top_level_name] ]).
Qed.

Lemma km_write_makefiles (self : DeviceTree) (t : Path) :
  steps keeps_modes (write_makefiles self t).
Proof.
  unfold write_makefiles, _render_template.
  steps_binds ltac:(first [apply km_LOGD | apply km_render]).
Qed.

Lemma ch_set_permissions (t : Path) : steps (changes (top_level t)) (set_permissions t).
Proof.
  unfold set_permissions.
  steps_binds ltac:(apply changes_chmod; by apply top_level_name).
Qed.

Lemma ch_copy_if_present (S : Path → Prop) artifact dst :
  S dst → steps (changes S) (copy_if_present artifact dst).
Proof.
  intros HS. destruct artifact; [by apply changes_copyfile | apply steps_ret, _].
Qed.

Lemma km_copy_if_present artifact dst : steps keeps_modes (copy_if_present artifact dst).
Proof. destruct artifact; [apply km_copyfile | apply steps_ret, _]. Qed.

Lemma ch_copy_prebuilts (self : DeviceTree) (pre : Path) :
  steps (changes (in_prebuilt pre)) (copy_prebuilts self pre).
Proof.
  unfold copy_prebuilts, joinpath.
  steps_binds ltac:(first
    [ apply changes_LOGD
    | apply ch_copy_if_present; eexists; split; [|reflexivity]; set_solver ]).
Qed.

Lemma km_copy_prebuilts (self : DeviceTree) (pre : Path) :
  steps keeps_modes (copy_prebuilts self pre).
Proof.
  unfold copy_prebuilts.
  steps_binds ltac:(first [apply km_LOGD | apply km_copy_if_present]).
Qed.

Lemma ch_write_fstab (self : DeviceTree) (t : Path) :
  steps (changes (top_level t)) (write_fstab self t).
Proof.
  unfold write_fstab.
  steps_binds ltac:(first
    [ apply changes_LOGD | apply changes_write_text; by apply top_level_name ]).
Qed.

Lemma km_write_fstab (self : DeviceTree) (t : Path) :
  steps keeps_modes (write_fstab self t).
Proof.
  unfold write_fstab. steps_binds ltac:(first [apply km_LOGD | apply km_write_text]).
Qed.

Lemma ch_copy_init_scripts (self : DeviceTree) (t : Path) :
  relative_names (init_rcs self) →
  steps (changes (in_recovery_root t)) (copy_init_scripts self (t ++ ["recovery"; "root"])).
Proof.
  intros Hrel. unfold copy_init_scripts.
  apply steps_bind; [apply _ | apply changes_LOGD | intros _].
  apply steps_for_each; [apply _|]. intros rc Hrc.
  apply changes_copyfile. unfold joinstr.
  unfold relative_names in Hrel. rewrite Forall_forall in Hrel. rewrite (Hrel rc Hrc).
  rewrite <- app_assoc. by eexists.
Qed.

Lemma km_copy_init_scripts (self : DeviceTree) (rr : Path) :
  steps keeps_modes (copy_init_scripts self rr).
Proof.
  unfold copy_init_scripts.
  apply steps_bind; [apply _ | apply km_LOGD | intros _].
  apply steps_for_each; [apply _|]. intros rc _. apply km_copyfile.
Qed.

(** *** What git writes *)

Lemma strictly_under_true (d p : Path) :
  strictly_under d p = true ↔ ∃ x r, p = d ++ x :: r.
Proof.
  unfold strictly_under.
  rewrite andb_true_iff, under_true, negb_true_iff, bool_decide_eq_false. split.
  - intros [[l ->] Hne]. destruct l as [|x r]; [by rewrite app_nil_r in Hne|].
    by exists x, r.
  - intros (x & r & ->). split; [by apply prefix_app_r|]. intros E.
    rewrite <- (app_nil_r d) in E at 2. by apply app_inv_head in E.
Qed.

Lemma put_below_outside (d : Path) (entries : list (Path * node)) (fs : gmap Path node) q :
  strictly_under d q = false → put_below d entries fs !! q = fs !! q.
Proof.
  intros Hq. unfold put_below. induction entries as [|[l n] entries IH]; cbn [foldr].
  - rewrite map_lookup_filter. destruct (fs !! q) as [n|]; [|done]. cbn.
    by rewrite option_guard_True.
  - cbn [fst snd]. destruct l as [|x r]; [done|]. rewrite lookup_insert_ne; [done|].
    intros <-. assert (strictly_under d (d ++ x :: r) = true) as E; [|congruence].
    apply strictly_under_true. by exists x, r.
Qed.

Lemma not_git_dir (t q : Path) : ¬ git_dir t q → strictly_under (t ++ [".git"]) q = false.
Proof.
  intros Hq. apply not_true_is_false. intros Hs.
  apply strictly_under_true in Hs as (x & r & ->). apply Hq. exists (x :: r).
  by rewrite <- app_assoc.
Qed.

Lemma git_dir_itself (t : Path) : strictly_under (t ++ [".git"]) (t ++ [".git"]) = false.
Proof.
  apply not_true_is_false. intros Hs. apply strictly_under_true in Hs as (x & r & E).
  rewrite <- (app_nil_r (t ++ [".git"])) in E at 1. by apply app_inv_head in E.
Qed.

Lemma changes_git_writes (t : Path) : steps (changes (git_dir t)) (git_writes t).
Proof.
  intros w. unfold git_writes. cbn [snd]. destruct (is_dir _ _); [|reflexivity].
  split; [by unfold same_env|]. intros q Hq. cbn [fs set_fs].
  by apply put_below_outside, not_git_dir.
Qed.

Lemma steps_bind_val {A B} T `{!Transitive T} (P : A → Prop) (m : M A) (f : A → M B) :
  steps T m → (∀ w a w', m w = (Ok a, w') → P a) → (∀ a, P a → steps T (f a)) →
  steps T (bind m f).
Proof.
  intros Hm HP Hf w. unfold bind. specialize (Hm w). specialize (HP w).
  destruct (m w) as [[a|e] w1]; cbn in *; [|done].
  etransitivity; [exact Hm | by eapply Hf, HP].
Qed.

Lemma Repo_init_value (t : Path) w a w' : Repo_init t w = (Ok a, w') → a = t.
Proof.
  unfold Repo_init. intros Hrun. apply bind_Ok_inv in Hrun as (w0 & ? & [= <- <-] & Hrun).
  destruct (is_dir _ _); [by injection Hrun as <- _|].
  apply bind_Ok_inv in Hrun as ([] & ? & _ & Hrun).
  apply bind_Ok_inv in Hrun as ([] & ? & _ & Hrun).
  apply bind_Ok_inv in Hrun as ([] & ? & _ & Hrun). by injection Hrun as <- _.
Qed.

Lemma ch_Repo_init (t : Path) : steps (changes (git_dir t)) (Repo_init t).
Proof.
  unfold Repo_init.
  steps_binds ltac:(first
    [ apply changes_git_writes
    | match goal with |- steps _ (if ?b then _ else _) => destruct b end
    | apply changes_os_mkdir; by exists []
    | intros w; apply changes_set_repos ]).
Qed.

Lemma ch_create_git_repo (self : DeviceTree) (t : Path) :
  steps (changes (git_dir t)) (create_git_repo self t).
Proof.
  unfold create_git_repo.
  apply steps_bind; [apply _ | apply changes_LOGD | intros _].
  apply (steps_bind_val (changes (git_dir t)) (λ a, a = t) (Repo_init t));
    [apply ch_Repo_init | apply Repo_init_value | intros ? ->].
  unfold config_set_value, index_add_commit, _render_template, render_template.
  steps_binds ltac:(first
    [ apply changes_git_writes
    | match goal with |- steps _ (if ?b then _ else _) => destruct b end
    | apply steps_try_except; [apply _ | |]
    | intros w; apply changes_set_repos
    | intros w; unfold config_get_value; destruct (effective_config _ _ _);
      reflexivity ]).
Qed.

(** Each write of git succeeds in a working directory that has its
    [.git], which it keeps. *)
Lemma git_writes_run (t : Path) w :
  fs w !! (t ++ [".git"]) = Some Dir →
  ∃ w', git_writes t w = (Ok tt, w')
        ∧ fs w' !! (t ++ [".git"]) = Some Dir
        ∧ repos w' = repos w
        ∧ changes (git_dir t) w w'.
Proof.
  intros Hgit. eexists. split; [reflexivity|].
  pose proof (changes_git_writes t w) as Hch. revert Hch.
  unfold git_writes, joinpath. cbn [snd]. apply is_dir_true in Hgit as Hd. rewrite Hd.
  intros Hch. split; [|by split]. cbn [fs set_fs].
  rewrite put_below_outside by apply git_dir_itself. done.
Qed.

Lemma config_set_value_run (t : Path) (section option value : string) w :
  fs w !! (t ++ [".git"]) = Some Dir →
  ∃ w', config_set_value t section option value w = (Ok tt, w')
        ∧ fs w' !! (t ++ [".git"]) = Some Dir
        ∧ repos w'
          = <[t := {| repo_config := <[(section, option) := value]> (repo_config (get_repo w t));
                      commits := commits (get_repo w t) |}]> (repos w)
        ∧ changes (git_dir t) w w'.
Proof.
  intros Hgit. unfold config_set_value.
  match goal with |- context [bind ?m _] =>
    destruct (git_writes_run t (m w).2) as (w' & Hrun & Hgit' & Hrepos & Hch); [exact Hgit|]
  end.
  exists w'. split; [|split; [done|split; [done|]]].
  - unfold bind at 1. cbn [snd] in Hrun. exact Hrun.
  - etransitivity; [|exact Hch]. apply changes_set_repos.
Qed.

Lemma index_add_commit_run (t : Path) (msg : string) w :
  fs w !! (t ++ [".git"]) = Some Dir →
  ∃ w' c, index_add_commit t msg w = (Ok tt, w')
        ∧ fs w' !! (t ++ [".git"]) = Some Dir
        ∧ repos w'
          = <[t := {| repo_config := repo_config (get_repo w t);
                      commits := commits (get_repo w t) ++ [c] |}]> (repos w)
        ∧ (message c = msg
           ∧ author_name c = effective_config w t ("user", "name")
           ∧ author_email c = effective_config w t ("user", "email")
           ∧ committed_date c = commit_time w
           ∧ tree c = staged_files w t)
        ∧ changes (git_dir t) w w'.
Proof.
  intros Hgit. unfold index_add_commit.
  match goal with |- context [bind ?m _] =>
    destruct (git_writes_run t (m w).2) as (w' & Hrun & Hgit' & Hrepos & Hch); [exact Hgit|]
  end.
  exists w'. eexists. split; [|split; [done|split; [exact Hrepos|split]]].
  - unfold bind at 1. cbn [snd] in Hrun. exact Hrun.
  - done.
  - etransitivity; [|exact Hch]. apply changes_set_repos.
Qed.

Lemma Repo_init_run (t : Path) w :
  fs w !! (t ++ [".git"]) = None → fs w !! t = Some Dir →
  ∃ w', Repo_init t w = (Ok t, w')
        ∧ fs w' !! (t ++ [".git"]) = Some Dir
        ∧ repos w' = <[t := empty_repo]> (repos w)
        ∧ changes (git_dir t) w w'.
Proof.
  intros Hgit Ht. unfold Repo_init, joinpath.
  rewrite (bind_Ok _ _ w w w) by reflexivity. unfold is_dir. rewrite Hgit.
  set (w1 := set_fs (<[t ++ [".git"] := Dir]> (fs w)) w).
  set (w2 := set_repos (<[t := empty_repo]> (repos w)) w1).
  destruct (git_writes_run t w2) as (w' & Hrun & Hgit' & Hrepos & Hch).
  { cbn [fs w2 w1 set_repos set_fs]. by rewrite lookup_insert_eq. }
  exists w'. split; [|split; [done|split; [done|]]].
  - rewrite (bind_Ok _ _ w tt w1).
    2:{ apply os_mkdir_run; [done| |by rewrite parent_snoc].
        intros E. by apply app_nil in E as [_ ?]. }
    rewrite (bind_Ok _ _ w1 tt w2) by reflexivity.
    by rewrite (bind_Ok _ _ w2 tt w' Hrun).
  - etransitivity; [|exact Hch]. split; [by unfold same_env|].
    intros q Hq. cbn [fs w2 w1 set_repos set_fs]. apply lookup_insert_ne.
    intros <-. apply Hq. by exists [].
Qed.

Lemma steps_run {A} (T : World → World → Prop) (m : M A) w r w' :
  steps T m → m w = (r, w') → T w w'.
Proof. intros Hm E. specialize (Hm w). by rewrite E in Hm. Qed.

Lemma keeps_modes_file w w' q c m :
  keeps_modes w w' → fs w !! q = Some (File c m) → ∃ c', fs w' !! q = Some (File c' m).
Proof. intros [_ F] E. specialize (F q). by rewrite E in F. Qed.

Lemma render_seq_file (self : DeviceTree) (t : Path) tpl cp out (rest : M unit) w w' :
  (_render_template self (Some t) tpl cp out true ;;; rest) w = (Ok tt, w') →
  steps keeps_modes rest →
  (∃ c m, fs w' !! (t ++ parts_of (out_name tpl out)) = Some (File c m))
  ∧ ∃ a, rest a = (Ok tt, w').
Proof.
  intros Hrun Hrest. apply bind_Ok_inv in Hrun as (r & a & Hr & Hrun).
  split; [|by exists a]. apply render_Ok in Hr as [m Hm].
  apply (steps_run _ _ _ _ _ Hrest) in Hrun.
  destruct (keeps_modes_file _ _ _ _ _ Hrun Hm) as [c' Hc]. eauto.
Qed.

Lemma write_makefiles_files (self : DeviceTree) (t : Path) w w' :
  write_makefiles self t w = (Ok tt, w') →
  (∃ c m, fs w' !! (t ++ ["extract-files.sh"]) = Some (File c m))
  ∧ (∃ c m, fs w' !! (t ++ ["setup-makefiles.sh"]) = Some (File c m))
  ∧ (∃ c m, fs w' !! (t ++ ["vendorsetup.sh"]) = Some (File c m)).
Proof.
  unfold write_makefiles. intros Hrun.
  apply bind_Ok_inv in Hrun as ([] & a & _ & Hrun).
  do 5 (apply render_seq_file in Hrun as [_ [a' Hrun]];
        [|unfold _render_template; steps_binds ltac:(apply km_render)];
        clear a; rename a' into a).
  apply render_seq_file in Hrun as [He [a' Hrun]];
    [|unfold _render_template; steps_binds ltac:(apply km_render)].
  clear a; rename a' into a.
  do 2 (apply render_seq_file in Hrun as [_ [a' Hrun]];
        [|unfold _render_template; steps_binds ltac:(apply km_render)];
        clear a; rename a' into a).
  apply render_seq_file in Hrun as [Hs [a' Hrun]];
    [|unfold _render_template; steps_binds ltac:(apply km_render)].
  clear a; rename a' into a.
  apply render_seq_file in Hrun as [Hv [a' Hrun]]; [|apply steps_ret, _].
  done.
Qed.

Lemma chmod_Ok (p : Path) (mode : Z) w w' :
  chmod p mode w = (Ok tt, w') →
  ∀ c m, fs w !! p = Some (File c m) → fs w' !! p = Some (File c mode).
Proof.
  unfold chmod. intros Hrun c m E. rewrite E in Hrun. injection Hrun as <-.
  cbn. by rewrite lookup_insert_eq.
Qed.

Definition singleton_path (p : Path) : Path → Prop := λ q, q = p.

Lemma set_permissions_Ok (t : Path) w w' :
  set_permissions t w = (Ok tt, w') →
  same_env w w'
  ∧ (∀ c m, fs w !! (t ++ ["extract-files.sh"]) = Some (File c m) →
       fs w' !! (t ++ ["extract-files.sh"]) = Some (File c 484))
  ∧ (∀ c m, fs w !! (t ++ ["setup-makefiles.sh"]) = Some (File c m) →
       fs w' !! (t ++ ["setup-makefiles.sh"]) = Some (File c 484))
  ∧ (∀ q, q ≠ t ++ ["extract-files.sh"] → q ≠ t ++ ["setup-makefiles.sh"] →
       fs w' !! q = fs w !! q).
Proof.
  unfold set_permissions. intros Hrun.
  apply bind_Ok_inv in Hrun as ([] & a & H1 & H2). unfold joinpath in *.
  pose proof (steps_run _ _ _ _ _
    (changes_chmod (singleton_path (t ++ ["extract-files.sh"])) _ _ eq_refl) H1) as [E1 F1].
  pose proof (steps_run _ _ _ _ _
    (changes_chmod (singleton_path (t ++ ["setup-makefiles.sh"])) _ _ eq_refl) H2) as [E2 F2].
  unfold singleton_path in *.
  split; [by etransitivity|]. split; [|split].
  - intros c m E. rewrite F2.
    + by eapply (chmod_Ok _ _ _ _ H1).
    + intros Heq. by apply app_inv_head in Heq.
  - intros c m E. eapply (chmod_Ok _ _ _ _ H2). rewrite F1; [done|].
    intros Heq. by apply app_inv_head in Heq.
  - intros q Hq1 Hq2. by rewrite F2, F1.
Qed.

Lemma land_created_mode_exec w : Z.land (created_mode w) 73 = 0%Z.
Proof.
  unfold created_mode. rewrite (Z.land_comm 438), <- Z.land_assoc.
  change (Z.land 438 73) with 0%Z. apply Z.land_0_r.
Qed.

(** C6 (amended): after a successful [dump_to_folder], [extract-files.sh]
    and [setup-makefiles.sh] are files of mode [S_IRWXU | S_IRGRP | S_IROTH],
    which is 0o744 (484); every other file in the device tree folder that
    is not in git's directory [.git] has the mode files are created with
    ([0o666 & ~umask]), which has no execute bit (0o111 is 73); so has
    [vendorsetup.sh]. *)
Theorem generated_scripts_mode
    (self : DeviceTree) (output_path : Path) (git : bool) w p w' :
  fs_wf (fs w) →
  dump_to_folder self output_path git w = (Ok p, w') →
  let t := device_tree_folder_of self output_path in
  Z.lor (Z.lor S_IRWXU S_IRGRP) S_IROTH = 484%Z
  ∧ (∃ c, fs w' !! (t ++ ["extract-files.sh"]) = Some (File c 484))
  ∧ (∃ c, fs w' !! (t ++ ["setup-makefiles.sh"]) = Some (File c 484))
  ∧ (∃ c, fs w' !! (t ++ ["vendorsetup.sh"]) = Some (File c (created_mode w)))
  ∧ (∀ l c m, fs w' !! (t ++ l) = Some (File c m) →
       l ≠ ["extract-files.sh"] → l ≠ ["setup-makefiles.sh"] →
       ¬ [".git"] `prefix_of` l →
       m = created_mode w ∧ Z.land m 73 = 0%Z).
Proof.
  intros Hwf Hrun t. split; [reflexivity|].
  apply dump_to_folder_Ok_inv in Hrun
    as (s1 & s2 & s3 & s4 & s5 & s6 & H1 & H2 & H3 & H4 & H5 & H6 & -> & H7).
  fold t in H1, H2, H3, H4, H5, H6, H7.
  apply create_folders_Ok in H1 as (Ht & Hwf1 & Henv1 & Hin1 & _); [|done].
  pose proof (steps_run _ _ _ _ _ (km_write_makefiles self t) H2) as K2.
  assert (Hcreated : ∀ l c m, fs s2 !! (t ++ l) = Some (File c m) → m = created_mode w).
  { intros l c m E. destruct K2 as [_ K2]. specialize (K2 (t ++ l)).
    rewrite Hin1 in K2. case_bool_decide; [congruence|].
    rewrite <- (created_mode_env w s1) by done. by eapply K2. }
  apply write_makefiles_files in H2 as ((ce & me & He) & (cs & ms & Hs) & (cv & mv & Hv)).
  apply set_permissions_Ok in H3 as (Henv3 & He3 & Hs3 & Hfr3).
  assert (K : keeps_modes s3 s6).
  { pose proof (steps_run _ _ _ _ _ (km_copy_prebuilts self _) H4) as K4.
    pose proof (steps_run _ _ _ _ _ (km_write_fstab self t) H5) as K5.
    pose proof (steps_run _ _ _ _ _ (km_copy_init_scripts self _) H6) as K6.
    etransitivity; [done|]. by etransitivity. }
  assert (G : ∀ l, ¬ [".git"] `prefix_of` l → fs w' !! (t ++ l) = fs s6 !! (t ++ l)).
  { intros l Hl. destruct git; [|by subst].
    apply (steps_run _ _ _ _ _ (ch_create_git_repo self t) H7).
    intros [r E]. apply app_inv_head in E as ->. apply Hl. by exists r. }
  assert (Hname : ∀ x : string, x ≠ ".git" → ¬ [".git"] `prefix_of` [x]).
  { intros x Hx [k Hk]. cbn in Hk. by injection Hk as E _. }
  assert (Hcm3 : created_mode s3 = created_mode w).
  { rewrite (created_mode_env s2 s3) by done.
    rewrite (created_mode_env s1 s2) by apply K2. by apply created_mode_env. }
  split; [|split; [|split]].
  - rewrite G by (by apply Hname). eapply (keeps_modes_file _ _ _ _ _ K). by eapply He3.
  - rewrite G by (by apply Hname). eapply (keeps_modes_file _ _ _ _ _ K). by eapply Hs3.
  - rewrite (Hcreated _ _ _ Hv) in Hv. rewrite G by (by apply Hname).
    eapply (keeps_modes_file _ _ _ _ _ K). rewrite Hfr3; [done| |].
    + intros Heq. by apply app_inv_head in Heq.
    + intros Heq. by apply app_inv_head in Heq.
  - intros l c m E Hl1 Hl2 Hl3. rewrite G in E by done.
    assert (m = created_mode w) as ->; [|split; [done | apply land_created_mode_exec]].
    destruct K as [_ K]. specialize (K (t ++ l)).
    rewrite Hfr3 in K.
    2:{ intros Heq. by apply app_inv_head in Heq. }
    2:{ intros Heq. by apply app_inv_head in Heq. }
    destruct (fs s2 !! (t ++ l)) as [[c0 m0|]|] eqn:E2.
    + destruct K as [c' K]. rewrite K in E. injection E as _ <-. by eapply Hcreated.
    + congruence.
    + rewrite <- Hcm3. by eapply K.
Qed.

Definition later_blocks (t : Path) : Path → Prop :=
  λ q, top_level t q ∨ in_recovery_root t q ∨ git_dir t q.

Ltac path_neq :=
  let H := fresh "Hq" in
  intros H;
  unfold later_blocks, top_level, in_prebuilt, in_recovery_root, git_dir, inside,
    singleton_path in H;
  decompose [ex and or] H;
  rewrite <- ?app_assoc in *;
  repeat match goal with
         | E : _ ++ _ = _ ++ _ |- _ => apply app_inv_head in E
         end;
  cbn [app] in *; simplify_eq; try congruence; try done.

Lemma write_text_Ok (p : Path) (c : string) w w' :
  write_text p c w = (Ok tt, w') → ∃ m, fs w' !! p = Some (File c m).
Proof.
  unfold write_text. destruct (fs w !! p) as [[c' m|]|] eqn:E.
  - intros [= <-]. exists m. cbn. by rewrite lookup_insert_eq.
  - discriminate.
  - destruct p as [|x p']; [discriminate|].
    match goal with |- context [match ?o with _ => _ end] => destruct o as [[? ?|]|] end;
      try discriminate.
    intros [= <-]. eexists. cbn. by rewrite lookup_insert_eq.
Qed.

Lemma copyfile_Ok (src dst : Path) w w' :
  copyfile src dst w = (Ok tt, w') →
  ∃ c m m', fs w !! src = Some (File c m) ∧ fs w' !! dst = Some (File c m').
Proof.
  unfold copyfile. intros Hrun.
  apply bind_Ok_inv in Hrun as (w0 & w1 & [= <- <-] & Hrun).
  destruct (bool_decide (src = dst) && exists_ (fs w) src); [discriminate|].
  apply bind_Ok_inv in Hrun as (c & w1 & Hread & Hwrite).
  unfold read_text in Hread. destruct (fs w !! src) as [[c0 m|]|] eqn:E; try discriminate.
  injection Hread as -> <-. apply write_text_Ok in Hwrite as [m' Hm']. eauto.
Qed.

Lemma copy_step (artifact : option Path) (dst : Path) a b :
  copy_if_present artifact dst a = (Ok tt, b) →
  changes (singleton_path dst) a b
  ∧ match artifact with
    | None => b = a
    | Some src => ∃ c m m', fs a !! src = Some (File c m) ∧ fs b !! dst = Some (File c m')
    end.
Proof.
  intros Hrun. split.
  - by apply (steps_run _ _ _ _ _
         (ch_copy_if_present (singleton_path dst) artifact dst eq_refl) Hrun).
  - destruct artifact as [src|]; [by apply copyfile_Ok | by injection Hrun as <-].
Qed.

Lemma copy_prebuilts_Ok (self : DeviceTree) (pre : Path) w w' :
  copy_prebuilts self pre w = (Ok tt, w') →
  ∀ art x, (art, x) ∈ artifacts (image_info self) →
    match art with
    | None => fs w' !! (pre ++ [x]) = fs w !! (pre ++ [x])
    | Some src =>
        ∃ a c m m', changes (in_prebuilt pre) w a
          ∧ fs a !! src = Some (File c m) ∧ fs w' !! (pre ++ [x]) = Some (File c m')
    end.
Proof.
  unfold copy_prebuilts, joinpath. intros Hrun.
  apply bind_Ok_inv in Hrun as ([] & b0 & [= <-] & Hrun).
  apply bind_Ok_inv in Hrun as ([] & b1 & H1 & Hrun).
  apply bind_Ok_inv in Hrun as ([] & b2 & H2 & Hrun).
  apply bind_Ok_inv in Hrun as ([] & b3 & H3 & H4).
  apply copy_step in H1 as [[E1 F1] C1], H2 as [[E2 F2] C2],
    H3 as [[E3 F3] C3], H4 as [[E4 F4] C4].
  unfold singleton_path in *. cbn [fs set_log] in *.
  assert (G1 : changes (in_prebuilt pre) w b1).
  { split; [done|]. intros q Hq. rewrite F1; [done|]. intros ->. apply Hq.
    eexists; split; [|done]. set_solver. }
  assert (G2 : changes (in_prebuilt pre) w b2).
  { etransitivity; [exact G1|]. split; [done|]. intros q Hq. rewrite F2; [done|].
    intros ->. apply Hq. eexists; split; [|done]. set_solver. }
  assert (G3 : changes (in_prebuilt pre) w b3).
  { etransitivity; [exact G2|]. split; [done|]. intros q Hq. rewrite F3; [done|].
    intros ->. apply Hq. eexists; split; [|done]. set_solver. }
  intros art x Hin. unfold artifacts in Hin. rewrite !elem_of_cons in Hin.
  destruct Hin as [[= -> ->]|[[= -> ->]|[[= -> ->]|[[= -> ->]|Hin]]]];
    [| | | |by apply elem_of_nil in Hin].
  - destruct (kernel (image_info self)) as [src|].
    + destruct C1 as (c & m & m' & Hsrc & Hdst).
      exists (set_log (log w ++ ["Copying kernel..."]) w), c, m, m'.
      split; [split; [by unfold same_env | done]|]. split; [done|].
      rewrite F4, F3, F2 by path_neq. done.
    + subst b1. rewrite F4, F3, F2 by path_neq. done.
  - destruct (dt (image_info self)) as [src|].
    + destruct C2 as (c & m & m' & Hsrc & Hdst).
      exists b1, c, m, m'. split; [done|]. split; [done|].
      rewrite F4, F3 by path_neq. done.
    + subst b2. rewrite F4, F3, F1 by path_neq. done.
  - destruct (dtb (image_info self)) as [src|].
    + destruct C3 as (c & m & m' & Hsrc & Hdst).
      exists b2, c, m, m'. split; [done|]. split; [done|].
      rewrite F4 by path_neq. done.
    + subst b3. rewrite F4, F2, F1 by path_neq. done.
  - destruct (dtbo (image_info self)) as [src|].
    + destruct C4 as (c & m & m' & Hsrc & Hdst).
      exists b3, c, m, m'. done.
    + subst w'. rewrite F3, F2, F1 by path_neq. done.
Qed.

Lemma inside_under (t q : Path) : inside t q → t `prefix_of` q.
Proof. intros (x & r & ->). by apply prefix_app_r. Qed.

Lemma top_level_inside (t q : Path) : top_level t q → inside t q.
Proof. intros (x & r & -> & _). by exists x, r. Qed.

Lemma in_prebuilt_inside (t q : Path) : in_prebuilt (t ++ ["prebuilt"]) q → inside t q.
Proof. intros (x & _ & ->). exists "prebuilt", [x]. by rewrite <- app_assoc. Qed.

Lemma later_blocks_inside (t q : Path) : later_blocks t q → inside t q.
Proof.
  intros [Hq|[(r & ->)|(r & ->)]];
    [by apply top_level_inside | by eexists _, _ | by eexists _, _].
Qed.

(** The worlds between the blocks of a successful run, and how each block
    relates them. *)
Lemma dump_to_folder_blocks (self : DeviceTree) (output_path : Path) (git : bool) w p w' :
  fs_wf (fs w) → relative_names (init_rcs self) →
  dump_to_folder self output_path git w = (Ok p, w') →
  let t := device_tree_folder_of self output_path in
  ∃ s1 s2 s3 s4 s5 s6,
    (p = t ∧ t ≠ [] ∧ same_env w s1
     ∧ (∀ l, fs s1 !! (t ++ l) = if bool_decide (l ∈ base_dirs) then Some Dir else None)
     ∧ (∀ q, ¬ t `prefix_of` q →
          fs s1 !! q = if bool_decide (q `prefix_of` t) then Some Dir else fs w !! q))
    ∧ (write_makefiles self t s1 = (Ok tt, s2)
       ∧ set_permissions t s2 = (Ok tt, s3)
       ∧ copy_prebuilts self (t ++ ["prebuilt"]) s3 = (Ok tt, s4)
       ∧ write_fstab self t s4 = (Ok tt, s5)
       ∧ copy_init_scripts self (t ++ ["recovery"; "root"]) s5 = (Ok tt, s6)
       ∧ (if git then create_git_repo self t s6 = (Ok tt, w') else w' = s6))
    ∧ (changes (top_level t) s1 s3
       ∧ changes (in_prebuilt (t ++ ["prebuilt"])) s3 s4
       ∧ changes (top_level t) s4 s5
       ∧ changes (in_recovery_root t) s5 s6
       ∧ changes (git_dir t) s6 w')
    ∧ (keeps_modes s1 s2 ∧ keeps_modes s3 s6).
Proof.
  intros Hwf Hrel Hrun t.
  apply dump_to_folder_Ok_inv in Hrun
    as (s1 & s2 & s3 & s4 & s5 & s6 & H1 & H2 & H3 & H4 & H5 & H6 & -> & H7).
  fold t in H1, H2, H3, H4, H5, H6, H7.
  apply create_folders_Ok in H1 as (Ht & Hwf1 & Henv1 & Hin1 & Hout1); [|done].
  exists s1, s2, s3, s4, s5, s6.
  pose proof (steps_run _ _ _ _ _ (ch_write_makefiles self t) H2) as C2.
  pose proof (steps_run _ _ _ _ _ (ch_set_permissions t) H3) as C3.
  pose proof (steps_run _ _ _ _ _ (ch_copy_prebuilts self _) H4) as C4.
  pose proof (steps_run _ _ _ _ _ (ch_write_fstab self t) H5) as C5.
  pose proof (steps_run _ _ _ _ _ (ch_copy_init_scripts self t Hrel) H6) as C6.
  pose proof (steps_run _ _ _ _ _ (km_write_makefiles self t) H2) as K2.
  pose proof (steps_run _ _ _ _ _ (km_copy_prebuilts self _) H4) as K4.
  pose proof (steps_run _ _ _ _ _ (km_write_fstab self t) H5) as K5.
  pose proof (steps_run _ _ _ _ _ (km_copy_init_scripts self _) H6) as K6.
  assert (C7 : changes (git_dir t) s6 w').
  { destruct git; [|subst; reflexivity].
    by apply (steps_run _ _ _ _ _ (ch_create_git_repo self t) H7). }
  split; [done|]. split; [done|]. split.
  { split; [by etransitivity|]. done. }
  split; [done|]. etransitivity; [done|]. by etransitivity.
Qed.

Lemma keeps_modes_dir w w' q :
  keeps_modes w w' → fs w !! q = Some Dir → fs w' !! q = Some Dir.
Proof. intros [_ F] E. specialize (F q). by rewrite E in F. Qed.

Lemma keeps_modes_new w w' q c m :
  keeps_modes w w' → fs w !! q = None → fs w' !! q = Some (File c m) → m = created_mode w.
Proof. intros [_ F] E E'. specialize (F q). rewrite E in F. by eapply F. Qed.

(** One step of the copy block succeeds when the artifact is absent, and
    when it is a file other than its destination; the directory stays, the
    files stay files and no directory is added. *)
Lemma copy_if_present_runs (pre : Path) (art : option Path) (x : string) a :
  fs a !! pre = Some Dir → fs a !! (pre ++ [x]) ≠ Some Dir →
  match art with
  | Some src => is_file (fs a) src = true ∧ src ≠ pre ++ [x]
  | None => True
  end →
  ∃ b, copy_if_present art (pre ++ [x]) a = (Ok tt, b)
       ∧ (∀ q, is_file (fs a) q = true → is_file (fs b) q = true)
       ∧ (∀ q, fs b !! q = Some Dir ↔ fs a !! q = Some Dir).
Proof.
  intros Hpre Hdst Hart. destruct art as [src|]; [|by exists a].
  destruct Hart as [Hsrc Hne]. apply is_file_true in Hsrc as (c & m & Hsrc).
  cbn [copy_if_present]. rewrite copyfile_unfold.
  rewrite bool_decide_eq_false_2 by done. cbn [andb].
  rewrite (bind_Ok _ _ a c (set_reads (reads a ++ [src]) a))
    by (unfold read_text; by rewrite Hsrc).
  assert (Hrest : ∀ n, (∀ q, is_file (fs a) q = true
                             → is_file (<[pre ++ [x] := File c n]> (fs a)) q = true)
                       ∧ (∀ q, <[pre ++ [x] := File c n]> (fs a) !! q = Some Dir
                               ↔ fs a !! q = Some Dir)).
  { intros n. split; intros q; unfold is_file;
      (destruct (decide (q = pre ++ [x])) as [->|Hq];
       [rewrite lookup_insert_eq | rewrite lookup_insert_ne by done]); done. }
  assert (Hpar : fs a !! parent (pre ++ [x]) = Some Dir) by (by rewrite parent_snoc).
  assert (Hd : pre ++ [x] ≠ []) by (intros E; by apply app_nil in E as [_ ?]).
  unfold write_text. cbn [fs set_reads]. set (d := pre ++ [x]) in *.
  destruct (fs a !! d) as [[c' m'|]|] eqn:E; [|done|].
  - eexists. split; [reflexivity|]. apply Hrest.
  - destruct d as [|y k]; [done|]. rewrite Hpar. eexists. split; [reflexivity|].
    apply Hrest.
Qed.

(** The copy block succeeds when each artifact that is present is a file
    other than its destination, whichever are absent. *)
Lemma copy_prebuilts_runs (self : DeviceTree) (pre : Path) a :
  fs a !! pre = Some Dir →
  (∀ x, fs a !! (pre ++ [x]) ≠ Some Dir) →
  (∀ src x, (Some src, x) ∈ artifacts (image_info self) →
            is_file (fs a) src = true ∧ src ≠ pre ++ [x]) →
  ∃ b, copy_prebuilts self pre a = (Ok tt, b).
Proof.
  intros Hpre Hnodir Hart. unfold copy_prebuilts, joinpath.
  rewrite (bind_Ok _ _ a tt (set_log (log a ++ ["Copying kernel..."]) a)) by reflexivity.
  assert (Hstep : ∀ art x b,
            (art, x) ∈ artifacts (image_info self) →
            (∀ q, is_file (fs a) q = true → is_file (fs b) q = true) →
            (∀ q, fs b !! q = Some Dir ↔ fs a !! q = Some Dir) →
            ∃ b', copy_if_present art (pre ++ [x]) b = (Ok tt, b')
                  ∧ (∀ q, is_file (fs a) q = true → is_file (fs b') q = true)
                  ∧ (∀ q, fs b' !! q = Some Dir ↔ fs a !! q = Some Dir)).
  { intros art x b Hin Hf Hd.
    destruct (copy_if_present_runs pre art x b) as (b' & Hrun & Hf' & Hd').
    - by apply Hd.
    - rewrite Hd. apply Hnodir.
    - destruct art as [src|]; [|done]. destruct (Hart src x Hin). split; [auto | done].
    - exists b'. split; [done|]. split; [auto|]. intros q. by rewrite Hd'. }
  destruct (Hstep (kernel (image_info self)) "kernel"
              (set_log (log a ++ ["Copying kernel..."]) a))
    as (b1 & E1 & F1 & D1); [unfold artifacts; set_solver|done|done|].
  rewrite (bind_Ok _ _ _ tt b1 E1).
  destruct (Hstep (dt (image_info self)) "dt.img" b1)
    as (b2 & E2 & F2 & D2); [unfold artifacts; set_solver|done|done|].
  rewrite (bind_Ok _ _ _ tt b2 E2).
  destruct (Hstep (dtb (image_info self)) "dtb.img" b2)
    as (b3 & E3 & F3 & D3); [unfold artifacts; set_solver|done|done|].
  rewrite (bind_Ok _ _ _ tt b3 E3).
  destruct (Hstep (dtbo (image_info self)) "dtbo.img" b3)
    as (b4 & E4 & _); [unfold artifacts; set_solver|done|done|].
  by exists b4.
Qed.

(** C7: after a successful [dump_to_folder], [prebuilt] is a directory and
    for each of the four artifacts its fixed name in [prebuilt] is absent
    when the artifact is [None], and is a newly created file with the
    content of the artifact when it is present (the content the artifact
    had before the run, when it does not lie in the device tree folder);
    [prebuilt] has no other entry, so none at all when the four are absent.
    The copy block itself raises nothing for an absent artifact: in a
    world where [prebuilt] is a directory that holds no directory, it
    succeeds as soon as each artifact that is present is a file other than
    its destination, whichever of the four are absent. *)
Theorem prebuilt_holds_the_present_artifacts
    (self : DeviceTree) (output_path : Path) (git : bool) w p w' :
  fs_wf (fs w) → relative_names (init_rcs self) →
  dump_to_folder self output_path git w = (Ok p, w') →
  let t := device_tree_folder_of self output_path in
  let prebuilt_path := t ++ ["prebuilt"] in
  fs w' !! prebuilt_path = Some Dir
  ∧ (∀ art x, (art, x) ∈ artifacts (image_info self) →
       match art with
       | None => fs w' !! (prebuilt_path ++ [x]) = None
       | Some src =>
           ∃ c, fs w' !! (prebuilt_path ++ [x]) = Some (File c (created_mode w))
                ∧ (¬ t `prefix_of` src → ∃ m, fs w !! src = Some (File c m))
       end)
  ∧ (∀ l, l ≠ [] → is_Some (fs w' !! (prebuilt_path ++ l)) →
       ∃ src x, (Some src, x) ∈ artifacts (image_info self) ∧ l = [x])
  ∧ (∀ a, fs a !! prebuilt_path = Some Dir →
          (∀ x, fs a !! (prebuilt_path ++ [x]) ≠ Some Dir) →
          (∀ src x, (Some src, x) ∈ artifacts (image_info self) →
                    is_file (fs a) src = true ∧ src ≠ prebuilt_path ++ [x]) →
          ∃ b, copy_prebuilts self prebuilt_path a = (Ok tt, b)).
Proof.
  intros Hwf Hrel Hrun t pre.
  apply dump_to_folder_blocks in Hrun
    as (s1 & s2 & s3 & s4 & s5 & s6 & (-> & Ht & Henv1 & Hin1 & Hout1)
        & (H2 & H3 & H4 & H5 & H6 & H7)
        & ([E3 C3] & [E4 C4] & [E5 C5] & [E6 C6] & [E7 C7]) & K2 & K); [|done..].
  fold t in Hin1, Hout1, H2, H3, H4, H5, H6, H7, C3, C4, C5, C6, C7, Ht.
  fold pre in H4, C4.
  assert (Hlater : ∀ l, fs w' !! (pre ++ l) = fs s4 !! (pre ++ l)).
  { intros l. unfold pre. rewrite C7, C6, C5 by path_neq. done. }
  assert (Hs3 : ∀ l, l ≠ [] → fs s3 !! (pre ++ l) = None).
  { intros l Hl. unfold pre. rewrite C3 by path_neq. rewrite <- app_assoc, Hin1.
    rewrite bool_decide_eq_false_2; [done|]. unfold base_dirs.
    destruct l; [done|]. set_solver. }
  assert (Hcm : created_mode s3 = created_mode w).
  { rewrite (created_mode_env s1 s3) by done. by apply created_mode_env. }
  assert (Hpart : ∀ art x, (art, x) ∈ artifacts (image_info self) →
       match art with
       | None => fs w' !! (pre ++ [x]) = None
       | Some src =>
           ∃ c, fs w' !! (pre ++ [x]) = Some (File c (created_mode w))
                ∧ (¬ t `prefix_of` src → ∃ m, fs w !! src = Some (File c m))
       end).
  { intros art x Hin. pose proof (copy_prebuilts_Ok self pre s3 s4 H4 art x Hin) as Hc.
    destruct art as [src|].
    - destruct Hc as (a & c & m & m' & [_ Ca] & Hsrc & Hdst).
      rewrite <- Hlater in Hdst.
      assert (m' = created_mode w) as ->.
      { rewrite <- Hcm. rewrite Hlater in Hdst.
        eapply (keeps_modes_new s3 s6 (pre ++ [x])); [done|by apply Hs3|].
        unfold pre. rewrite C6, C5 by path_neq. exact Hdst. }
      exists c. split; [done|]. intros Hsrc_out. exists m.
      rewrite Ca in Hsrc.
      2:{ intros Hq. by apply in_prebuilt_inside, inside_under in Hq. }
      rewrite C3 in Hsrc.
      2:{ intros Hq. by apply top_level_inside, inside_under in Hq. }
      rewrite Hout1 in Hsrc by done. by case_bool_decide.
    - rewrite Hlater, Hc. by apply Hs3. }
  split; [|split; [exact Hpart|split]].
  - unfold pre. rewrite C7 by path_neq. eapply keeps_modes_dir; [exact K|].
    rewrite C3 by path_neq.
    rewrite Hin1. by rewrite bool_decide_eq_true_2 by (unfold base_dirs; set_solver).
  - intros l Hl Hsome.
    assert (Hnot : ¬ in_prebuilt pre (pre ++ l) → False).
    { intros Hp. rewrite Hlater, C4, Hs3 in Hsome by done. by destruct Hsome. }
    destruct l as [|x [|y r]]; [done| |exfalso; apply Hnot; path_neq].
    destruct (decide (x ∈ ["kernel"; "dt.img"; "dtb.img"; "dtbo.img"])) as [Hx|Hx].
    2:{ exfalso; apply Hnot. path_neq. }
    assert (∃ art, (art, x) ∈ artifacts (image_info self)) as [art Hart].
    { unfold artifacts. rewrite !elem_of_cons in Hx.
      destruct Hx as [->|[->|[->|[->|Hx]]]];
        [ exists (kernel (image_info self)) | exists (dt (image_info self))
        | exists (dtb (image_info self)) | exists (dtbo (image_info self))
        | by apply elem_of_nil in Hx ]; set_solver. }
    specialize (Hpart art x Hart). destruct art as [src|]; [by exists src, x|].
    rewrite Hpart in Hsome. by destruct Hsome.
  - intros a. apply copy_prebuilts_runs.
Qed.

(** ** The init scripts *)

Definition plain_names (l : list Path) : Prop :=
  Forall (λ p, plain (name p) = true) l.

Lemma plain_joinstr (p : Path) (s : string) : plain s = true → joinstr p s = p ++ [s].
Proof.
  unfold plain, joinstr. intros Hs. apply andb_prop in Hs as [Ha Hp].
  apply negb_true_iff in Ha. apply bool_decide_eq_true in Hp. by rewrite Ha, Hp.
Qed.

Lemma plain_names_relative (l : list Path) : plain_names l → relative_names l.
Proof.
  unfold plain_names, relative_names. intros Hl. eapply Forall_impl; [exact Hl|].
  intros p Hp. unfold plain in Hp. apply andb_prop in Hp as [Ha _].
  by apply negb_true_iff in Ha.
Qed.

Lemma last_occurrence {A} (P : A → Prop) `{!∀ x, Decision (P x)} (l : list A) (x : A) :
  x ∈ l → P x → ∃ l1 y l2, l = l1 ++ y :: l2 ∧ P y ∧ Forall (λ z, ¬ P z) l2.
Proof.
  revert x. induction l as [|a l IH]; intros x Hx HP; [by apply elem_of_nil in Hx|].
  destruct (decide (Exists P l)) as [Hex|Hno].
  - apply Exists_exists in Hex as (z & Hz & HPz).
    destruct (IH z Hz HPz) as (l1 & y & l2 & -> & Hy & Hl2).
    by exists (a :: l1), y, l2.
  - apply not_Exists_Forall in Hno; [|apply _].
    apply elem_of_cons in Hx as [->|Hx].
    + by exists [], a, l.
    + rewrite Forall_forall in Hno. by destruct (Hno x Hx).
Qed.

(** The loop of [copy_init_scripts]: the destination of a script holds,
    in the end, the content of the last script of that destination. *)
Lemma copy_loop_last (t : Path) (l : list Path) w w' :
  relative_names l →
  for_each l (λ init_rc, copyfile init_rc (joinstr (t ++ ["recovery"; "root"]) (name init_rc))) w
    = (Ok tt, w') →
  ∀ l1 rc l2, l = l1 ++ rc :: l2 →
    Forall (λ q, joinstr (t ++ ["recovery"; "root"]) (name q)
                 ≠ joinstr (t ++ ["recovery"; "root"]) (name rc)) l2 →
    ∃ a c m m', changes (in_recovery_root t) w a
      ∧ fs a !! rc = Some (File c m)
      ∧ fs w' !! joinstr (t ++ ["recovery"; "root"]) (name rc) = Some (File c m').
Proof.
  intros Hrel Hrun l1. revert l w Hrel Hrun.
  induction l1 as [|x l1 IH]; intros l w Hrel Hrun rc l2 -> Hl2; cbn [app for_each] in Hrun.
  - apply bind_Ok_inv in Hrun as ([] & a & Hcopy & Hrest).
    apply copyfile_Ok in Hcopy as (c & m & m' & Hsrc & Hdst).
    exists w, c, m, m'. split; [reflexivity|]. split; [done|].
    assert (Hkeep : steps (changes (λ q, ∃ y, y ∈ l2
                     ∧ q = joinstr (t ++ ["recovery"; "root"]) (name y)))
              (for_each l2 (λ init_rc,
                 copyfile init_rc (joinstr (t ++ ["recovery"; "root"]) (name init_rc))))).
    { apply steps_for_each; [apply _|]. intros y Hy. apply changes_copyfile. by exists y. }
    apply (steps_run _ _ _ _ _ Hkeep) in Hrest as [_ F]. rewrite F; [done|].
    intros (y & Hy & Heq). rewrite Forall_forall in Hl2. by apply (Hl2 y Hy).
  - apply bind_Ok_inv in Hrun as ([] & a1 & Hcopy & Hrest).
    apply Forall_cons in Hrel as [Hx Hrel].
    destruct (IH _ a1 Hrel Hrest rc l2 eq_refl Hl2) as (a & c & m & m' & Ha & Hsrc & Hdst).
    exists a, c, m, m'. split; [|done]. etransitivity; [|exact Ha].
    apply (steps_run _ _ _ (Ok tt) _
             (changes_copyfile (in_recovery_root t) x
                (joinstr (t ++ ["recovery"; "root"]) (name x))
                ltac:(unfold joinstr; rewrite Hx, <- app_assoc; by eexists)) Hcopy).
Qed.

(** The scripts found in one directory. *)
Definition scripts_in (w : World) (d : Path) : list Path :=
  if is_dir (fs w) d then List.filter is_init_rc (dir_order w (children (fs w) d)) else [].

Lemma collect_init_rcs_run (dirs : list Path) (acc : list Path) w :
  collect_init_rcs dirs acc w = (Ok (acc ++ concat (map (scripts_in w) dirs)), w).
Proof.
  revert acc. induction dirs as [|d dirs IH]; intros acc; cbn [collect_init_rcs map concat].
  - unfold ret. by rewrite app_nil_r.
  - rewrite (bind_Ok _ _ w (is_dir (fs w) d) w) by reflexivity.
    unfold scripts_in at 1. destruct (is_dir (fs w) d) eqn:Hd; cbn [negb].
    + apply is_dir_true in Hd.
      rewrite (bind_Ok _ _ w (dir_order w (children (fs w) d)) w).
      2:{ unfold iterdir. by rewrite Hd. }
      rewrite IH. by rewrite <- app_assoc.
    + by rewrite IH.
Qed.

Lemma elem_of_children (fs : gmap Path node) (d q : Path) :
  q ∈ children fs d ↔ q ≠ [] ∧ parent q = d ∧ is_Some (fs !! q).
Proof.
  unfold children. rewrite list_elem_of_In, filter_In, bool_decide_eq_true, in_map_iff.
  split.
  - intros [([q' n] & <- & Hin) [Hne Hpar]].
    apply list_elem_of_In, elem_of_map_to_list in Hin. cbn in *. eauto.
  - intros (Hne & Hpar & [n Hn]). split; [|done]. exists (q, n). split; [done|].
    by apply list_elem_of_In, elem_of_map_to_list.
Qed.

Lemma elem_of_scripts_in (w : World) (d q : Path) :
  (∀ l, dir_order w l ≡ₚ l) →
  q ∈ scripts_in w d ↔
  fs w !! d = Some Dir ∧ is_init_rc q = true ∧ q ≠ [] ∧ parent q = d ∧ is_Some (fs w !! q).
Proof.
  intros Hperm. unfold scripts_in. destruct (is_dir (fs w) d) eqn:Hd.
  - apply is_dir_true in Hd.
    rewrite list_elem_of_In, filter_In, <- list_elem_of_In, (Hperm _), elem_of_children.
    naive_solver.
  - split; [by intros ?%elem_of_nil|]. intros (Hd' & _). apply is_dir_true in Hd'. congruence.
Qed.

Lemma find_init_rcs_run (ramdisk_path : Path) w :
  find_init_rcs ramdisk_path w
  = (Ok (concat (map (scripts_in w)
                     (map (λ location, ramdisk_path // location) INIT_RC_LOCATIONS))), w).
Proof. unfold find_init_rcs. by rewrite collect_init_rcs_run. Qed.

Lemma is_init_rc_name (d : Path) (n : string) : is_init_rc (d ++ [n]) = is_init_rc [n].
Proof. unfold is_init_rc. by rewrite name_snoc. Qed.

Lemma script_in_its_directory (w : World) (d : Path) (n : string) c m :
  fs_wf (fs w) → (∀ l, dir_order w l ≡ₚ l) →
  fs w !! (d ++ [n]) = Some (File c m) → is_init_rc [n] = true →
  d ++ [n] ∈ scripts_in w d.
Proof.
  intros Hwf Hperm Hf Hrc. apply elem_of_scripts_in; [done|].
  split; [by eapply (wf_prefix_dir _ d [n])|]. split; [by rewrite is_init_rc_name|].
  split; [intros E; by apply app_nil in E as [_ ?]|].
  split; [apply parent_snoc | by eexists].
Qed.

Lemma scripts_in_collected (w : World) (dirs : list Path) (k : nat) (d q : Path) :
  dirs !! k = Some d → q ∈ scripts_in w d → q ∈ concat (map (scripts_in w) dirs).
Proof.
  intros Hk Hq. apply list_elem_of_In, in_concat. exists (scripts_in w d).
  split; [|by apply list_elem_of_In]. apply in_map, list_elem_of_In.
  apply list_elem_of_lookup. by exists k.
Qed.

(** In the list of collected scripts, the script [n] of the directory
    scanned at position [j] comes after every other script of that name,
    when no directory scanned later has a script [n]. *)
Lemma last_script_of_name (w : World) (dirs : list Path) (j : nat) (d : Path) (n : string) :
  (∀ l, dir_order w l ≡ₚ l) →
  dirs !! j = Some d → d ++ [n] ∈ scripts_in w d →
  (∀ k d3, (j < k)%nat → dirs !! k = Some d3 → fs w !! (d3 ++ [n]) = None) →
  ∃ l1 l2, concat (map (scripts_in w) dirs) = l1 ++ (d ++ [n]) :: l2
           ∧ Forall (λ z, name z ≠ n) l2.
Proof.
  intros Hperm Hj Hin Hlater.
  destruct (last_occurrence (λ z, name z = n) (scripts_in w d) (d ++ [n]) Hin)
    as (u & y & v & Hd & Hy & Hv); [apply name_snoc|].
  assert (y = d ++ [n]) as ->.
  { assert (Hyin : y ∈ scripts_in w d) by (rewrite Hd; set_solver).
    apply elem_of_scripts_in in Hyin as (_ & _ & Hne & Hpar & _); [|done].
    rewrite (parent_nonempty y Hne). by rewrite Hpar, Hy. }
  exists (concat (map (scripts_in w) (take j dirs)) ++ u),
         (v ++ concat (map (scripts_in w) (drop (S j) dirs))).
  split.
  - rewrite <- (take_drop_middle dirs j d Hj) at 1.
    rewrite map_app, concat_app. cbn [map concat].
    rewrite Hd, <- !app_assoc. done.
  - apply Forall_app. split; [done|]. apply Forall_forall. intros z Hz Hname.
    apply list_elem_of_In, in_concat in Hz as (l & Hl & Hz).
    apply in_map_iff in Hl as (d3 & <- & Hd3).
    apply list_elem_of_In, list_elem_of_lookup in Hd3 as [k Hk].
    rewrite lookup_drop in Hk.
    apply list_elem_of_In, elem_of_scripts_in in Hz as (_ & _ & Hne & Hpar & Hsome); [|done].
    rewrite (parent_nonempty z Hne), Hpar, Hname in Hsome.
    rewrite (Hlater (S j + k)%nat d3) in Hsome; [by destruct Hsome | lia | done].
Qed.

(** [copyfile] onto an existing file replaces its content and raises
    nothing. *)
Lemma copyfile_overwrites (src dst : Path) c m c' m' w :
  src ≠ dst → fs w !! src = Some (File c m) → fs w !! dst = Some (File c' m') →
  copyfile src dst w
  = (Ok tt, set_fs (<[dst := File c m']> (fs w)) (set_reads (reads w ++ [src]) w)).
Proof.
  intros Hne Hsrc Hdst. unfold copyfile, bind, get_world.
  rewrite bool_decide_eq_false_2 by done. cbn [andb].
  unfold read_text. rewrite Hsrc. unfold write_text. cbn [fs set_reads]. by rewrite Hdst.
Qed.

(** C9: when two of the three scanned directories (the one scanned at
    position [i] and the one scanned later, at position [j]) hold a script
    of the same name [n], and no directory scanned after [j] does, both
    scripts are in the list that [dump_to_folder] copies, both have the
    destination [recovery/root/n], copying onto the existing destination
    raises nothing, and after a successful run the destination holds the
    content of the script of the directory scanned at [j]. *)
Theorem script_of_the_last_directory_wins
    (self : DeviceTree) (output_path : Path) (git : bool) w p w'
    (ramdisk_path d1 d2 : Path) (i j : nat) (n c1 c2 : string) (m1 m2 : Z) :
  let t := device_tree_folder_of self output_path in
  let dirs := map (λ location, ramdisk_path // location) INIT_RC_LOCATIONS in
  let dst := t ++ ["recovery"; "root"; n] in
  fs_wf (fs w) →
  (∀ l, dir_order w l ≡ₚ l) →
  (find_init_rcs ramdisk_path w).1 = Ok (init_rcs self) →
  plain_names (init_rcs self) →
  dirs !! i = Some d1 → dirs !! j = Some d2 → (i < j)%nat →
  fs w !! (d1 ++ [n]) = Some (File c1 m1) →
  fs w !! (d2 ++ [n]) = Some (File c2 m2) →
  (∀ k d3, (j < k)%nat → dirs !! k = Some d3 → fs w !! (d3 ++ [n]) = None) →
  is_init_rc [n] = true →
  ¬ t `prefix_of` d2 ++ [n] →
  dump_to_folder self output_path git w = (Ok p, w') →
  (d1 ++ [n]) ∈ init_rcs self ∧ (d2 ++ [n]) ∈ init_rcs self
  ∧ joinstr (t ++ ["recovery"; "root"]) (name (d1 ++ [n])) = dst
  ∧ joinstr (t ++ ["recovery"; "root"]) (name (d2 ++ [n])) = dst
  ∧ (∀ a c m c' m', d2 ++ [n] ≠ dst →
       fs a !! (d2 ++ [n]) = Some (File c m) → fs a !! dst = Some (File c' m') →
       (copyfile (d2 ++ [n]) dst a).1 = Ok tt)
  ∧ fs w' !! dst = Some (File c2 (created_mode w)).
Proof.
  intros t dirs dst Hwf Hperm Hinit Hplain Hi Hj Hij Hf1 Hf2 Hlater Hrc Hout Hrun.
  rewrite find_init_rcs_run in Hinit. apply Ok_inj in Hinit. fold dirs in Hinit.
  assert (Hin1 : (d1 ++ [n]) ∈ init_rcs self).
  { rewrite <- Hinit. eapply scripts_in_collected; [exact Hi|].
    by eapply script_in_its_directory. }
  assert (Hin2s : (d2 ++ [n]) ∈ scripts_in w d2) by (by eapply script_in_its_directory).
  assert (Hin2 : (d2 ++ [n]) ∈ init_rcs self).
  { rewrite <- Hinit. by eapply scripts_in_collected. }
  assert (Hn : plain n = true).
  { unfold plain_names in Hplain. rewrite Forall_forall in Hplain.
    specialize (Hplain _ Hin2). by rewrite name_snoc in Hplain. }
  assert (Hdst : ∀ d, joinstr (t ++ ["recovery"; "root"]) (name (d ++ [n])) = dst).
  { intros d. rewrite name_snoc, plain_joinstr by done. unfold dst.
    by rewrite <- app_assoc. }
  split; [done|]. split; [done|]. split; [by apply Hdst|]. split; [by apply Hdst|].
  split.
  { intros a c m c' m' Hne Hs Hd. by erewrite copyfile_overwrites. }
  destruct (last_script_of_name w dirs j d2 n Hperm Hj Hin2s Hlater)
    as (l1 & l2 & Hsplit & Hl2).
  rewrite Hinit in Hsplit.
  apply dump_to_folder_blocks in Hrun
    as (s1 & s2 & s3 & s4 & s5 & s6 & (-> & Ht & Henv1 & Hs1 & Hout1)
        & (H2 & H3 & H4 & H5 & H6 & H7)
        & ([E3 C3] & [E4 C4] & [E5 C5] & [E6 C6] & [E7 C7]) & K2 & K);
    [|done|by apply plain_names_relative].
  fold t in Hs1, Hout1, H2, H3, H4, H5, H6, H7, C3, C4, C5, C6, C7, Ht.
  unfold copy_init_scripts in H6.
  apply bind_Ok_inv in H6 as ([] & s5' & [= <-] & H6).
  eapply copy_loop_last in H6 as (a & c & m & m' & [_ Ca] & Hsrc & Hfinal);
    [|by apply plain_names_relative|exact Hsplit|].
  2:{ rewrite Hdst. apply Forall_forall. intros z Hz Hname.
      assert (Hzin : z ∈ init_rcs self) by (rewrite Hsplit; set_solver).
      unfold plain_names in Hplain. rewrite Forall_forall in Hplain.
      rewrite plain_joinstr in Hname by (by apply Hplain).
      rewrite Forall_forall in Hl2. apply (Hl2 z Hz).
      unfold dst in Hname. rewrite <- app_assoc in Hname.
      apply app_inv_head in Hname. by injection Hname. }
  rewrite Hdst in Hfinal.
  assert (c = c2) as ->.
  { rewrite Ca in Hsrc
      by (intros [r Hq]; apply Hout; rewrite Hq; by apply prefix_app_r).
    cbn [fs set_log] in Hsrc.
    rewrite C5 in Hsrc by (intros Hq; by apply top_level_inside, inside_under in Hq).
    rewrite C4 in Hsrc by (intros Hq; by apply in_prebuilt_inside, inside_under in Hq).
    rewrite C3 in Hsrc by (intros Hq; by apply top_level_inside, inside_under in Hq).
    rewrite Hout1 in Hsrc by done. case_bool_decide; congruence. }
  assert (Hw' : fs w' !! dst = Some (File c2 m')).
  { unfold dst. rewrite C7 by path_neq. done. }
  assert (m' = created_mode w) as ->; [|done].
  rewrite <- (created_mode_env w s3) by (by etransitivity).
  unfold dst in Hw'. rewrite C7 in Hw' by path_neq.
  eapply (keeps_modes_new s3 s6); [done| |done].
  unfold dst. rewrite C3 by path_neq. rewrite Hs1.
  rewrite bool_decide_eq_false_2; [done|]. unfold base_dirs.
  rewrite !elem_of_cons. intros [?|[?|[?|[?|?%elem_of_nil]]]]; done.
Qed.

(** ** The blocks in two worlds *)

Lemma sim_Ok {A} (P Q : World → World → Prop) (m : M A) w1 w2 a w1' :
  sim P Q m → P w1 w2 → m w1 = (Ok a, w1') → ∃ w2', m w2 = (Ok a, w2') ∧ Q w1' w2'.
Proof.
  intros Hm HP E. specialize (Hm w1 w2 HP). rewrite E in Hm.
  destruct (m w2) as [[a2|e2] w2']; [|done]. destruct Hm as [<- HQ]. eauto.
Qed.

Lemma sim_render folder template_file out_file to_file text :
  sim agree agree (render_template folder template_file out_file to_file text).
Proof.
  unfold render_template. destruct to_file; [|apply sim_ret].
  destruct folder; [|apply sim_raise].
  eapply sim_bind; [apply sim_write_text | intros _; apply sim_ret].
Qed.

Ltac sim_binds leaf :=
  repeat first
    [ leaf
    | apply sim_ret
    | eapply sim_bind; [|intros ?] ].

Lemma sim_write_makefiles (self : DeviceTree) (t : Path) :
  sim agree agree (write_makefiles self t).
Proof.
  unfold write_makefiles, _render_template.
  sim_binds ltac:(first [apply sim_LOGD | apply sim_render]).
Qed.

Lemma sim_set_permissions (t : Path) : sim agree agree (set_permissions t).
Proof. unfold set_permissions. sim_binds ltac:(apply sim_chmod). Qed.

Lemma sim_copy_if_present artifact dst : sim agree agree (copy_if_present artifact dst).
Proof. destruct artifact; [apply sim_copyfile | apply sim_ret]. Qed.

Lemma sim_copy_prebuilts (self : DeviceTree) (pre : Path) :
  sim agree agree (copy_prebuilts self pre).
Proof.
  unfold copy_prebuilts.
  sim_binds ltac:(first [apply sim_LOGD | apply sim_copy_if_present]).
Qed.

Lemma sim_write_fstab (self : DeviceTree) (t : Path) : sim agree agree (write_fstab self t).
Proof.
  unfold write_fstab. sim_binds ltac:(first [apply sim_LOGD | apply sim_write_text]).
Qed.

Lemma sim_copy_init_scripts (self : DeviceTree) (rr : Path) :
  sim agree agree (copy_init_scripts self rr).
Proof.
  unfold copy_init_scripts.
  eapply sim_bind; [apply sim_LOGD | intros _].
  apply sim_for_each. intros rc. apply sim_copyfile.
Qed.

(** ** The snapshot *)

Lemma try_read_identity (repo : Path) w :
  try_except
    (let! email := config_get_value repo "user" "email" in
     let! name := config_get_value repo "user" "name" in
     ret (Some email, Some name))
    (ret (None, None)) w
  = (Ok (read_identity w repo), w).
Proof.
  unfold try_except, bind, config_get_value, read_identity, ret.
  destruct (effective_config w repo ("user", "email")) as [e|]; [|done].
  by destruct (effective_config w repo ("user", "name")) as [n|].
Qed.

(** The repository that [create_git_repo] leaves in a folder that had
    none: its configuration and its only commit. *)
Definition fallback_config : gmap (string * string) string :=
  <[("user", "name") := "Sebastiano Barezzi"]>
    (<[("user", "email") := "barezzisebastiano@gmail.com"]> ∅).

Definition recorded_config (w : World) : gmap (string * string) string :=
  match git_global w !! ("user", "email"), git_global w !! ("user", "name") with
  | Some _, Some _ => ∅
  | _, _ => fallback_config
  end.

Definition config_over (c g : gmap (string * string) string) (key : string * string)
    : option string :=
  match c !! key with Some v => Some v | None => g !! key end.

(** The commit that [create_git_repo] makes in the world [w]: its message
    and its author; and its files, when the path of the folder has no
    character that glob reads as a pattern. *)
Definition recorded_commit (self : DeviceTree) (w : World) (t : Path) (c : Commit) : Prop :=
  message c = render_text "commit_message" "#" (current_year self)
                (device_info self) (fstab self) (image_info self) version
  ∧ author_name c = config_over (recorded_config w) (git_global w) ("user", "name")
  ∧ author_email c = config_over (recorded_config w) (git_global w) ("user", "email")
  ∧ (is_pattern t = false → tree c = staged_files w t).

Lemma staged_not_git (t q : Path) : staged t q = true → ¬ git_dir t q.
Proof.
  unfold staged. intros Hs [r ->]. rewrite drop_app_length in Hs.
  by rewrite andb_false_r in Hs.
Qed.

Lemma staged_files_lookup (w : World) (t q : Path) :
  is_pattern t = false →
  staged_files w t !! q
  = if staged t q
    then match fs w !! q with
         | Some (File c m) => Some (File c (index_mode m))
         | _ => None
         end
    else None.
Proof.
  intros Hp. unfold staged_files. rewrite Hp, lookup_fmap, map_lookup_filter.
  destruct (fs w !! q) as [n|]; cbn [fst snd mbind option_bind]; [|by destruct (staged t q)].
  destruct (staged t q); cbn [andb].
  - destruct n as [c m|]; cbn [is_file_node].
    + by rewrite option_guard_True.
    + by rewrite option_guard_False.
  - by rewrite option_guard_False.
Qed.

Lemma staged_files_outside (t : Path) w w' :
  is_pattern t = false → (∀ q, ¬ git_dir t q → fs w' !! q = fs w !! q) →
  staged_files w' t = staged_files w t.
Proof.
  intros Hp Hfs. apply map_eq. intros q. rewrite !staged_files_lookup by done.
  destruct (staged t q) eqn:Hs; [|done]. by rewrite Hfs by (by apply staged_not_git).
Qed.

Lemma create_git_repo_run (self : DeviceTree) (t : Path) w :
  fs w !! (t ++ [".git"]) = None → fs w !! t = Some Dir →
  ∃ w' c, create_git_repo self t w = (Ok tt, w')
          ∧ fs w' !! (t ++ [".git"]) = Some Dir
          ∧ repos w' = <[t := {| repo_config := recorded_config w; commits := [c] |}]> (repos w)
          ∧ recorded_commit self w t c
          ∧ changes (git_dir t) w w'.
Proof.
  intros Hgit Ht. unfold create_git_repo.
  rewrite (bind_Ok _ _ w tt (set_log (log w ++ ["Creating git repo..."]) w)) by reflexivity.
  set (w1 := set_log (log w ++ ["Creating git repo..."]) w).
  destruct (Repo_init_run t w1) as (w2 & Hinit & Hgit2 & Hrepos2 & Hch2); [done..|].
  rewrite (bind_Ok _ _ w1 t w2 Hinit).
  rewrite (bind_Ok _ _ w2 _ w2 (try_read_identity t w2)).
  assert (Hgg2 : git_global w2 = git_global w) by (by destruct Hch2 as [(_ & -> & _) _]).
  assert (Heff : ∀ key, effective_config w2 t key = git_global w !! key).
  { intros key. unfold effective_config, get_repo. rewrite Hrepos2, lookup_insert_eq. cbn.
    by rewrite lookup_empty, Hgg2. }
  unfold read_identity. rewrite !Heff.
  assert (Hch12 : changes (git_dir t) w w2).
  { etransitivity; [|exact Hch2]. split; [by unfold same_env | done]. }
  assert (Hcfg : ∃ w3,
    (if bool_decide
          ((match git_global w !! ("user", "email"), git_global w !! ("user", "name") with
            | Some email, Some name => (Some email, Some name)
            | _, _ => (None, None)
            end).1 = None)
        || bool_decide
             ((match git_global w !! ("user", "email"), git_global w !! ("user", "name") with
               | Some email, Some name => (Some email, Some name)
               | _, _ => (None, None)
               end).2 = None)
     then config_set_value t "user" "email" "barezzisebastiano@gmail.com" ;;;
          config_set_value t "user" "name" "Sebastiano Barezzi"
     else ret tt) w2 = (Ok tt, w3)
    ∧ fs w3 !! (t ++ [".git"]) = Some Dir
    ∧ repos w3 = <[t := {| repo_config := recorded_config w; commits := [] |}]> (repos w)
    ∧ changes (git_dir t) w w3).
  { assert (Hfall : ∃ w3,
      (config_set_value t "user" "email" "barezzisebastiano@gmail.com" ;;;
       config_set_value t "user" "name" "Sebastiano Barezzi") w2 = (Ok tt, w3)
      ∧ fs w3 !! (t ++ [".git"]) = Some Dir
      ∧ repos w3 = <[t := {| repo_config := fallback_config; commits := [] |}]> (repos w)
      ∧ changes (git_dir t) w w3).
    { destruct (config_set_value_run t "user" "email" "barezzisebastiano@gmail.com" w2 Hgit2)
        as (wa & Ha & Hgita & Hreposa & Hcha).
      destruct (config_set_value_run t "user" "name" "Sebastiano Barezzi" wa Hgita)
        as (wb & Hb & Hgitb & Hreposb & Hchb).
      exists wb. split; [by rewrite (bind_Ok _ _ w2 tt wa Ha)|]. split; [done|]. split.
      - assert (G2 : get_repo w2 t = empty_repo).
        { unfold get_repo. by rewrite Hrepos2, lookup_insert_eq. }
        rewrite G2 in Hreposa. cbn [empty_repo repo_config commits] in Hreposa.
        assert (Ga : get_repo wa t
                     = {| repo_config := <[("user", "email") := "barezzisebastiano@gmail.com"]> ∅;
                          commits := [] |}).
        { unfold get_repo. by rewrite Hreposa, lookup_insert_eq. }
        rewrite Ga in Hreposb. cbn [repo_config commits] in Hreposb.
        rewrite Hreposb, Hreposa, Hrepos2. by rewrite !insert_insert_eq.
      - etransitivity; [exact Hch12|]. by etransitivity. }
    unfold recorded_config.
    destruct (git_global w !! ("user", "email")) as [e|];
      [destruct (git_global w !! ("user", "name")) as [n|]|]; cbn [fst snd].
    - rewrite !bool_decide_eq_false_2 by done. cbn [orb]. exists w2.
      split; [done|]. split; [done|]. split; [|done]. by rewrite Hrepos2.
    - rewrite bool_decide_eq_true_2 by done. exact Hfall.
    - rewrite bool_decide_eq_true_2 by done. exact Hfall. }
  destruct Hcfg as (w3 & Hcfg & Hgit3 & Hrepos3 & Hch3).
  rewrite (bind_Ok _ _ w2 tt w3 Hcfg).
  unfold _render_template, render_template. rewrite (bind_Ok _ _ w3 _ w3) by reflexivity.
  destruct (index_add_commit_run t
              (render_text "commit_message" "#" (current_year self) (device_info self)
                 (fstab self) (image_info self) version) w3 Hgit3)
    as (w' & c & Hrun & Hgit' & Hrepos' & (Hmsg & Hname & Hemail & _ & Htree) & Hch').
  assert (Hgg3 : git_global w3 = git_global w) by (by destruct Hch3 as [(_ & -> & _) _]).
  assert (Hr3 : get_repo w3 t = {| repo_config := recorded_config w; commits := [] |}).
  { unfold get_repo. by rewrite Hrepos3, lookup_insert_eq. }
  exists w', c. split; [exact Hrun|]. split; [done|]. split; [|split].
  - rewrite Hrepos', Hr3, Hrepos3. cbn. by rewrite insert_insert_eq.
  - split; [done|]. unfold effective_config in Hname, Hemail.
    rewrite Hr3, Hgg3 in Hname, Hemail. split; [exact Hname|]. split; [exact Hemail|].
    intros Hp. rewrite Htree. apply staged_files_outside; [done | apply Hch3].
  - by etransitivity.
Qed.

Lemma inside_ne (t q : Path) : inside t q → q ≠ t.
Proof.
  intros (x & r & ->) E. rewrite <- (app_nil_r t) in E at 2. by apply app_inv_head in E.
Qed.

(** The world in which the snapshot is taken. *)
Lemma before_snapshot (t : Path) s1 s3 s4 s5 s6 :
  (∀ l, fs s1 !! (t ++ l) = if bool_decide (l ∈ base_dirs) then Some Dir else None) →
  changes (top_level t) s1 s3 → changes (in_prebuilt (t ++ ["prebuilt"])) s3 s4 →
  changes (top_level t) s4 s5 → changes (in_recovery_root t) s5 s6 →
  fs s6 !! (t ++ [".git"]) = None ∧ fs s6 !! t = Some Dir ∧ same_env s1 s6.
Proof.
  intros Hs1 [E3 C3] [E4 C4] [E5 C5] [E6 C6]. split; [|split].
  - rewrite C6, C5, C4, C3 by path_neq. rewrite Hs1.
    rewrite bool_decide_eq_false_2; [done|]. unfold base_dirs.
    rewrite !elem_of_cons. intros [?|[?|[?|[?|?%elem_of_nil]]]]; done.
  - rewrite C6, C5, C4, C3.
    + specialize (Hs1 []). rewrite app_nil_r in Hs1. rewrite Hs1.
      by rewrite bool_decide_eq_true_2 by (unfold base_dirs; set_solver).
    + intros Hq. by apply top_level_inside, inside_ne in Hq.
    + intros Hq. by apply in_prebuilt_inside, inside_ne in Hq.
    + intros Hq. by apply top_level_inside, inside_ne in Hq.
    + intros (r & Hq). apply (inside_ne t t); [|done]. by eexists _, _.
  - etransitivity; [done|]. etransitivity; [done|]. by etransitivity.
Qed.

(** C8 (amended): the snapshot writes nothing to the configuration above
    the repository.  When [user.email] and [user.name] are both configured
    there, the repository gets no configuration of its own and the commit
    is made in that identity.  When one of the two is unset, both are set
    in the repository to the fallback identity, which then stands for both
    in this repository: a configured value of the other one is overridden
    there, and the commit is made in the fallback identity. *)
Theorem snapshot_identity (self : DeviceTree) (output_path : Path) w p w' :
  fs_wf (fs w) → relative_names (init_rcs self) →
  dump_to_folder self output_path true w = (Ok p, w') →
  let t := device_tree_folder_of self output_path in
  git_global w' = git_global w
  ∧ (∃ c, commits (get_repo w' t) = [c]
          ∧ author_email c = effective_config w' t ("user", "email")
          ∧ author_name c = effective_config w' t ("user", "name"))
  ∧ match git_global w !! ("user", "email"), git_global w !! ("user", "name") with
    | Some email, Some name =>
        repo_config (get_repo w' t) = ∅
        ∧ effective_config w' t ("user", "email") = Some email
        ∧ effective_config w' t ("user", "name") = Some name
    | _, _ =>
        repo_config (get_repo w' t) = fallback_config
        ∧ effective_config w' t ("user", "email") = Some "barezzisebastiano@gmail.com"
        ∧ effective_config w' t ("user", "name") = Some "Sebastiano Barezzi"
    end.
Proof.
  intros Hwf Hrel Hrun t.
  apply dump_to_folder_blocks in Hrun
    as (s1 & s2 & s3 & s4 & s5 & s6 & (-> & Ht & Henv1 & Hs1 & Hout1)
        & (H2 & H3 & H4 & H5 & H6 & H7) & (C3 & C4 & C5 & C6 & C7) & K2 & K); [|done..].
  fold t in Hs1, H7, C3, C4, C5, C6.
  destruct (before_snapshot t s1 s3 s4 s5 s6 Hs1 C3 C4 C5 C6) as (Hgit & Hdir & Henv6).
  destruct (create_git_repo_run self t s6 Hgit Hdir)
    as (w'' & c & Hrun & _ & Hrepos & (_ & Hname & Hemail & _) & _).
  rewrite Hrun in H7. injection H7 as ->.
  assert (Hg : git_global s6 = git_global w).
  { destruct Henv6 as (_ & -> & _). by destruct Henv1 as (_ & -> & _). }
  assert (Hrepo : get_repo w' t = {| repo_config := recorded_config s6; commits := [c] |}).
  { unfold get_repo. by rewrite Hrepos, lookup_insert_eq. }
  assert (Hgg : git_global w' = git_global w).
  { destruct C7 as [(_ & -> & _) _]. exact Hg. }
  unfold effective_config. rewrite Hrepo, Hgg.
  cbn [repo_config commits]. unfold config_over in Hname, Hemail.
  rewrite Hg in Hname, Hemail.
  split; [done|]. split.
  { exists c. by rewrite Hname, Hemail. }
  unfold recorded_config. rewrite !Hg.
  destruct (git_global w !! ("user", "email")) as [e|] eqn:Ee;
    [destruct (git_global w !! ("user", "name")) as [n|] eqn:En|].
  - by rewrite ?lookup_empty, ?Ee, ?En.
  - unfold fallback_config. by rewrite lookup_insert_eq, lookup_insert_ne, lookup_insert_eq.
  - unfold fallback_config. by rewrite lookup_insert_eq, lookup_insert_ne, lookup_insert_eq.
Qed.

(** Well-formedness is kept by every block. *)
Definition keeps_wf (w w' : World) : Prop := fs_wf (fs w) → fs_wf (fs w').

#[export] Instance keeps_wf_preorder : PreOrder keeps_wf.
Proof.
  split; [intros w Hw; exact Hw | intros w1 w2 w3 H1 H2 Hw; by apply H2, H1].
Qed.

Lemma keeps_wf_same w w' : fs w' = fs w → keeps_wf w w'.
Proof. intros E Hw. by rewrite E. Qed.

Lemma wf_LOGD line : steps keeps_wf (LOGD line).
Proof. intros w. by apply keeps_wf_same. Qed.

Lemma wf_read_text p : steps keeps_wf (read_text p).
Proof.
  intros w. unfold read_text. destruct (fs w !! p) as [[c m|]|]; by apply keeps_wf_same.
Qed.

Lemma wf_write_text p c : steps keeps_wf (write_text p c).
Proof.
  intros w. unfold write_text. destruct (fs w !! p) as [[c' m|]|] eqn:E;
    [|by apply keeps_wf_same|].
  - intros Hwf. assert (Hp : p ≠ []).
    { intros ->. destruct Hwf as [Hroot _]. congruence. }
    cbn. apply wf_insert_file; [done..| |congruence].
    destruct Hwf as [_ Hwf]. by eapply Hwf.
  - destruct p as [|x p']; [by apply keeps_wf_same|].
    match goal with |- context [match ?o with _ => _ end] =>
      destruct o as [[? ?|]|] eqn:Epar end; try (by apply keeps_wf_same).
    intros Hwf. cbn. apply wf_insert_file; [done..|congruence].
Qed.

Lemma wf_chmod p mode : steps keeps_wf (chmod p mode).
Proof.
  intros w. unfold chmod. destruct (fs w !! p) as [[c' m|]|] eqn:E;
    [|by apply keeps_wf_same..].
  intros Hwf. assert (Hp : p ≠ []).
  { intros ->. destruct Hwf as [Hroot _]. congruence. }
  cbn. apply wf_insert_file; [done..| |congruence].
  destruct Hwf as [_ Hwf]. by eapply Hwf.
Qed.

Lemma wf_os_mkdir p : steps keeps_wf (os_mkdir p).
Proof.
  intros w. unfold os_mkdir. destruct (fs w !! p) as [n|] eqn:E; [by apply keeps_wf_same|].
  destruct p as [|x p']; [by apply keeps_wf_same|].
  match goal with |- context [match ?o with _ => _ end] =>
    destruct o as [[? ?|]|] eqn:Epar end; try (by apply keeps_wf_same).
  intros Hwf. cbn. by apply wf_insert_dir.
Qed.

Lemma wf_copyfile src dst : steps keeps_wf (copyfile src dst).
Proof.
  unfold copyfile.
  apply steps_bind; [apply _ | apply steps_get_world, _ | intros w0].
  destruct (bool_decide (src = dst) && exists_ (fs w0) src).
  - apply steps_raise, _.
  - apply steps_bind; [apply _ | apply wf_read_text | intros c]. apply wf_write_text.
Qed.

(** A successful [dump_to_folder] without snapshot leaves a well-formed
    file system. *)
Lemma dump_to_folder_wf (self : DeviceTree) (output_path : Path) w p w' :
  fs_wf (fs w) → dump_to_folder self output_path false w = (Ok p, w') → fs_wf (fs w').
Proof.
  intros Hwf Hrun.
  apply dump_to_folder_Ok_inv in Hrun
    as (s1 & s2 & s3 & s4 & s5 & s6 & H1 & H2 & H3 & H4 & H5 & H6 & -> & H7).
  apply create_folders_Ok in H1 as (_ & Hwf1 & _); [|done].
  assert (W2 : steps keeps_wf (write_makefiles self (device_tree_folder_of self output_path))).
  { unfold write_makefiles, _render_template, render_template.
    steps_binds ltac:(first [apply wf_LOGD | apply wf_write_text]). }
  assert (W3 : steps keeps_wf (set_permissions (device_tree_folder_of self output_path))).
  { unfold set_permissions. steps_binds ltac:(apply wf_chmod). }
  assert (W4 : ∀ pre, steps keeps_wf (copy_prebuilts self pre)).
  { intros pre. unfold copy_prebuilts, copy_if_present.
    steps_binds ltac:(first
      [ apply wf_LOGD
      | match goal with |- steps _ (match ?a with _ => _ end) => destruct a end
      | apply wf_copyfile ]). }
  assert (W5 : steps keeps_wf (write_fstab self (device_tree_folder_of self output_path))).
  { unfold write_fstab. steps_binds ltac:(first [apply wf_LOGD | apply wf_write_text]). }
  assert (W6 : ∀ rr, steps keeps_wf (copy_init_scripts self rr)).
  { intros rr. unfold copy_init_scripts.
    apply steps_bind; [apply _ | apply wf_LOGD | intros _].
    apply steps_for_each; [apply _|]. intros rc _. apply wf_copyfile. }
  apply (steps_run _ _ _ _ _ W2) in H2. apply (steps_run _ _ _ _ _ W3) in H3.
  apply (steps_run _ _ _ _ _ (W4 _)) in H4. apply (steps_run _ _ _ _ _ W5) in H5.
  apply (steps_run _ _ _ _ _ (W6 _)) in H6.
  assert (Hwf6 : fs_wf (fs s6)) by (by apply H6, H5, H4, H3, H2).
  by subst.
Qed.

Lemma remove_existing_Ok (d : Path) w :
  remove_existing d w = (Ok tt, (remove_existing d w).2).
Proof.
  rewrite remove_existing_run. unfold rmtree_ignore_errors. by destruct (is_dir _ _).
Qed.

(** [create_folders] succeeds on a removable folder whose parents are
    directories. *)
Lemma create_folders_succeeds (t : Path) v :
  fs_wf (fs v) → t ≠ [] → is_dir (fs v) t = true →
  (∀ q, t `prefix_of` q → undeletable v q = false) →
  ∃ s, create_folders t v = (Ok tt, s).
Proof.
  intros Hwf Ht Hdir Hdel. unfold create_folders.
  rewrite (bind_Ok _ _ v tt _ (remove_existing_Ok t v)).
  set (v0 := (remove_existing t v).2).
  assert (Hwf0 : fs_wf (fs v0)).
  { unfold v0. rewrite remove_existing_run. by apply rmtree_wf. }
  assert (Hin0 : ∀ q, t `prefix_of` q → fs v0 !! q = None).
  { intros q Hq. unfold v0. rewrite remove_existing_run. by apply rmtree_all. }
  assert (Hout0 : ∀ q, ¬ t `prefix_of` q → fs v0 !! q = fs v !! q).
  { intros q Hq. by apply (remove_existing_changes t v). }
  assert (Habove : ∀ q, q `prefix_of` t → q ≠ t → fs v0 !! q = Some Dir).
  { intros q Hq Hne. rewrite Hout0.
    - apply is_dir_true in Hdir. by eapply wf_ancestor_dir.
    - intros Htq. apply Hne. by apply (anti_symm prefix). }
  destruct (mkdir_parents_succeeds (length t) false t v0) as [v1 H1]; [done..| |by left; auto|].
  { intros q Hq Hne. right. by apply Habove. }
  rewrite (bind_Ok _ _ v0 tt v1 H1).
  apply mkdir_Ok in H1 as (Hwf1 & [_ Hfr1] & Hd1 & _); [|done].
  unfold joinpath, is_prefix_of in *.
  destruct (mkdir_parents_succeeds (length (t ++ ["prebuilt"])) false (t ++ ["prebuilt"]) v1)
    as [v2 H2]; [done..| | |].
  { intros q Hq Hne. right. apply prefix_snoc_cases in Hq as [->|Hq]; [done|]. by apply Hd1. }
  { left. rewrite Hfr1 by apply prefix_snoc_not. apply Hin0. by apply prefix_app_r. }
  rewrite (bind_Ok _ _ v1 tt v2 H2).
  apply mkdir_Ok in H2 as (Hwf2 & [_ Hfr2] & Hd2 & _); [|done].
  unfold mkdir. apply mkdir_parents_succeeds; [done..| |].
  - intros q Hq Hne. apply prefix_snoc_cases in Hq as [->|Hq]; [done|].
    apply prefix_snoc_cases in Hq as [->|Hq].
    + left. rewrite Hfr2, Hfr1.
      * apply Hin0. by apply prefix_app_r.
      * apply prefix_snoc_not.
      * intros Hp. apply prefix_app_inv in Hp. by apply prefix_cons_inv_1 in Hp.
    + right. apply Hd2. by apply prefix_app_r.
  - left. rewrite Hfr2, Hfr1.
    + apply Hin0. rewrite <- app_assoc. by apply prefix_app_r.
    + intros Hp. rewrite <- app_assoc in Hp.
      rewrite <- (app_nil_r t) in Hp at 2. apply prefix_app_inv in Hp.
      by apply prefix_nil_inv in Hp.
    + intros Hp. rewrite <- app_assoc in Hp. apply prefix_app_inv in Hp.
      by apply prefix_cons_inv_1 in Hp.
Qed.

(** C2: let a run of [dump_to_folder] have succeeded, and let it run again
    for the same device tree when its folder exists and can be removed:
    on the world the first run left, or on any world that differs from it
    inside that folder only, whatever the folder now holds.  The second run
    succeeds and leaves every entry that is not in git's directory [.git]
    as the first run left it, present or absent: nothing that was in the
    folder before the second run is left, and nothing is added to it.
    Without snapshot there is no [.git], and the file system is exactly
    the one the first run left. *)
Theorem rerun_recreates_the_folder
    (self : DeviceTree) (output_path : Path) (git : bool) w p w1 v :
  let t := device_tree_folder_of self output_path in
  fs_wf (fs w) → relative_names (init_rcs self) →
  dump_to_folder self output_path git w = (Ok p, w1) →
  fs_wf (fs v) → is_dir (fs v) t = true →
  (∀ q, ¬ t `prefix_of` q → fs v !! q = fs w1 !! q) →
  (∀ q, t `prefix_of` q → undeletable v q = false) →
  umask v = umask w1 → git_global v = git_global w1 →
  ∃ v1, dump_to_folder self output_path git v = (Ok p, v1)
        ∧ (∀ q, ¬ (t ++ [".git"]) `prefix_of` q → fs v1 !! q = fs w1 !! q)
        ∧ (git = false → fs v1 = fs w1).
Proof.
  intros t Hwf Hrel Hrun Hwfv Hdirv Hsame Hdel Hum Hgg.
  apply dump_to_folder_blocks in Hrun
    as (s1 & s2 & s3 & s4 & s5 & s6 & (-> & Ht & Henv1 & Hs1 & Hout1)
        & (H2 & H3 & H4 & H5 & H6 & H7) & (C3 & C4 & C5 & C6 & C7) & K2 & K); [|done..].
  fold t in Hs1, Hout1, H2, H3, H4, H5, H6, H7, C3, C4, C5, C6, C7, Ht.
  destruct (before_snapshot t s1 s3 s4 s5 s6 Hs1 C3 C4 C5 C6) as (Hgit & Hdir & Henv6).
  assert (Henv : same_env w w1).
  { etransitivity; [exact Henv1|]. etransitivity; [exact Henv6|]. apply C7. }
  assert (Hw1 : ∀ q, ¬ t `prefix_of` q → fs w1 !! q = fs s1 !! q).
  { intros q Hq. destruct C3 as [_ C3], C4 as [_ C4], C5 as [_ C5], C6 as [_ C6],
      C7 as [_ C7].
    rewrite C7, C6, C5, C4, C3; [done|..]; intros HS; apply Hq.
    - by apply top_level_inside, inside_under in HS.
    - by apply in_prebuilt_inside, inside_under in HS.
    - by apply top_level_inside, inside_under in HS.
    - destruct HS as [r ->]. by apply prefix_app_r.
    - destruct HS as [r ->]. by apply prefix_app_r. }
  destruct (create_folders_succeeds t v) as [s1' H1']; [done..|].
  pose proof H1' as Hc. apply create_folders_Ok in Hc as (_ & Hwf1' & Henv1' & Hs1' & Hout1');
    [|done].
  assert (Hagree : agree s1 s1').
  { split; [|split].
    - apply map_eq. intros q. destruct (decide (t `prefix_of` q)) as [[l ->]|Hq].
      + by rewrite Hs1, Hs1'.
      + rewrite Hout1, Hout1' by done. case_bool_decide as Hp; [done|].
        rewrite Hsame, Hw1, Hout1 by done. by rewrite bool_decide_eq_false_2.
    - destruct Henv1 as (-> & _), Henv1' as (-> & _), Henv as (E & _). by rewrite Hum, E.
    - destruct Henv1 as (_ & -> & _), Henv1' as (_ & -> & _), Henv as (_ & E & _).
      by rewrite Hgg, E. }
  destruct (sim_Ok _ _ _ _ _ _ _ (sim_write_makefiles self t) Hagree H2) as (s2' & H2' & A2).
  destruct (sim_Ok _ _ _ _ _ _ _ (sim_set_permissions t) A2 H3) as (s3' & H3' & A3).
  destruct (sim_Ok _ _ _ _ _ _ _ (sim_copy_prebuilts self _) A3 H4) as (s4' & H4' & A4).
  destruct (sim_Ok _ _ _ _ _ _ _ (sim_write_fstab self t) A4 H5) as (s5' & H5' & A5).
  destruct (sim_Ok _ _ _ _ _ _ _ (sim_copy_init_scripts self _) A5 H6) as (s6' & H6' & A6).
  assert (Hdump : ∀ r,
    (if negb git then ret t else create_git_repo self t ;;; ret t) s6' = r →
    dump_to_folder self output_path git v = r).
  { intros r <-. unfold dump_to_folder. fold t. unfold joinpath.
    rewrite <- app_assoc. cbn [app].
    rewrite (bind_Ok _ _ v tt s1' H1'), (bind_Ok _ _ s1' tt s2' H2').
    rewrite (bind_Ok _ _ s2' tt s3' H3'), (bind_Ok _ _ s3' tt s4' H4').
    by rewrite (bind_Ok _ _ s4' tt s5' H5'), (bind_Ok _ _ s5' tt s6' H6'). }
  destruct A6 as (Hfs6 & Hum6 & Hgg6). destruct git; cbn [negb] in Hdump.
  - destruct (create_git_repo_run self t s6') as (v1 & c & H7' & _ & _ & _ & [_ C7']).
    { by rewrite <- Hfs6. }
    { by rewrite <- Hfs6. }
    exists v1. split; [apply Hdump; by rewrite (bind_Ok _ _ s6' tt v1 H7')|].
    split; [|done]. intros q Hq.
    assert (Hnot : ¬ git_dir t q).
    { intros [r ->]. apply Hq. exists r. by rewrite <- app_assoc. }
    destruct C7 as [_ C7]. by rewrite C7', C7, Hfs6.
  - subst w1. exists s6'. split; [by apply Hdump|]. split; [|done].
    intros q _. by rewrite Hfs6.
Qed.

(** C10: the deletion of an existing device tree folder reports no error,
    whatever it could remove; when the folder (or a file of that name) is
    still there afterwards, [dump_to_folder] fails with [FileExistsError]
    at the creation of the folder and leaves the file system as the
    deletion left it: nothing is rendered into it and nothing is copied. *)
Theorem no_population_of_a_surviving_folder
    (self : DeviceTree) (output_path : Path) (git : bool) w :
  let device_tree_folder := device_tree_folder_of self output_path in
  exists_ (fs (remove_existing device_tree_folder w).2) device_tree_folder = true →
  (remove_existing device_tree_folder w).1 = Ok tt
  ∧ dump_to_folder self output_path git w
    = (Err FileExistsError, (remove_existing device_tree_folder w).2).
Proof.
  intros t Hex. split.
  { rewrite remove_existing_run. unfold rmtree_ignore_errors. by destruct (is_dir _ _). }
  unfold dump_to_folder, create_folders. fold t.
  destruct (remove_existing t w) as [r w0] eqn:E0.
  assert (r = Ok tt) as ->.
  { rewrite remove_existing_run in E0. unfold rmtree_ignore_errors in E0.
    destruct (is_dir _ _); by injection E0 as <- _. }
  cbn [snd] in Hex. unfold exists_ in Hex.
  destruct (fs w0 !! t) as [n|] eqn:Et; [|discriminate].
  cbn [snd]. apply (bind_Err _ _ w). rewrite (bind_Ok _ _ w tt w0 E0).
  apply (bind_Err _ _ w0). by eapply mkdir_exists.
Qed.

End Assembly.

(** ** Discovery of the property file *)

Section Discovery.

Context `{Collaborators}.

Lemma search_locations_unfold (fs : gmap Path node) (base_path : Path) :
  get_extended_buildprop_locations fs base_path =
    map (λ location, base_path // location) BUILDPROP_LOCATIONS
    ++ concat (map (λ d, if exists_ fs d then extended_locations d else [])
                   [ parent base_path; parent (parent base_path);
                     parent (parent (parent base_path)) ]).
Proof.
  unfold get_extended_buildprop_locations. cbn [fold_left map concat].
  destruct (exists_ fs (parent base_path)),
           (exists_ fs (parent (parent base_path))),
           (exists_ fs (parent (parent (parent base_path))));
    cbn [negb]; rewrite ?app_nil_r, <- ?app_assoc; reflexivity.
Qed.

(** What one successful load does to the world. *)
Definition loaded (line : string) (p : Path) (w : World) : World :=
  set_reads (reads w ++ [p]) (set_log (log w ++ [line]) w).

Definition parsed {A B} (r : result A) (f : A → B) : result B :=
  match r with Ok a => Ok (f a) | Err e => Err e end.

Lemma load_build_prop_first (l1 l2 : list Path) (p : Path) text mode bp w :
  Forall (λ q, is_file (fs w) q = false) l1 →
  fs w !! p = Some (File text mode) →
  load_build_prop (l1 ++ p :: l2) bp w =
    (parsed (parse_props bp text) (λ b, (b, true)),
     loaded ("Loading build.prop from " +:+ path_str p) p w).
Proof.
  intros Hl1 Hp. induction Hl1 as [|q l1 Hq _ IH]; cbn [app load_build_prop].
  - rewrite (bind_Ok _ _ w (is_file (fs w) p) w) by reflexivity.
    unfold is_file. rewrite Hp. cbn [negb].
    unfold import_props, bind, LOGD, read_text, lift, ret. cbn.
    rewrite Hp. unfold loaded. by destruct (parse_props bp text).
  - rewrite (bind_Ok _ _ w (is_file (fs w) q) w) by reflexivity.
    rewrite Hq. exact IH.
Qed.

Lemma load_build_prop_none (l : list Path) bp w :
  Forall (λ q, is_file (fs w) q = false) l →
  load_build_prop l bp w = (Ok (bp, false), w).
Proof.
  induction 1 as [|q l Hq _ IH]; cbn [load_build_prop]; [done|].
  rewrite (bind_Ok _ _ w (is_file (fs w) q) w) by reflexivity.
  by rewrite Hq.
Qed.

Definition searched_line (fs : gmap Path node) (location : Path) : string :=
  "  - " +:+ path_str location +:+
  " (" +:+ (if exists_ fs location then "EXISTS" else "NOT FOUND") +:+ ")".

Lemma for_each_log (l : list Path) w :
  for_each l (λ location,
    let! e := path_exists location in
    LOGD ("  - " +:+ path_str location +:+
          " (" +:+ (if e then "EXISTS" else "NOT FOUND") +:+ ")")) w
  = (Ok tt, set_log (log w ++ map (searched_line (fs w)) l) w).
Proof.
  revert w. induction l as [|q l IH]; intros w; cbn [for_each map].
  - unfold ret. rewrite app_nil_r. by destruct w.
  - unfold bind at 1. unfold bind at 1. unfold path_exists, LOGD.
    rewrite IH. cbn. unfold set_log; cbn. by rewrite <- app_assoc.
Qed.

Lemma load_fstab_first (l1 l2 : list Path) (p : Path) text mode w :
  Forall (λ q, is_file (fs w) q = false) l1 →
  fs w !! p = Some (File text mode) →
  load_fstab (l1 ++ p :: l2) w =
    (parsed (parse_fstab text) Some,
     loaded ("Generating fstab using " +:+ path_str p +:+ " as reference...") p w).
Proof.
  intros Hl1 Hp. induction Hl1 as [|q l1 Hq _ IH]; cbn [app load_fstab].
  - rewrite (bind_Ok _ _ w (is_file (fs w) p) w) by reflexivity.
    unfold is_file. rewrite Hp. cbn [negb].
    unfold Fstab_new, bind, LOGD, read_text, lift, ret. cbn.
    rewrite Hp. unfold loaded. by destruct (parse_fstab text).
  - rewrite (bind_Ok _ _ w (is_file (fs w) q) w) by reflexivity.
    rewrite Hq. exact IH.
Qed.

Lemma load_fstab_none (l : list Path) w :
  Forall (λ q, is_file (fs w) q = false) l →
  load_fstab l w = (Ok None, w).
Proof.
  induction 1 as [|q l Hq _ IH]; cbn [load_fstab]; [done|].
  rewrite (bind_Ok _ _ w (is_file (fs w) q) w) by reflexivity.
  by rewrite Hq.
Qed.

Lemma find_build_prop_none (ramdisk_path : Path) w :
  Forall (λ q, is_file (fs w) q = false)
         (get_extended_buildprop_locations (fs w) ramdisk_path) →
  find_build_prop ramdisk_path w =
    (Err (AssertionError "No build.prop file found in any of the searched locations"),
     set_log (log w
              ++ [ "Searching for build.prop in "
                   +:+ pretty (length (get_extended_buildprop_locations (fs w) ramdisk_path))
                   +:+ " locations..."; "Searched locations:" ]
              ++ map (searched_line (fs w))
                     (get_extended_buildprop_locations (fs w) ramdisk_path)) w).
Proof.
  intros Hnone. unfold find_build_prop.
  rewrite (bind_Ok _ _ w w w) by reflexivity.
  set (locs := get_extended_buildprop_locations (fs w) ramdisk_path) in *.
  set (line := "Searching for build.prop in " +:+ pretty (length locs) +:+ " locations...").
  rewrite (bind_Ok _ _ w tt (set_log (log w ++ [line]) w)) by reflexivity.
  erewrite bind_Ok; [|by apply load_build_prop_none].
  cbn [snd negb]. unfold log_searched.
  rewrite (bind_Ok _ _ _ tt
             (set_log (log w ++ [line; "Searched locations:"]
                       ++ map (searched_line (fs w)) locs) w)); [reflexivity|].
  rewrite (bind_Ok _ _ _ tt (set_log ((log w ++ [line]) ++ ["Searched locations:"]) w))
    by reflexivity.
  rewrite for_each_log. unfold set_log. cbn.
  by rewrite <- !app_assoc.
Qed.

Lemma find_fstab_none (ramdisk_path : Path) w :
  Forall (λ q, is_file (fs w) q = false)
         (map (λ location, ramdisk_path // location) FSTAB_LOCATIONS) →
  find_fstab ramdisk_path w = (Err (AssertionError "fstab not found"), w).
Proof.
  intros Hnone. unfold find_fstab.
  erewrite bind_Ok; [|by apply load_fstab_none]. reflexivity.
Qed.

(** C1: when several candidate property files exist, the search returns
    the first one of the fixed candidate order: with no file at the
    candidates [l1] before [p], and whatever exists at the candidates [l2]
    after it, the properties are those of the text of [p] alone, parsed
    into an empty set, and [p] is the only file read. *)
Theorem property_file_first_match_wins
    (ramdisk_path : Path) (l1 l2 : list Path) (p : Path) text mode w :
  get_extended_buildprop_locations (fs w) ramdisk_path = l1 ++ p :: l2 →
  Forall (λ q, is_file (fs w) q = false) l1 →
  fs w !! p = Some (File text mode) →
  find_build_prop ramdisk_path w =
    (parse_props BuildProp_new text,
     loaded ("Loading build.prop from " +:+ path_str p) p
       (set_log (log w ++ [ "Searching for build.prop in "
                            +:+ pretty (length (l1 ++ p :: l2)) +:+ " locations..." ]) w)).
Proof.
  intros Hlocs Hl1 Hp. unfold find_build_prop.
  rewrite (bind_Ok _ _ w w w) by reflexivity. rewrite Hlocs.
  set (line := "Searching for build.prop in " +:+ pretty (length (l1 ++ p :: l2))
               +:+ " locations...").
  rewrite (bind_Ok _ _ w tt (set_log (log w ++ [line]) w)) by reflexivity.
  rewrite bind_run, (load_build_prop_first l1 l2 p text mode) by done.
  by destruct (parse_props BuildProp_new text).
Qed.

(** C3 (amended): after the six ramdisk-relative candidates, the search
    list holds the extended set of locations for the parent of the ramdisk
    root, for its grandparent and for its great-grandparent, in this
    order, each only when that directory exists; the ramdisk root itself
    is not searched with the extended set. *)
Theorem extended_search_starts_at_parent (fs : gmap Path node) (base_path : Path) :
  get_extended_buildprop_locations fs base_path =
    [ base_path // ["default.prop"]; base_path // ["prop.default"];
      base_path // ["system"; "build.prop"]; base_path // ["vendor"; "build.prop"];
      base_path // ["system"; "etc"; "build.prop"];
      base_path // ["vendor"; "etc"; "build.prop"] ]
    ++ (if exists_ fs (parent base_path)
        then extended_locations (parent base_path) else [])
    ++ (if exists_ fs (parent (parent base_path))
        then extended_locations (parent (parent base_path)) else [])
    ++ (if exists_ fs (parent (parent (parent base_path)))
        then extended_locations (parent (parent (parent base_path))) else []).
Proof.
  rewrite search_locations_unfold. cbn [map concat BUILDPROP_LOCATIONS app].
  rewrite app_nil_r. reflexivity.
Qed.

(** C4: the partition table is searched at exactly three places below the
    ramdisk root, in order.  When none of them is a file the search fails
    at once with an assertion error, whatever else the file system holds,
    and reads nothing; otherwise the first one that is a file is the one
    parsed, and the only one read. *)
Theorem fstab_three_candidates (ramdisk_path : Path) w :
  let candidates :=
    [ ramdisk_path // ["etc"; "recovery.fstab"];
      ramdisk_path // ["system"; "etc"; "recovery.fstab"];
      ramdisk_path // ["vendor"; "etc"; "recovery.fstab"] ] in
  (Forall (λ q, is_file (fs w) q = false) candidates →
   find_fstab ramdisk_path w = (Err (AssertionError "fstab not found"), w))
  ∧ (∀ l1 l2 p text mode,
       candidates = l1 ++ p :: l2 →
       Forall (λ q, is_file (fs w) q = false) l1 →
       fs w !! p = Some (File text mode) →
       find_fstab ramdisk_path w =
         (parse_fstab text,
          loaded ("Generating fstab using " +:+ path_str p +:+ " as reference...") p w)).
Proof.
  cbn zeta. split.
  - intros Hnone. by apply find_fstab_none.
  - intros l1 l2 p text mode Hc Hl1 Hp. unfold find_fstab.
    change (map (λ location, ramdisk_path // location) FSTAB_LOCATIONS)
      with [ ramdisk_path // ["etc"; "recovery.fstab"];
             ramdisk_path // ["system"; "etc"; "recovery.fstab"];
             ramdisk_path // ["vendor"; "etc"; "recovery.fstab"] ].
    rewrite Hc, bind_run, (load_fstab_first l1 l2 p text mode) by done.
    by destruct (parse_fstab text).
Qed.

(** C5 (amended): when the property-file search finds no file, the
    attempted locations are written, in order and each with its existence,
    to the debug log, and the assertion error raised has a fixed message;
    when the partition-table search finds no file, the assertion error
    raised has a fixed message and nothing is logged.  Neither error
    carries the attempted locations. *)
Theorem exhausted_search_failures (ramdisk_path : Path) w :
  (Forall (λ q, is_file (fs w) q = false)
          (get_extended_buildprop_locations (fs w) ramdisk_path) →
   find_build_prop ramdisk_path w =
     (Err (AssertionError "No build.prop file found in any of the searched locations"),
      set_log (log w
               ++ [ "Searching for build.prop in "
                    +:+ pretty (length (get_extended_buildprop_locations (fs w) ramdisk_path))
                    +:+ " locations..."; "Searched locations:" ]
               ++ map (searched_line (fs w))
                      (get_extended_buildprop_locations (fs w) ramdisk_path)) w))
  ∧ (Forall (λ q, is_file (fs w) q = false)
            (map (λ location, ramdisk_path // location) FSTAB_LOCATIONS) →
     find_fstab ramdisk_path w = (Err (AssertionError "fstab not found"), w)).
Proof.
  split; [apply find_build_prop_none | apply find_fstab_none].
Qed.

End Discovery.

(** C1, on the demo image: [prop.default] at the ramdisk root wins over the
    files at [system/build.prop] and at the dump's [odm/build.prop]. *)
Lemma property_file_first_match_wins_witness :
  is_file image_fs (ramdisk_root // ["system"; "build.prop"]) = true
  ∧ is_file image_fs (["w"; "odm"; "build.prop"]) = true
  ∧ (find_build_prop ramdisk_root (world_of image_fs)).1 = Ok "crab"
  ∧ reads (find_build_prop ramdisk_root (world_of image_fs)).2
    = [ ramdisk_root // ["prop.default"] ].
Proof.
  split; [vm_compute; reflexivity|]. split; [vm_compute; reflexivity|].
  rewrite (property_file_first_match_wins ramdisk_root
             [ ramdisk_root // ["default.prop"] ]
             (drop 2 (get_extended_buildprop_locations image_fs ramdisk_root))
             (ramdisk_root // ["prop.default"]) "crab" 420%Z (world_of image_fs)).
  - split; reflexivity.
  - vm_compute; reflexivity.
  - repeat constructor.
  - vm_compute; reflexivity.
Defined.

(** C3: the search as the specification words it differs from the search
    of the code: the code never looks at [odm/build.prop] below the ramdisk
    root, and it does look at [odm/build.prop] below the great-grandparent
    of the ramdisk root. *)
Lemma extended_search_counterexample :
  get_extended_buildprop_locations image_fs ramdisk_root
    ≠ spec_search_locations image_fs ramdisk_root
  ∧ ((ramdisk_root ++ ["odm"; "build.prop"])
       ∉ get_extended_buildprop_locations image_fs ramdisk_root)
  ∧ ((ramdisk_root ++ ["odm"; "build.prop"])
       ∈ spec_search_locations image_fs ramdisk_root)
  ∧ ((parent (parent (parent ramdisk_root)) ++ ["odm"; "build.prop"])
       ∈ get_extended_buildprop_locations image_fs ramdisk_root)
  ∧ ((parent (parent (parent ramdisk_root)) ++ ["odm"; "build.prop"])
       ∉ spec_search_locations image_fs ramdisk_root).
Proof.
  assert (Hnot : (ramdisk_root ++ ["odm"; "build.prop"])
                   ∉ get_extended_buildprop_locations image_fs ramdisk_root).
  { apply (bool_decide_unpack _). vm_compute. exact I. }
  assert (Hin : (ramdisk_root ++ ["odm"; "build.prop"])
                  ∈ spec_search_locations image_fs ramdisk_root).
  { apply (bool_decide_unpack _). vm_compute. exact I. }
  split; [|split; [exact Hnot|split; [exact Hin|split]]].
  - intros Heq. apply Hnot. rewrite Heq. exact Hin.
  - apply (bool_decide_unpack _). vm_compute. exact I.
  - apply (bool_decide_unpack _). vm_compute. exact I.
Qed.

(** C4, on the demo image: [etc/recovery.fstab] is missing, the one below
    [system] is taken and the one below [vendor] is not read; on a bare file
    system the search fails. *)
Lemma fstab_three_candidates_witness :
  (find_fstab ramdisk_root (world_of image_fs)).1 = Ok "/data ext4"
  ∧ reads (find_fstab ramdisk_root (world_of image_fs)).2
    = [ ramdisk_root // ["system"; "etc"; "recovery.fstab"] ]
  ∧ find_fstab ramdisk_root (world_of bare_fs)
    = (Err (AssertionError "fstab not found"), world_of bare_fs).
Proof.
  destruct (fstab_three_candidates ramdisk_root (world_of image_fs)) as [_ Hfound].
  destruct (fstab_three_candidates ramdisk_root (world_of bare_fs)) as [Hnone _].
  rewrite (Hfound [ ramdisk_root // ["etc"; "recovery.fstab"] ]
             [ ramdisk_root // ["vendor"; "etc"; "recovery.fstab"] ]
             (ramdisk_root // ["system"; "etc"; "recovery.fstab"]) "/data ext4" 420%Z).
  - split; [reflexivity|]. split; [reflexivity|].
    apply Hnone. repeat constructor.
  - reflexivity.
  - repeat constructor.
  - vm_compute; reflexivity.
Defined.

(** C5: two searches with different attempted locations fail with the very
    same exception, for the property file and for the partition table: the
    exception does not tell which locations were attempted. *)
Lemma failure_does_not_carry_locations :
  get_extended_buildprop_locations bare_fs ["a"; "ramdisk"]
    ≠ get_extended_buildprop_locations bare_fs ["b"; "ramdisk"]
  ∧ (find_build_prop ["a"; "ramdisk"] (world_of bare_fs)).1
    = Err (AssertionError "No build.prop file found in any of the searched locations")
  ∧ (find_build_prop ["b"; "ramdisk"] (world_of bare_fs)).1
    = Err (AssertionError "No build.prop file found in any of the searched locations")
  ∧ map (λ location, ["a"; "ramdisk"] // location) FSTAB_LOCATIONS
    ≠ map (λ location, ["b"; "ramdisk"] // location) FSTAB_LOCATIONS
  ∧ (find_fstab ["a"; "ramdisk"] (world_of bare_fs)).1
    = Err (AssertionError "fstab not found")
  ∧ (find_fstab ["b"; "ramdisk"] (world_of bare_fs)).1
    = Err (AssertionError "fstab not found").
Proof.
  repeat split; try (vm_compute; reflexivity); vm_compute; discriminate.
Qed.

(** C5, on a bare file system. *)
Lemma exhausted_search_failures_witness :
  (find_build_prop ramdisk_root (world_of bare_fs)).1
  = Err (AssertionError "No build.prop file found in any of the searched locations")
  ∧ find_fstab ramdisk_root (world_of bare_fs)
    = (Err (AssertionError "fstab not found"), world_of bare_fs).
Proof.
  destruct (exhausted_search_failures ramdisk_root (world_of bare_fs)) as [Hp Hf].
  split.
  - rewrite Hp; [reflexivity|]. apply (bool_decide_unpack _). vm_compute. exact I.
  - apply Hf. repeat constructor.
Defined.


(** C10, on a folder that holds a file the system refuses to remove: the
    run fails, the stale file is still there and no makefile was written. *)
Lemma no_population_of_a_surviving_folder_witness :
  dump_to_folder demo_tree ["o"] false locked_world
    = (Err FileExistsError, (remove_existing demo_folder locked_world).2)
  ∧ fs (remove_existing demo_folder locked_world).2 !! (demo_folder ++ ["old.txt"])
    = Some (File "stale" 420)
  ∧ fs (remove_existing demo_folder locked_world).2 !! (demo_folder ++ ["Android.bp"])
    = None.
Proof.
  split; [|split; vm_compute; reflexivity].
  apply (no_population_of_a_surviving_folder demo_tree ["o"] false locked_world).
  vm_compute. reflexivity.
Defined.

(** C6, on the demo image, with snapshot: [vendorsetup.sh] has the mode of
    a created file, no file outside [.git] other than the two scripts has
    an execute bit, and git has a file with execute bits in [.git]. *)
Lemma generated_scripts_mode_witness :
  (∃ c, fs first_snapshot !! (demo_folder ++ ["vendorsetup.sh"])
        = Some (File c (created_mode (world_of image_fs))))
  ∧ (∀ l c m, fs first_snapshot !! (demo_folder ++ l) = Some (File c m) →
       l ≠ ["extract-files.sh"] → l ≠ ["setup-makefiles.sh"] →
       ¬ [".git"] `prefix_of` l → Z.land m 73 = 0%Z)
  ∧ fs first_snapshot !! (demo_folder ++ [".git"; "hooks"; "pre-commit.sample"])
    = Some (File "#!/bin/sh" 493).
Proof.
  destruct (generated_scripts_mode demo_tree ["o"] true (world_of image_fs)
              demo_folder first_snapshot) as (_ & _ & _ & Hv & Hrest).
  - apply fs_wfb_correct. vm_compute. reflexivity.
  - unfold first_snapshot.
    apply (run_eq (dump_to_folder demo_tree ["o"] true (world_of image_fs))).
    vm_compute. reflexivity.
  - assert (Ht : device_tree_folder_of demo_tree ["o"] = demo_folder)
      by (vm_compute; reflexivity).
    rewrite Ht in Hv, Hrest. split; [exact Hv|]. split.
    + intros l c m E H1 H2 H3. by destruct (Hrest l c m E H1 H2 H3).
    + vm_compute. reflexivity.
Defined.

(** C6: on the demo image, [extract-files.sh] and [setup-makefiles.sh] get
    mode 484, which is 0o744 and not 0o750 (488). *)
Lemma generated_scripts_mode_is_not_0750 :
  fs (dump_to_folder demo_tree ["o"] false (world_of image_fs)).2
    !! (demo_folder ++ ["extract-files.sh"])
  = Some (File "# extract-files.sh 2022 crab" 484)
  ∧ fs (dump_to_folder demo_tree ["o"] false (world_of image_fs)).2
      !! (demo_folder ++ ["setup-makefiles.sh"])
    = Some (File "# setup-makefiles.sh 2022 crab" 484)
  ∧ 484%Z = (7 * 64 + 4 * 8 + 4)%Z
  ∧ 484%Z ≠ (7 * 64 + 5 * 8 + 0)%Z.
Proof.
  split; [vm_compute; reflexivity|]. split; [vm_compute; reflexivity|].
  split; [reflexivity | discriminate].
Qed.

(** C2, on the demo image.  Without snapshot, the run is repeated after a
    file was added to the device tree folder: it leaves the file system of
    the first run, in which that file is not.  With snapshot, the run is
    repeated on what the first run left: outside [.git] the folder is as
    the first run left it, while git's own files differ. *)
Lemma rerun_recreates_the_folder_witness :
  fs littered !! (demo_folder ++ ["old.txt"]) = Some (File "stale" 420)
  ∧ (∃ v1, dump_to_folder demo_tree ["o"] false littered = (Ok demo_folder, v1)
           ∧ fs v1 = fs first_run
           ∧ fs v1 !! (demo_folder ++ ["old.txt"]) = None)
  ∧ (∃ v2, dump_to_folder demo_tree ["o"] true first_snapshot = (Ok demo_folder, v2)
           ∧ (∀ q, ¬ (demo_folder ++ [".git"]) `prefix_of` q →
                fs v2 !! q = fs first_snapshot !! q)
           ∧ fs v2 !! (demo_folder ++ [".git"; "logs"; "HEAD"])
             ≠ fs first_snapshot !! (demo_folder ++ [".git"; "logs"; "HEAD"])).
Proof.
  assert (Ht : device_tree_folder_of demo_tree ["o"] = demo_folder)
    by (vm_compute; reflexivity).
  split; [vm_compute; reflexivity|]. split.
  - destruct (rerun_recreates_the_folder demo_tree ["o"] false (world_of image_fs)
                demo_folder first_run littered) as (v1 & Hrun & _ & Hfs).
    + apply fs_wfb_correct. vm_compute. reflexivity.
    + repeat constructor.
    + unfold first_run.
      apply (run_eq (dump_to_folder demo_tree ["o"] false (world_of image_fs))).
      vm_compute. reflexivity.
    + apply fs_wfb_correct. vm_compute. reflexivity.
    + vm_compute. reflexivity.
    + intros q Hq. unfold littered. cbn [fs set_fs]. apply lookup_insert_ne.
      intros <-. apply Hq. exists ["old.txt"]. vm_compute. reflexivity.
    + intros q _. vm_compute. reflexivity.
    + vm_compute. reflexivity.
    + vm_compute. reflexivity.
    + specialize (Hfs eq_refl). exists v1. split; [exact Hrun|]. split; [exact Hfs|].
      rewrite Hfs. vm_compute. reflexivity.
  - destruct (rerun_recreates_the_folder demo_tree ["o"] true (world_of image_fs)
                demo_folder first_snapshot first_snapshot) as (v2 & Hrun & Hout & _).
    + apply fs_wfb_correct. vm_compute. reflexivity.
    + repeat constructor.
    + unfold first_snapshot.
      apply (run_eq (dump_to_folder demo_tree ["o"] true (world_of image_fs))).
      vm_compute. reflexivity.
    + apply fs_wfb_correct. vm_compute. reflexivity.
    + vm_compute. reflexivity.
    + intros q _. reflexivity.
    + intros q _. vm_compute. reflexivity.
    + reflexivity.
    + reflexivity.
    + rewrite Ht in Hout. exists v2. split; [exact Hrun|]. split; [exact Hout|].
      apply (f_equal snd) in Hrun. cbn [snd] in Hrun. clear Hout. subst v2.
      vm_compute. intros E. discriminate E.
Defined.

(** C7, on the demo image, whose only artifact is the kernel: the run
    succeeds, [prebuilt/kernel] is a new file with the content of the
    kernel of the image, and [prebuilt] holds nothing else.  On an image
    without any of the four artifacts the run succeeds and [prebuilt] is
    empty. *)
Lemma prebuilt_holds_the_present_artifacts_witness :
  fs (world_of image_fs) !! ["w"; "out"; "kernel"] = Some (File "KERNEL" 420)
  ∧ (∃ w', dump_to_folder demo_tree ["o"] false (world_of image_fs) = (Ok demo_folder, w')
           ∧ fs w' !! (demo_folder ++ ["prebuilt"]) = Some Dir
           ∧ fs w' !! ((demo_folder ++ ["prebuilt"]) ++ ["kernel"])
             = Some (File "KERNEL" (created_mode (world_of image_fs)))
           ∧ ∀ l, l ≠ [] → l ≠ ["kernel"] →
               fs w' !! ((demo_folder ++ ["prebuilt"]) ++ l) = None)
  ∧ (∃ w', dump_to_folder no_blob_tree ["o"] false (world_of image_fs) = (Ok demo_folder, w')
           ∧ fs w' !! (demo_folder ++ ["prebuilt"]) = Some Dir
           ∧ ∀ l, l ≠ [] → fs w' !! ((demo_folder ++ ["prebuilt"]) ++ l) = None).
Proof.
  split; [vm_compute; reflexivity|]. split.
  - destruct (dump_to_folder demo_tree ["o"] false (world_of image_fs)) as [r w'] eqn:Hrun.
    assert (r = Ok demo_folder) as ->.
    { apply (f_equal fst) in Hrun. vm_compute in Hrun. by rewrite <- Hrun. }
    exists w'. split; [reflexivity|].
    destruct (prebuilt_holds_the_present_artifacts demo_tree ["o"] false
                (world_of image_fs) demo_folder w') as (Hdir & Hart & Honly & _).
    + apply fs_wfb_correct. vm_compute. reflexivity.
    + repeat constructor.
    + exact Hrun.
    + assert (Ht : device_tree_folder_of demo_tree ["o"] = demo_folder)
        by (vm_compute; reflexivity).
      clear Hrun. rewrite Ht in Hdir, Hart, Honly. split; [exact Hdir|]. split.
      * destruct (Hart (Some ["w"; "out"; "kernel"]) "kernel") as (c & Hc & Hsrc).
        { apply list_elem_of_here. }
        destruct Hsrc as [m Hm].
        { intros [k Hk]. discriminate Hk. }
        assert (Hk : fs (world_of image_fs) !! ["w"; "out"; "kernel"]
                     = Some (File "KERNEL" 420)) by (vm_compute; reflexivity).
        rewrite Hk in Hm. injection Hm as <- _. exact Hc.
      * intros l Hl Hk.
        destruct (fs w' !! ((demo_folder ++ ["prebuilt"]) ++ l)) as [n|] eqn:E;
          [exfalso|reflexivity].
        destruct (Honly l Hl) as (src & x & Hin & ->); [by eexists|].
        unfold artifacts, demo_tree in Hin. cbn [image_info kernel dt dtb dtbo] in Hin.
        rewrite !elem_of_cons in Hin.
        destruct Hin as [Hin|[Hin|[Hin|[Hin|Hin]]]]; try discriminate Hin.
        -- injection Hin as _ ->. by apply Hk.
        -- by apply elem_of_nil in Hin.
  - destruct (dump_to_folder no_blob_tree ["o"] false (world_of image_fs)) as [r w'] eqn:Hrun.
    assert (r = Ok demo_folder) as ->.
    { apply (f_equal fst) in Hrun. vm_compute in Hrun. by rewrite <- Hrun. }
    exists w'. split; [reflexivity|].
    destruct (prebuilt_holds_the_present_artifacts no_blob_tree ["o"] false
                (world_of image_fs) demo_folder w') as (Hdir & _ & Honly & _).
    + apply fs_wfb_correct. vm_compute. reflexivity.
    + repeat constructor.
    + exact Hrun.
    + assert (Ht : device_tree_folder_of no_blob_tree ["o"] = demo_folder)
        by (vm_compute; reflexivity).
      rewrite Ht in Hdir, Honly. split; [exact Hdir|]. intros l Hl.
      destruct (fs w' !! ((demo_folder ++ ["prebuilt"]) ++ l)) as [n|] eqn:E;
        [exfalso|reflexivity].
      destruct (Honly l Hl) as (src & x & Hin & _); [by eexists|].
      unfold artifacts, no_blob_tree in Hin. cbn [image_info kernel dt dtb dtbo] in Hin.
      rewrite !elem_of_cons in Hin.
      destruct Hin as [Hin|[Hin|[Hin|[Hin|Hin]]]]; try discriminate Hin.
      by apply elem_of_nil in Hin.
Defined.

(** C8: git knows an e-mail address but no name; after the snapshot the
    address in force in the repository, and on its commit, is the fallback
    one and no longer the configured one. *)
Lemma configured_email_is_overridden :
  effective_config email_only_world demo_folder ("user", "email") = Some "dev@example.org"
  ∧ effective_config (dump_to_folder demo_tree ["o"] true email_only_world).2
      demo_folder ("user", "email") = Some "barezzisebastiano@gmail.com"
  ∧ author_email <$> commits (get_repo (dump_to_folder demo_tree ["o"] true email_only_world).2
                                demo_folder)
    = [Some "barezzisebastiano@gmail.com"].
Proof. repeat split; vm_compute; reflexivity. Qed.

(** C8, on the same world. *)
Lemma snapshot_identity_witness :
  ∃ w', dump_to_folder demo_tree ["o"] true email_only_world = (Ok demo_folder, w')
        ∧ git_global w' = git_global email_only_world
        ∧ repo_config (get_repo w' demo_folder) = fallback_config.
Proof.
  destruct (dump_to_folder demo_tree ["o"] true email_only_world) as [r w'] eqn:Hrun.
  assert (r = Ok demo_folder) as ->.
  { apply (f_equal fst) in Hrun. vm_compute in Hrun. by rewrite <- Hrun. }
  exists w'. split; [reflexivity|].
  destruct (snapshot_identity demo_tree ["o"] email_only_world demo_folder w')
    as (Hglobal & _ & Hcfg).
  - apply fs_wfb_correct. vm_compute. reflexivity.
  - repeat constructor.
  - exact Hrun.
  - assert (Ht : device_tree_folder_of demo_tree ["o"] = demo_folder)
      by (vm_compute; reflexivity).
    rewrite Ht in Hcfg. split; [exact Hglobal|].
    assert (Hname : git_global email_only_world !! ("user", "name") = None)
      by (vm_compute; reflexivity).
    rewrite Hname in Hcfg.
    destruct (git_global email_only_world !! ("user", "email")); by destruct Hcfg.
Defined.

(** C9, on the demo image: [init.usb.rc] is at the ramdisk root and in
    [vendor/etc/init]; the copy in [recovery/root] has the content of the
    latter. *)
Lemma script_of_the_last_directory_wins_witness :
  image_fs !! (ramdisk_root ++ ["init.usb.rc"]) = Some (File "usb-root" 420)
  ∧ ∃ w', dump_to_folder demo_tree ["o"] false (world_of image_fs) = (Ok demo_folder, w')
          ∧ fs w' !! (demo_folder ++ ["recovery"; "root"; "init.usb.rc"])
            = Some (File "usb-vendor" (created_mode (world_of image_fs))).
Proof.
  split; [vm_compute; reflexivity|].
  destruct (dump_to_folder demo_tree ["o"] false (world_of image_fs)) as [r w'] eqn:Hrun.
  assert (r = Ok demo_folder) as ->.
  { apply (f_equal fst) in Hrun. vm_compute in Hrun. by rewrite <- Hrun. }
  exists w'. split; [reflexivity|].
  assert (Ht : device_tree_folder_of demo_tree ["o"] = demo_folder)
    by (vm_compute; reflexivity).
  rewrite <- Ht.
  eapply (script_of_the_last_directory_wins demo_tree ["o"] false (world_of image_fs)
            demo_folder w' ramdisk_root ramdisk_root
            (ramdisk_root ++ ["vendor"; "etc"; "init"]) 0 2 "init.usb.rc"
            "usb-root" "usb-vendor" 420 420).
  - apply fs_wfb_correct. vm_compute. reflexivity.
  - intros l. reflexivity.
  - vm_compute. reflexivity.
  - repeat (constructor; [vm_compute; reflexivity|]). constructor.
  - vm_compute. reflexivity.
  - vm_compute. reflexivity.
  - lia.
  - vm_compute. reflexivity.
  - vm_compute. reflexivity.
  - intros k d3 Hk Hd. destruct k as [|[|[|k]]]; try lia; discriminate.
  - vm_compute. reflexivity.
  - rewrite Ht. intros [k Hk]. discriminate.
  - exact Hrun.
Defined.
(** * Further properties

    ** [DeviceTree.__init__] as a whole *)

Section Initialisation.

Context `{Collaborators}.

(** [only_reads]: the file system, the repositories and the environment
    are left as they were; the log and the list of files read may grow. *)
Definition only_reads (w w' : World) : Prop :=
  fs w' = fs w ∧ repos w' = repos w ∧ same_env w w'.

#[export] Instance only_reads_preorder : PreOrder only_reads.
Proof.
  split.
  - intros w. by repeat split.
  - intros a b c (F1 & R1 & E1) (F2 & R2 & E2). split; [congruence|]. split; [congruence|].
    by etransitivity.
Qed.

Lemma or_LOGD line : steps only_reads (LOGD line).
Proof. intros w. by repeat split. Qed.

Lemma or_read_text p : steps only_reads (read_text p).
Proof.
  intros w. unfold read_text. destruct (fs w !! p) as [[c m|]|]; by repeat split.
Qed.

Lemma or_pure {A} (f : World → result A) : steps only_reads (λ w, (f w, w)).
Proof. intros w. reflexivity. Qed.

Lemma or_iterdir d : steps only_reads (iterdir d).
Proof.
  intros w. unfold iterdir. destruct (fs w !! d) as [[c m|]|]; reflexivity.
Qed.

Ltac reads_binds :=
  repeat first
    [ apply or_LOGD
    | apply or_read_text
    | apply or_iterdir
    | apply (or_pure (λ w, Ok (is_file (fs w) _)))
    | apply (or_pure (λ w, Ok (is_dir (fs w) _)))
    | apply (or_pure (λ w, Ok (exists_ (fs w) _)))
    | apply steps_ret; apply _
    | apply steps_raise; apply _
    | apply steps_lift; apply _
    | apply steps_get_world; apply _
    | match goal with |- steps _ (if ?b then _ else _) => destruct b end
    | match goal with |- steps _ (match ?o with Some _ => _ | None => _ end) => destruct o end
    | apply steps_bind; [apply _ | | intros ?] ].

Lemma or_select_ramdisk (ii : ImageInfo) : steps only_reads (select_ramdisk ii).
Proof. unfold select_ramdisk. reads_binds. Qed.

Lemma or_load_build_prop (l : list Path) bp : steps only_reads (load_build_prop l bp).
Proof.
  induction l as [|p l IH]; cbn [load_build_prop]; [apply steps_ret, _|].
  apply steps_bind; [apply _ | apply (or_pure (λ w, Ok (is_file (fs w) p))) | intros f].
  destruct f; cbn [negb]; [|exact IH]. unfold import_props. reads_binds.
Qed.

Lemma or_load_fstab (l : list Path) : steps only_reads (load_fstab l).
Proof.
  induction l as [|p l IH]; cbn [load_fstab]; [apply steps_ret, _|].
  apply steps_bind; [apply _ | apply (or_pure (λ w, Ok (is_file (fs w) p))) | intros f].
  destruct f; cbn [negb]; [|exact IH]. unfold Fstab_new. reads_binds.
Qed.

Lemma or_collect_init_rcs (dirs acc : list Path) : steps only_reads (collect_init_rcs dirs acc).
Proof.
  revert acc. induction dirs as [|d dirs IH]; intros acc; cbn [collect_init_rcs];
    [apply steps_ret, _|].
  apply steps_bind; [apply _ | apply (or_pure (λ w, Ok (is_dir (fs w) d))) | intros f].
  destruct f; cbn [negb]; [|apply IH].
  apply steps_bind; [apply _ | apply or_iterdir | intros entries]. apply IH.
Qed.

Lemma or_find_build_prop (ramdisk_path : Path) : steps only_reads (find_build_prop ramdisk_path).
Proof.
  unfold find_build_prop, log_searched.
  reads_binds; try apply or_load_build_prop.
  apply steps_for_each; [apply _|]. intros location _. reads_binds.
Qed.

Lemma or_find_fstab (ramdisk_path : Path) : steps only_reads (find_fstab ramdisk_path).
Proof. unfold find_fstab. reads_binds; apply or_load_fstab. Qed.

Lemma or_after_unpack (image : Path) (current_year : string) (ii : ImageInfo) :
  steps only_reads
    (let! ramdisk_path := select_ramdisk ii in
     LOGD "Getting device infos..." ;;;
     let! build_prop := find_build_prop ramdisk_path in
     let! device_info := lift (DeviceInfo_new build_prop) in
     let! fstab := find_fstab ramdisk_path in
     let! init_rcs := find_init_rcs ramdisk_path in
     ret {| image := image; current_year := current_year; image_info := ii;
            build_prop := build_prop; device_info := device_info; fstab := fstab;
            init_rcs := init_rcs |}).
Proof.
  apply steps_bind; [apply _ | apply or_select_ramdisk | intros rp].
  apply steps_bind; [apply _ | apply or_LOGD | intros _].
  apply steps_bind; [apply _ | apply or_find_build_prop | intros bp].
  apply steps_bind; [apply _ | apply steps_lift, _ | intros di].
  apply steps_bind; [apply _ | apply or_find_fstab | intros fst].
  apply steps_bind; [apply _ | apply or_collect_init_rcs | intros rcs].
  apply steps_ret, _.
Qed.

(** X1: whatever its outcome, [__init__] changes nothing by itself: when
    the image is no file the world is left as it was, and else the file
    system, the repositories and the git configuration are those the
    unpacker left. *)
Theorem init_only_reads (image : Path) w :
  let w' := (DeviceTree_init image w).2 in
  if is_file (fs w) image
  then fs w' = fs (unpackimg image w).2
       ∧ repos w' = repos (unpackimg image w).2
       ∧ git_global w' = git_global (unpackimg image w).2
  else w' = w.
Proof.
  unfold DeviceTree_init.
  rewrite (bind_Ok _ _ w w w) by reflexivity.
  rewrite (bind_Ok _ _ w (is_file (fs w) image) w) by reflexivity.
  destruct (is_file (fs w) image); cbn [negb]; [|reflexivity].
  rewrite bind_run. destruct (unpackimg image w) as [[ii|e] w1]; cbn [snd]; [|done].
  destruct (or_after_unpack image (pretty (now_year w)) ii w1) as (F & R & _ & G & _).
  done.
Qed.


Lemma select_ramdisk_standard (ii : ImageInfo) w r :
  ramdisk ii = Some r → is_dir (fs w) r = true →
  select_ramdisk ii w = (Ok r, set_log (log w ++ ["Using standard ramdisk"]) w).
Proof.
  intros Hr Hd. unfold select_ramdisk.
  rewrite (bind_Ok _ _ w w w) by reflexivity. rewrite Hr. cbn [is_dir_opt]. by rewrite Hd.
Qed.

Lemma select_ramdisk_vendor (ii : ImageInfo) w v :
  is_dir_opt (fs w) (ramdisk ii) = false →
  vendor_ramdisk ii = Some v → is_dir (fs w) v = true →
  select_ramdisk ii w
  = (Ok v, set_log (log w ++ ["Using vendor_ramdisk (vendor_boot v4 detected)"]) w).
Proof.
  intros Hr Hv Hd. unfold select_ramdisk.
  rewrite (bind_Ok _ _ w w w) by reflexivity. rewrite Hr, Hv. cbn [is_dir_opt]. by rewrite Hd.
Qed.

Lemma select_ramdisk_none (ii : ImageInfo) w :
  is_dir_opt (fs w) (ramdisk ii) = false →
  is_dir_opt (fs w) (vendor_ramdisk ii) = false →
  select_ramdisk ii w
  = (Err (AssertionError "No valid ramdisk found (neither ramdisk nor vendor_ramdisk)"), w).
Proof.
  intros Hr Hv. unfold select_ramdisk.
  rewrite (bind_Ok _ _ w w w) by reflexivity. by rewrite Hr, Hv.
Qed.

Lemma select_ramdisk_Ok (ii : ImageInfo) w rp :
  (select_ramdisk ii w).1 = Ok rp →
  is_dir (fs w) rp = true
  ∧ ∃ line, select_ramdisk ii w = (Ok rp, set_log (log w ++ [line]) w).
Proof.
  destruct (is_dir_opt (fs w) (ramdisk ii)) eqn:Hr.
  - destruct (ramdisk ii) as [r|] eqn:Er; [|discriminate]. cbn in Hr.
    rewrite (select_ramdisk_standard ii w r Er Hr). intros [= <-]. eauto.
  - destruct (is_dir_opt (fs w) (vendor_ramdisk ii)) eqn:Hv.
    + destruct (vendor_ramdisk ii) as [v|] eqn:Ev; [|discriminate]. cbn in Hv.
      rewrite (select_ramdisk_vendor ii w v Hr Ev Hv). intros [= <-]. eauto.
    + by rewrite (select_ramdisk_none ii w Hr Hv).
Qed.

(** X2: the standard ramdisk is used whenever it is a directory, whatever
    the vendor ramdisk is; the vendor ramdisk is used when the standard one
    is missing or no directory; with neither, the choice fails.  A ramdisk
    path that is no directory counts as absent. *)
Theorem standard_ramdisk_is_preferred (ii : ImageInfo) w :
  (∀ r, ramdisk ii = Some r → is_dir (fs w) r = true →
        select_ramdisk ii w = (Ok r, set_log (log w ++ ["Using standard ramdisk"]) w))
  ∧ (∀ v, is_dir_opt (fs w) (ramdisk ii) = false →
          vendor_ramdisk ii = Some v → is_dir (fs w) v = true →
          select_ramdisk ii w
          = (Ok v, set_log (log w ++ ["Using vendor_ramdisk (vendor_boot v4 detected)"]) w))
  ∧ (is_dir_opt (fs w) (ramdisk ii) = false →
     is_dir_opt (fs w) (vendor_ramdisk ii) = false →
     select_ramdisk ii w
     = (Err (AssertionError "No valid ramdisk found (neither ramdisk nor vendor_ramdisk)"), w))
  ∧ (∀ rp, (select_ramdisk ii w).1 = Ok rp → is_dir (fs w) rp = true).
Proof.
  split; [apply select_ramdisk_standard|]. split; [apply select_ramdisk_vendor|].
  split; [apply select_ramdisk_none|]. intros rp Hrp. by apply select_ramdisk_Ok in Hrp as [? _].
Qed.

Lemma find_build_prop_loads (ramdisk_path : Path) (l1 l2 : list Path) (p : Path) text mode w :
  get_extended_buildprop_locations (fs w) ramdisk_path = l1 ++ p :: l2 →
  Forall (λ q, is_file (fs w) q = false) l1 →
  fs w !! p = Some (File text mode) →
  find_build_prop ramdisk_path w =
    (parse_props BuildProp_new text,
     loaded ("Loading build.prop from " +:+ path_str p) p
       (set_log (log w ++ [ "Searching for build.prop in "
                            +:+ pretty (length (l1 ++ p :: l2)) +:+ " locations..." ]) w)).
Proof.
  intros Hlocs Hl1 Hp. unfold find_build_prop.
  rewrite (bind_Ok _ _ w w w) by reflexivity. rewrite Hlocs.
  set (line := "Searching for build.prop in " +:+ pretty (length (l1 ++ p :: l2))
               +:+ " locations...").
  rewrite (bind_Ok _ _ w tt (set_log (log w ++ [line]) w)) by reflexivity.
  rewrite bind_run, (load_build_prop_first l1 l2 p text mode) by done.
  by destruct (parse_props BuildProp_new text).
Qed.

Lemma find_fstab_loads (ramdisk_path : Path) (l1 l2 : list Path) (p : Path) text mode w :
  map (λ location, ramdisk_path // location) FSTAB_LOCATIONS = l1 ++ p :: l2 →
  Forall (λ q, is_file (fs w) q = false) l1 →
  fs w !! p = Some (File text mode) →
  find_fstab ramdisk_path w =
    (parse_fstab text,
     loaded ("Generating fstab using " +:+ path_str p +:+ " as reference...") p w).
Proof.
  intros Hlocs Hl1 Hp. unfold find_fstab. rewrite Hlocs.
  rewrite bind_run, (load_fstab_first l1 l2 p text mode) by done.
  by destruct (parse_fstab text).
Qed.

(** The part of [__init__] that follows the unpacking of the image. *)
Lemma init_run (image : Path) w ii w1 :
  is_file (fs w) image = true →
  unpackimg image w = (Ok ii, w1) →
  DeviceTree_init image w =
    (let! ramdisk_path := select_ramdisk ii in
     LOGD "Getting device infos..." ;;;
     let! build_prop := find_build_prop ramdisk_path in
     let! device_info := lift (DeviceInfo_new build_prop) in
     let! fstab := find_fstab ramdisk_path in
     let! init_rcs := find_init_rcs ramdisk_path in
     ret {| image := image; current_year := pretty (now_year w); image_info := ii;
            build_prop := build_prop; device_info := device_info; fstab := fstab;
            init_rcs := init_rcs |}) w1.
Proof.
  intros Himg Hun. unfold DeviceTree_init.
  rewrite (bind_Ok _ _ w w w) by reflexivity.
  rewrite (bind_Ok _ _ w (is_file (fs w) image) w) by reflexivity.
  rewrite Himg. cbn [negb]. by rewrite (bind_Ok _ _ w ii w1 Hun).
Qed.

(** X3: [__init__] succeeds when the image is a file, the unpacker gives
    a ramdisk that is a directory, a candidate property file and a
    candidate partition table exist and the collaborators accept them.  The
    device tree holds the properties of the first property file, the table
    of the first partition table and the scripts of the three script
    directories in their order; the file system is left as the unpacker
    left it, and exactly these two files were read, in this order. *)
Theorem init_builds_the_device_tree
    (image : Path) w ii w1 (rp : Path) (l1 l2 : list Path) (p : Path) text mode bp di
    (k1 k2 : list Path) (f : Path) ftext fmode tab :
  is_file (fs w) image = true →
  unpackimg image w = (Ok ii, w1) →
  (select_ramdisk ii w1).1 = Ok rp →
  get_extended_buildprop_locations (fs w1) rp = l1 ++ p :: l2 →
  Forall (λ q, is_file (fs w1) q = false) l1 →
  fs w1 !! p = Some (File text mode) →
  parse_props BuildProp_new text = Ok bp →
  DeviceInfo_new bp = Ok di →
  map (λ location, rp // location) FSTAB_LOCATIONS = k1 ++ f :: k2 →
  Forall (λ q, is_file (fs w1) q = false) k1 →
  fs w1 !! f = Some (File ftext fmode) →
  parse_fstab ftext = Ok tab →
  ∃ w',
    DeviceTree_init image w =
      (Ok {| image := image; current_year := pretty (now_year w); image_info := ii;
             build_prop := bp; device_info := di; fstab := tab;
             init_rcs := concat (map (scripts_in w1)
                                     (map (λ location, rp // location) INIT_RC_LOCATIONS)) |},
       w')
    ∧ fs w' = fs w1 ∧ reads w' = reads w1 ++ [p; f].
Proof.
  intros Himg Hun Hrp Hlocs Hl1 Hp Hbp Hdi Hk Hk1 Hf Htab.
  rewrite (init_run image w ii w1 Himg Hun).
  apply select_ramdisk_Ok in Hrp as [_ [line Hsel]].
  rewrite (bind_Ok _ _ w1 rp _ Hsel).
  set (w2 := set_log (log w1 ++ [line]) w1).
  rewrite (bind_Ok _ _ w2 tt (set_log (log w2 ++ ["Getting device infos..."]) w2))
    by reflexivity.
  set (w3 := set_log (log w2 ++ ["Getting device infos..."]) w2).
  rewrite (bind_Ok _ _ w3 bp _
             (eq_trans (find_build_prop_loads rp l1 l2 p text mode w3 Hlocs Hl1 Hp)
                       (f_equal (λ r, (r, _)) Hbp))).
  match goal with |- context [bind _ _ ?w] => set (w4 := w) end.
  rewrite (bind_Ok _ _ w4 di w4) by (unfold lift; by rewrite Hdi).
  rewrite (bind_Ok _ _ w4 tab _
             (eq_trans (find_fstab_loads rp k1 k2 f ftext fmode w4 Hk Hk1 Hf)
                       (f_equal (λ r, (r, _)) Htab))).
  match goal with |- context [bind _ _ ?w] => set (w5 := w) end.
  rewrite (bind_Ok _ _ w5 _ w5 (find_init_rcs_run rp w5)).
  exists w5. split; [reflexivity|]. split; [reflexivity|].
  unfold w5, w4, loaded. cbn [reads set_reads set_log]. by rewrite <- app_assoc.
Qed.


(** X4: the checks of [__init__] come in a fixed order, and the first one
    that fails decides the exception: the image file (before the unpacker
    is called), the ramdisk, the property file (whether or not a partition
    table exists; nothing has been read then), the partition table (the
    property file has been read by then). *)
Theorem init_fails_at_the_first_missing_piece (image : Path) w :
  (is_file (fs w) image = false →
   DeviceTree_init image w = (Err (FileNotFoundError "Specified file doesn't exist"), w))
  ∧ (∀ ii w1,
       is_file (fs w) image = true → unpackimg image w = (Ok ii, w1) →
       (is_dir_opt (fs w1) (ramdisk ii) = false →
        is_dir_opt (fs w1) (vendor_ramdisk ii) = false →
        DeviceTree_init image w
        = (Err (AssertionError "No valid ramdisk found (neither ramdisk nor vendor_ramdisk)"),
           w1))
       ∧ (∀ rp,
            (select_ramdisk ii w1).1 = Ok rp →
            (Forall (λ q, is_file (fs w1) q = false)
                    (get_extended_buildprop_locations (fs w1) rp) →
             (DeviceTree_init image w).1
             = Err (AssertionError "No build.prop file found in any of the searched locations")
             ∧ reads (DeviceTree_init image w).2 = reads w1)
            ∧ (∀ l1 l2 p text mode bp di,
                 get_extended_buildprop_locations (fs w1) rp = l1 ++ p :: l2 →
                 Forall (λ q, is_file (fs w1) q = false) l1 →
                 fs w1 !! p = Some (File text mode) →
                 parse_props BuildProp_new text = Ok bp →
                 DeviceInfo_new bp = Ok di →
                 Forall (λ q, is_file (fs w1) q = false)
                        (map (λ location, rp // location) FSTAB_LOCATIONS) →
                 (DeviceTree_init image w).1 = Err (AssertionError "fstab not found")
                 ∧ reads (DeviceTree_init image w).2 = reads w1 ++ [p]))).
Proof.
  split.
  { intros Himg. unfold DeviceTree_init.
    rewrite (bind_Ok _ _ w w w) by reflexivity.
    rewrite (bind_Ok _ _ w (is_file (fs w) image) w) by reflexivity.
    by rewrite Himg. }
  intros ii w1 Himg Hun. rewrite (init_run image w ii w1 Himg Hun). split.
  { intros Hr Hv. by rewrite (bind_Err _ _ w1 _ w1 (select_ramdisk_none ii w1 Hr Hv)). }
  intros rp Hrp. apply select_ramdisk_Ok in Hrp as [_ [line Hsel]].
  rewrite (bind_Ok _ _ w1 rp _ Hsel).
  set (w2 := set_log (log w1 ++ [line]) w1).
  rewrite (bind_Ok _ _ w2 tt (set_log (log w2 ++ ["Getting device infos..."]) w2))
    by reflexivity.
  set (w3 := set_log (log w2 ++ ["Getting device infos..."]) w2).
  split.
  - intros Hnone.
    by rewrite (bind_Err _ _ w3 _ _ (find_build_prop_none rp w3 Hnone)).
  - intros l1 l2 p text mode bp di Hlocs Hl1 Hp Hbp Hdi Hnone.
    rewrite (bind_Ok _ _ w3 bp _
               (eq_trans (find_build_prop_loads rp l1 l2 p text mode w3 Hlocs Hl1 Hp)
                         (f_equal (λ r, (r, _)) Hbp))).
    match goal with |- context [bind _ _ ?w] => set (w4 := w) end.
    rewrite (bind_Ok _ _ w4 di w4) by (unfold lift; by rewrite Hdi).
    by rewrite (bind_Err _ _ w4 _ _ (find_fstab_none rp w4 Hnone)).
Qed.

(** X5: the search for the init scripts never fails and changes nothing.
    When the system lists every directory entry once, the scripts found
    are exactly the entries of the three script directories that are
    directories (the ramdisk root, [system/etc/init], [vendor/etc/init])
    whose name ends in [.rc] and is not [init.rc]; an entry is taken
    whatever its kind. *)
Theorem init_scripts_are_the_rc_entries (ramdisk_path : Path) w :
  (∀ l, dir_order w l ≡ₚ l) →
  ∃ l, find_init_rcs ramdisk_path w = (Ok l, w)
       ∧ ∀ q, q ∈ l ↔
              ∃ d, d ∈ [ ramdisk_path; ramdisk_path ++ ["system"; "etc"; "init"];
                         ramdisk_path ++ ["vendor"; "etc"; "init"] ]
                   ∧ fs w !! d = Some Dir
                   ∧ q ≠ [] ∧ parent q = d ∧ is_Some (fs w !! q)
                   ∧ endswith (name q) ".rc" = true ∧ name q ≠ "init.rc".
Proof.
  intros Hperm. eexists. split; [apply find_init_rcs_run|]. intros q.
  change (map (λ location, ramdisk_path // location) INIT_RC_LOCATIONS)
    with [ ramdisk_path ++ []; ramdisk_path ++ ["system"; "etc"; "init"];
           ramdisk_path ++ ["vendor"; "etc"; "init"] ].
  rewrite app_nil_r.
  assert (Hrc : is_init_rc q = true ↔ endswith (name q) ".rc" = true ∧ name q ≠ "init.rc").
  { unfold is_init_rc. rewrite andb_true_iff, negb_true_iff. split.
    - intros [? Hn]. split; [done|]. intros E. rewrite E in Hn. discriminate.
    - intros [? Hn]. split; [done|]. apply String.eqb_neq. exact Hn. }
  split.
  - intros Hq. apply list_elem_of_In, in_concat in Hq as (l & Hl & Hq).
    apply in_map_iff in Hl as (d & <- & Hd). apply list_elem_of_In in Hq, Hd.
    apply (elem_of_scripts_in w d q Hperm) in Hq as (Hdir & Hq & Hne & Hpar & Hex).
    exists d. apply Hrc in Hq as [? ?]. done.
  - intros (d & Hd & Hdir & Hne & Hpar & Hex & Hend & Hname).
    apply list_elem_of_In, in_concat. exists (scripts_in w d). split.
    + apply in_map_iff. exists d. split; [done|]. by apply list_elem_of_In.
    + apply list_elem_of_In, (elem_of_scripts_in w d q Hperm).
      repeat split; try done. by apply Hrc.
Qed.

End Initialisation.

(** ** Paths made of entry names

    The properties below that say where [dump_to_folder] writes, or that
    it succeeds, are stated for a device tree folder all of whose parts are
    names of entries ([entry_name]: one part each, none of them [..]), and
    for scripts with such a file name: there a path names the same entry
    for the operating system as it does here. *)

Definition entry_names (p : Path) : Prop :=
  Forall (λ s, entry_name s = true) p.

Definition script_names (l : list Path) : Prop :=
  Forall (λ rc, entry_name (name rc) = true) l.

Lemma entry_name_plain (s : string) : entry_name s = true → plain s = true.
Proof. unfold entry_name. intros Hs. by apply andb_prop in Hs as [? _]. Qed.

Lemma script_names_plain (l : list Path) : script_names l → plain_names l.
Proof.
  unfold script_names, plain_names. intros Hl. eapply Forall_impl; [exact Hl|].
  intros rc. apply entry_name_plain.
Qed.

(** ** [DeviceTree.dump_to_folder]: what it leaves alone *)

Section Footprint.

Context `{Collaborators}.

(** [grows t]: outside the tree rooted at [t] no entry is removed or
    altered; the only new entries are directories above [t]. *)
Definition grows (t : Path) (w w' : World) : Prop :=
  ∀ q, ¬ t `prefix_of` q →
    match fs w !! q with
    | Some n => fs w' !! q = Some n
    | None => fs w' !! q = None ∨ (q `prefix_of` t ∧ fs w' !! q = Some Dir)
    end.

#[export] Instance grows_preorder t : PreOrder (grows t).
Proof.
  split.
  - intros w q _. destruct (fs w !! q); auto.
  - intros a b c Hab Hbc q Hq. specialize (Hab q Hq). specialize (Hbc q Hq).
    destruct (fs a !! q) as [n|].
    + by rewrite Hab in Hbc.
    + destruct Hab as [Hab|[Hp Hab]]; rewrite Hab in Hbc; [done|]. right. by split.
Qed.

Lemma grows_changes (S : Path → Prop) (t : Path) w w' :
  (∀ q, S q → t `prefix_of` q) → changes S w w' → grows t w w'.
Proof.
  intros HS [_ Hch] q Hq. rewrite Hch by (intros Hs; by apply Hq, HS).
  destruct (fs w !! q); auto.
Qed.

Lemma grows_os_mkdir (t p : Path) :
  t `prefix_of` p ∨ p `prefix_of` t → steps (grows t) (os_mkdir p).
Proof.
  intros Hp w q Hq. destruct (os_mkdir p w) as [[[]|e] w1] eqn:E; cbn [snd].
  - apply os_mkdir_Ok in E as (Hnone & _ & _ & ->). cbn [fs set_fs].
    destruct (decide (q = p)) as [->|Hne].
    + rewrite Hnone, lookup_insert_eq. right. by destruct Hp.
    + rewrite lookup_insert_ne by done. destruct (fs w !! q); auto.
  - apply os_mkdir_Err in E as [-> _]. destruct (fs w !! q); auto.
Qed.

Lemma grows_mkdir_noparents (t p : Path) (exist_ok : bool) :
  t `prefix_of` p ∨ p `prefix_of` t → steps (grows t) (mkdir_noparents exist_ok p).
Proof.
  intros Hp w. pose proof (grows_os_mkdir t p Hp w) as Hg. unfold mkdir_noparents.
  destruct (os_mkdir p w) as [[[]|e] w1]; cbn [snd] in *; [done|].
  destruct e; try done; by destruct (negb exist_ok || negb (is_dir (fs w1) p)).
Qed.

Lemma comparable_parent (t p : Path) :
  t `prefix_of` p ∨ p `prefix_of` t → t `prefix_of` parent p ∨ parent p `prefix_of` t.
Proof.
  intros [Hp|Hp].
  - apply prefix_cases in Hp as [->|[_ Hp]]; [right; apply prefix_parent | by left].
  - right. etransitivity; [apply prefix_parent | done].
Qed.

Lemma grows_mkdir_parents (t : Path) (fuel : nat) (exist_ok : bool) (p : Path) :
  t `prefix_of` p ∨ p `prefix_of` t → steps (grows t) (mkdir_parents fuel exist_ok p).
Proof.
  revert exist_ok p. induction fuel as [|fuel IH]; intros ok p Hp w;
    pose proof (grows_os_mkdir t p Hp w) as Hg; cbn [mkdir_parents];
    destruct (os_mkdir p w) as [[[]|e] w1]; cbn [snd] in *; try done.
  - destruct e; try done; by destruct (negb ok || negb (is_dir (fs w1) p)).
  - destruct e; try (by destruct (negb ok || negb (is_dir (fs w1) p))).
    destruct (bool_decide (parent p = p)); [done|].
    etransitivity; [exact Hg|].
    apply (steps_bind (grows t)); [apply IH; by apply comparable_parent|].
    intros _. by apply grows_mkdir_noparents.
Qed.

Lemma grows_mkdir (t : Path) (l : Path) : steps (grows t) (mkdir (t ++ l)).
Proof. apply grows_mkdir_parents. left. by apply prefix_app_r. Qed.

Lemma steps_changes_grows {A} (S : Path → Prop) (t : Path) (m : M A) :
  (∀ q, S q → t `prefix_of` q) → steps (changes S) m → steps (grows t) m.
Proof. intros HS Hm w. eapply grows_changes; [exact HS | apply Hm]. Qed.

Lemma grows_create_folders (t : Path) : steps (grows t) (create_folders t).
Proof.
  unfold create_folders, joinpath. rewrite <- app_assoc. cbn [app].
  apply (steps_bind _ (remove_existing t)); [| intros _].
  { apply (steps_changes_grows (is_under t)); [done | apply remove_existing_changes]. }
  apply (steps_bind _ (mkdir t)); [| intros _].
  { rewrite <- (app_nil_r t) at 2. apply grows_mkdir. }
  apply (steps_bind _ (mkdir _)); [apply grows_mkdir | intros _].
  apply grows_mkdir.
Qed.

(** X6: let the parts of the device tree folder be names of entries (none
    is [..]), and the file names of the scripts too.  Whatever its outcome,
    [dump_to_folder] removes and alters nothing outside the device tree
    folder; the only entries it adds there are missing directories above
    the folder. *)
Theorem nothing_outside_is_altered
    (self : DeviceTree) (output_path : Path) (git : bool) w :
  let t := device_tree_folder_of self output_path in
  entry_names t → script_names (init_rcs self) →
  let w' := (dump_to_folder self output_path git w).2 in
  ∀ q, ¬ t `prefix_of` q →
    match fs w !! q with
    | Some n => fs w' !! q = Some n
    | None => fs w' !! q = None ∨ (q `prefix_of` t ∧ fs w' !! q = Some Dir)
    end.
Proof.
  intros t _ Hnames.
  assert (Hrel : relative_names (init_rcs self)).
  { by apply plain_names_relative, script_names_plain. }
  cbv zeta. revert w.
  change (steps (grows t) (dump_to_folder self output_path git)).
  unfold dump_to_folder. fold t. unfold joinpath.
  rewrite <- app_assoc. cbn [app].
  apply (steps_bind _ (create_folders t)); [apply grows_create_folders | intros _].
  apply (steps_bind _ (write_makefiles self t)); [| intros _].
  { apply (steps_changes_grows (top_level t)); [|apply ch_write_makefiles].
    intros q Hq. by apply inside_under, top_level_inside. }
  apply (steps_bind _ (set_permissions t)); [| intros _].
  { apply (steps_changes_grows (top_level t)); [|apply ch_set_permissions].
    intros q Hq. by apply inside_under, top_level_inside. }
  apply (steps_bind _ (copy_prebuilts self _)); [| intros _].
  { apply (steps_changes_grows (in_prebuilt (t ++ ["prebuilt"]))); [|apply ch_copy_prebuilts].
    intros q Hq. by apply inside_under, in_prebuilt_inside. }
  apply (steps_bind _ (write_fstab self t)); [| intros _].
  { apply (steps_changes_grows (top_level t)); [|apply ch_write_fstab].
    intros q Hq. by apply inside_under, top_level_inside. }
  apply (steps_bind _ (copy_init_scripts self _)); [| intros _].
  { apply (steps_changes_grows (in_recovery_root t)); [|by apply ch_copy_init_scripts].
    intros q [r ->]. by apply prefix_app_r. }
  destruct git; cbn [negb]; [|apply steps_ret, _].
  apply (steps_bind _ (create_git_repo self t)); [| intros ?; apply steps_ret, _].
  apply (steps_changes_grows (git_dir t)); [|apply ch_create_git_repo].
  intros q [r ->]. by apply prefix_app_r.
Qed.

End Footprint.

(** ** [DeviceTree.dump_to_folder]: when the folder cannot be created *)

Section Refusal.

Context `{Collaborators}.

Lemma mkdir_parents_below_a_file (fuel : nat) (exist_ok : bool) (p q : Path) c m w :
  fs_wf (fs w) → (length p ≤ fuel)%nat →
  q `prefix_of` p → q ≠ p → fs w !! q = Some (File c m) →
  mkdir_parents fuel exist_ok p w = (Err NotADirectoryError, w).
Proof.
  revert exist_ok p. induction fuel as [|fuel IH]; intros ok p Hwf Hlen Hq Hne Hfile.
  { destruct p; [|cbn in Hlen; lia]. by apply prefix_nil_inv in Hq. }
  assert (Hp : p ≠ []).
  { intros ->. by apply prefix_nil_inv in Hq. }
  assert (Hnone : ∀ p', q `prefix_of` p' → q ≠ p' → fs w !! p' = None).
  { intros p' Hq' Hne'. destruct (fs w !! p') as [n|] eqn:E; [|done].
    rewrite (wf_ancestor_dir _ q p' n Hwf E Hq' Hne') in Hfile. discriminate. }
  assert (Hdir : is_dir (fs w) p = false).
  { unfold is_dir. by rewrite (Hnone p Hq Hne). }
  cbn [mkdir_parents]. unfold os_mkdir at 1. rewrite (Hnone p Hq Hne).
  destruct p as [|x p']; [done|].
  apply prefix_cases in Hq as [->|[_ Hq]]; [done|].
  destruct (decide (q = parent (x :: p'))) as [<-|Hne'].
  - rewrite Hfile, Hdir. by rewrite orb_true_r.
  - rewrite (Hnone _ Hq Hne').
    rewrite (missing_ENOTDIR (fs w) (x :: p') q c m);
      [|by etransitivity; [|apply prefix_parent]|done|done].
    rewrite Hdir. by rewrite orb_true_r.
Qed.

(** X7: when a regular file lies on the way to the device tree folder
    (the output path, or the manufacturer's folder, is a file),
    [dump_to_folder] fails with [NotADirectoryError] and changes nothing
    in the file system. *)
Theorem file_above_the_folder
    (self : DeviceTree) (output_path : Path) (git : bool) w (q : Path) c m :
  let t := device_tree_folder_of self output_path in
  fs_wf (fs w) → q `prefix_of` t → q ≠ t → fs w !! q = Some (File c m) →
  dump_to_folder self output_path git w
  = (Err NotADirectoryError, set_log (log w ++ ["Creating device tree folders..."]) w).
Proof.
  intros t Hwf Hq Hne Hfile. unfold dump_to_folder. fold t.
  apply (bind_Err _ _ w). unfold create_folders.
  assert (Hnone : fs w !! t = None).
  { destruct (fs w !! t) as [n|] eqn:E; [|done].
    rewrite (wf_ancestor_dir _ q t n Hwf E Hq Hne) in Hfile. discriminate. }
  assert (Hrm : remove_existing t w
                = (Ok tt, set_log (log w ++ ["Creating device tree folders..."]) w)).
  { rewrite remove_existing_run. unfold rmtree_ignore_errors, is_dir. cbn [fs set_log].
    by rewrite Hnone. }
  rewrite (bind_Ok _ _ w tt _ Hrm). apply (bind_Err _ _ _).
  unfold mkdir. by apply (mkdir_parents_below_a_file _ _ t q c m).
Qed.

End Refusal.

(** ** Names that are one part of a path *)

Fixpoint has_slash (s : string) : bool :=
  match s with
  | EmptyString => false
  | String c s' => Ascii.eqb c "/" || has_slash s'
  end.

Lemma split_parts_no_slash (s cur : string) :
  has_slash s = false → split_parts cur s = [String.rev_app cur s].
Proof.
  revert cur. induction s as [|c s IH]; intros cur Hs; cbn [split_parts]; [done|].
  cbn in Hs. apply orb_false_elim in Hs as [Hc Hs]. rewrite Hc. by rewrite IH.
Qed.

Lemma rev_app_length (cur s : string) :
  String.length (String.rev_app cur s) = (String.length cur + String.length s)%nat.
Proof.
  revert s. induction cur as [|c cur IH]; intros s; cbn; [done|]. rewrite IH. cbn. lia.
Qed.

Lemma split_parts_length (s cur x : string) :
  x ∈ split_parts cur s → (String.length x ≤ String.length cur + String.length s)%nat.
Proof.
  revert cur. induction s as [|c s IH]; intros cur Hx; cbn [split_parts] in Hx.
  - apply list_elem_of_singleton in Hx as ->. unfold String.rev. rewrite rev_app_length. done.
  - cbn [String.length]. destruct (Ascii.eqb c "/").
    + apply elem_of_cons in Hx as [->|Hx].
      * unfold String.rev. rewrite rev_app_length. cbn. lia.
      * apply IH in Hx. cbn in Hx. lia.
    + apply IH in Hx. cbn in Hx. lia.
Qed.

Lemma split_parts_shorter (s cur x : string) :
  has_slash s = true → x ∈ split_parts cur s →
  (String.length x < String.length cur + String.length s)%nat.
Proof.
  revert cur. induction s as [|c s IH]; intros cur Hs Hx; [discriminate|].
  cbn [split_parts] in Hx. cbn [String.length]. cbn in Hs.
  destruct (Ascii.eqb c "/").
  - apply elem_of_cons in Hx as [->|Hx].
    + unfold String.rev. rewrite rev_app_length. cbn. lia.
    + apply split_parts_length in Hx. cbn in Hx. lia.
  - cbn in Hs. apply (IH _ Hs) in Hx. cbn in Hx. lia.
Qed.

Lemma plain_no_slash (s : string) : plain s = true → has_slash s = false.
Proof.
  unfold plain. intros Hs. apply andb_prop in Hs as [_ Hp].
  apply bool_decide_eq_true in Hp. destruct (has_slash s) eqn:E; [|done].
  assert (Hin : s ∈ split_parts "" s).
  { assert (Hin : s ∈ parts_of s) by (rewrite Hp; by apply list_elem_of_singleton).
    unfold parts_of in Hin. apply list_elem_of_In, filter_In in Hin as [Hin _].
    by apply list_elem_of_In. }
  apply (split_parts_shorter _ _ _ E) in Hin. cbn in Hin. lia.
Qed.

Lemma has_slash_app (a b : string) : has_slash (a +:+ b) = has_slash a || has_slash b.
Proof.
  induction a as [|c a IH]; [done|].
  change (has_slash (String c a +:+ b)) with (Ascii.eqb c "/" || has_slash (a +:+ b)).
  rewrite IH. cbn [has_slash]. by rewrite orb_assoc.
Qed.

(** The name of the device makefile is one part when the codename is. *)
Lemma parts_of_omni_plain (codename : string) :
  plain codename = true →
  parts_of ("omni_" +:+ codename +:+ ".mk") = ["omni_" +:+ codename +:+ ".mk"].
Proof.
  intros Hc. apply plain_no_slash in Hc. unfold parts_of.
  rewrite split_parts_no_slash.
  - reflexivity.
  - change ("omni_" +:+ codename +:+ ".mk") with ("omni_" +:+ (codename +:+ ".mk")).
    by rewrite !has_slash_app, Hc.
Qed.

(** ** [DeviceTree.dump_to_folder]: when it succeeds *)

Section Success.

Context `{Collaborators}.

(** [shape s w]: [w] has the directories of [s] and no others, and the
    files of [s] are files of [w]. *)
Definition shape (s w : World) : Prop :=
  same_env s w
  ∧ ∀ q, (fs w !! q = Some Dir ↔ fs s !! q = Some Dir)
         ∧ (is_file (fs s) q = true → is_file (fs w) q = true).

#[export] Instance shape_preorder : PreOrder shape.
Proof.
  split.
  - intros w. split; [reflexivity|]. intros q. by split.
  - intros a b c [E1 S1] [E2 S2]. split; [by etransitivity|]. intros q.
    destruct (S1 q) as [D1 F1], (S2 q) as [D2 F2]. split; [by rewrite D2 | auto].
Qed.



























End Success.

(** ** [DeviceTree.dump_to_folder]: what the folder holds *)

Section Tree.

Context `{Collaborators}.

(** The templates rendered into the device tree folder, in the order of
    the code: template, comment prefix, name of the file written. *)
Definition templates (self : DeviceTree) : list (string * string * string) :=
  [ ("Android.bp", "//", "Android.bp");
    ("Android.mk", "#", "Android.mk");
    ("AndroidProducts.mk", "#", "AndroidProducts.mk");
    ("BoardConfig.mk", "#", "BoardConfig.mk");
    ("device.mk", "#", "device.mk");
    ("extract-files.sh", "#", "extract-files.sh");
    ("omni_device.mk", "#", "omni_" +:+ codename (device_info self) +:+ ".mk");
    ("README.md", "#", "README.md");
    ("setup-makefiles.sh", "#", "setup-makefiles.sh");
    ("vendorsetup.sh", "#", "vendorsetup.sh") ].

(** The text of a template for a device tree. *)
Definition rendered (self : DeviceTree) (template_file comment_prefix : string) : string :=
  render_text template_file comment_prefix (current_year self) (device_info self)
    (fstab self) (image_info self) version.

(** The entries of the device tree folder that the blocks after
    [write_makefiles] write to. *)
Definition beside_makefiles (t : Path) : Path → Prop :=
  λ q, ∃ x r, q = t ++ x :: r ∧ x ∈ ["prebuilt"; "recovery"; ".git"; "recovery.fstab"].

Definition not_at (p : Path) : Path → Prop := λ q, q ≠ p.

Lemma render_then (self : DeviceTree) (t : Path) tpl cp out (rest : M unit) w w' :
  (_render_template self (Some t) tpl cp out true ;;; rest) w = (Ok tt, w') →
  steps (changes (not_at (t ++ parts_of (out_name tpl out)))) rest →
  (∃ m, fs w' !! (t ++ parts_of (out_name tpl out)) = Some (File (rendered self tpl cp) m))
  ∧ ∃ a, rest a = (Ok tt, w').
Proof.
  intros Hrun Hrest. apply bind_Ok_inv in Hrun as (r & a & Hr & Hrun).
  split; [|by exists a]. apply render_Ok in Hr as [m Hm].
  apply (steps_run _ _ _ _ _ Hrest) in Hrun as [_ Hch].
  exists m. rewrite Hch; [exact Hm|]. unfold not_at. by intros ?.
Qed.

Lemma out_name_omni (c : string) :
  out_name "omni_device.mk" ("omni_" +:+ c +:+ ".mk") = "omni_" +:+ c +:+ ".mk".
Proof. reflexivity. Qed.

Ltac other_file Homni :=
  unfold not_at; intros E; apply app_inv_head in E;
  rewrite ?out_name_omni, ?Homni in E; cbv in E; discriminate E.

Ltac render_steps Homni :=
  unfold _render_template;
  repeat first
    [ apply steps_ret; apply _
    | apply ch_render; other_file Homni
    | apply steps_bind; [apply _ | | intros ?] ].

Lemma write_makefiles_texts (self : DeviceTree) (t : Path) w w' :
  write_makefiles self t w = (Ok tt, w') →
  ∀ tpl cp out, (tpl, cp, out) ∈ templates self →
    ∃ m, fs w' !! (t ++ parts_of out) = Some (File (rendered self tpl cp) m).
Proof.
  unfold write_makefiles. intros Hrun.
  destruct (parts_of_omni (codename (device_info self))) as (x & rest & Homni).
  apply bind_Ok_inv in Hrun as ([] & a & _ & Hrun).
  apply render_then in Hrun as [F1 [a1 Hrun]]; [|render_steps Homni].
  apply render_then in Hrun as [F2 [a2 Hrun]]; [|render_steps Homni].
  apply render_then in Hrun as [F3 [a3 Hrun]]; [|render_steps Homni].
  apply render_then in Hrun as [F4 [a4 Hrun]]; [|render_steps Homni].
  apply render_then in Hrun as [F5 [a5 Hrun]]; [|render_steps Homni].
  apply render_then in Hrun as [F6 [a6 Hrun]]; [|render_steps Homni].
  apply render_then in Hrun as [F7 [a7 Hrun]]; [|render_steps Homni].
  apply render_then in Hrun as [F8 [a8 Hrun]]; [|render_steps Homni].
  apply render_then in Hrun as [F9 [a9 Hrun]]; [|render_steps Homni].
  apply render_then in Hrun as [F10 [a10 Hrun]]; [|render_steps Homni].
  intros tpl cp out Hin. unfold templates in Hin. rewrite !elem_of_cons, elem_of_nil in Hin.
  destruct Hin as [E|[E|[E|[E|[E|[E|[E|[E|[E|[E|[]]]]]]]]]]]; injection E as -> -> ->; done.
Qed.


Lemma set_permissions_text (t : Path) w w' (q : Path) c m :
  set_permissions t w = (Ok tt, w') → fs w !! q = Some (File c m) →
  ∃ m', fs w' !! q = Some (File c m').
Proof.
  intros Hrun Hq. apply set_permissions_Ok in Hrun as (_ & He & Hs & Hother).
  destruct (decide (q = t ++ ["extract-files.sh"])) as [->|H1]; [eauto|].
  destruct (decide (q = t ++ ["setup-makefiles.sh"])) as [->|H2]; [eauto|].
  exists m. by rewrite Hother.
Qed.

Lemma template_beside (self : DeviceTree) (t : Path) tpl cp out :
  (tpl, cp, out) ∈ templates self → ¬ beside_makefiles t (t ++ parts_of out).
Proof.
  intros Hin (x & r & E & Hx). apply app_inv_head in E.
  destruct (parts_of_omni (codename (device_info self))) as (y & rest & Homni).
  unfold templates in Hin. rewrite !elem_of_cons, elem_of_nil in Hin.
  rewrite !elem_of_cons, elem_of_nil in Hx.
  destruct Hin as [E'|[E'|[E'|[E'|[E'|[E'|[E'|[E'|[E'|[E'|[]]]]]]]]]]];
    injection E' as -> -> ->; rewrite ?Homni in E; cbv in E; injection E as <- _;
    destruct Hx as [?|[?|[?|[?|[]]]]]; discriminate.
Qed.

Lemma ch_write_fstab_at (self : DeviceTree) (t : Path) :
  steps (changes (singleton_path (t ++ ["recovery.fstab"]))) (write_fstab self t).
Proof.
  unfold write_fstab, joinpath.
  apply steps_bind; [apply _ | apply changes_LOGD | intros _].
  by apply changes_write_text.
Qed.

(** The blocks after [set_permissions] write beside the makefiles. *)
Lemma after_permissions (t : Path) s3 s4 s5 s6 w' :
  changes (in_prebuilt (t ++ ["prebuilt"])) s3 s4 →
  changes (singleton_path (t ++ ["recovery.fstab"])) s4 s5 →
  changes (in_recovery_root t) s5 s6 →
  changes (git_dir t) s6 w' →
  changes (beside_makefiles t) s3 w'.
Proof.
  intros C4 C5 C6 C7.
  etransitivity; [|etransitivity; [|etransitivity]];
    [ eapply changes_mono; [|exact C4] | eapply changes_mono; [|exact C5]
    | eapply changes_mono; [|exact C6] | eapply changes_mono; [|exact C7] ].
  - intros q (x & Hx & ->). exists "prebuilt", [x]. rewrite <- app_assoc. split; [done|].
    set_solver.
  - intros q ->. exists "recovery.fstab", []. split; [done|]. set_solver.
  - intros q (r & ->). exists "recovery", ("root" :: r). split; [done|]. set_solver.
  - intros q (r & ->). exists ".git", r. split; [done|]. set_solver.
Qed.

(** X9: after a successful [dump_to_folder], each of the ten generated
    files holds the text of its template for this device tree, rendered
    with the comment prefix [//] for [Android.bp] and [#] for the others
    (the device makefile is the template [omni_device.mk], written as
    [omni_<codename>.mk]), and [recovery.fstab] holds the partition table
    formatted with [twrp=True]. *)
Theorem generated_files_hold_their_templates
    (self : DeviceTree) (output_path : Path) (git : bool) w p w' :
  fs_wf (fs w) → relative_names (init_rcs self) →
  dump_to_folder self output_path git w = (Ok p, w') →
  let t := device_tree_folder_of self output_path in
  (∀ tpl cp out, (tpl, cp, out) ∈ templates self →
     ∃ m, fs w' !! (t ++ parts_of out)
          = Some (File (render_text tpl cp (current_year self) (device_info self)
                          (fstab self) (image_info self) version) m))
  ∧ ∃ m, fs w' !! (t ++ ["recovery.fstab"]) = Some (File (Fstab_format (fstab self) true) m).
Proof.
  intros Hwf Hrel Hrun t.
  apply dump_to_folder_blocks in Hrun
    as (s1 & s2 & s3 & s4 & s5 & s6 & (-> & Ht & Henv1 & Hs1 & Hout1)
        & (H2 & H3 & H4 & H5 & H6 & H7) & (C3 & C4 & _ & C6 & C7) & K2 & K); [|done..].
  fold t in Hs1, Hout1, H2, H3, H4, H5, H6, H7, C3, C4, C6, C7, Ht.
  pose proof (steps_run _ _ _ _ _ (ch_write_fstab_at self t) H5) as C5.
  split.
  - intros tpl cp out Hin.
    destruct (write_makefiles_texts self t s1 s2 H2 tpl cp out Hin) as [m Hm].
    destruct (set_permissions_text t s2 s3 _ _ _ H3 Hm) as [m' Hm'].
    exists m'. destruct (after_permissions t s3 s4 s5 s6 w' C4 C5 C6 C7) as [_ Hch].
    rewrite Hch; [exact Hm'|]. by apply (template_beside self t tpl cp out).
  - unfold write_fstab in H5. apply bind_Ok_inv in H5 as ([] & a & _ & H5).
    apply write_text_Ok in H5 as [m Hm]. exists m.
    destruct C6 as [_ C6], C7 as [_ C7]. unfold joinpath in Hm.
    rewrite C7, C6; [exact Hm|..].
    + intros (r & E). apply app_inv_head in E. discriminate E.
    + intros (r & E). apply app_inv_head in E. discriminate E.
Qed.


(** X10: after a successful [dump_to_folder], every init script is in
    [recovery/root] under its own name: the file of that name has the
    content that the last script of this name in [init_rcs] had before
    the run, and the mode of a created file. *)
Theorem every_script_is_copied
    (self : DeviceTree) (output_path : Path) (git : bool) w p w'
    (l1 l2 : list Path) (rc : Path) :
  let t := device_tree_folder_of self output_path in
  fs_wf (fs w) → plain_names (init_rcs self) →
  dump_to_folder self output_path git w = (Ok p, w') →
  init_rcs self = l1 ++ rc :: l2 →
  Forall (λ q, name q ≠ name rc) l2 →
  ¬ t `prefix_of` rc →
  ∃ c m, fs w !! rc = Some (File c m)
         ∧ fs w' !! (t ++ ["recovery"; "root"; name rc]) = Some (File c (created_mode w)).
Proof.
  intros t Hwf Hplain Hrun Hsplit Hl2 Hout.
  pose proof Hplain as Hnames. unfold plain_names in Hnames. rewrite Forall_forall in Hnames.
  assert (Hdst : ∀ z, z ∈ init_rcs self →
            joinstr (t ++ ["recovery"; "root"]) (name z) = t ++ ["recovery"; "root"; name z]).
  { intros z Hz. rewrite plain_joinstr by (by apply Hnames). by rewrite <- app_assoc. }
  assert (Hrc : rc ∈ init_rcs self) by (rewrite Hsplit; set_solver).
  apply dump_to_folder_blocks in Hrun
    as (s1 & s2 & s3 & s4 & s5 & s6 & (-> & Ht & Henv1 & Hs1 & Hout1)
        & (H2 & H3 & H4 & H5 & H6 & H7)
        & ([E3 C3] & [E4 C4] & [E5 C5] & [E6 C6] & [E7 C7]) & K2 & K);
    [|done|by apply plain_names_relative].
  fold t in Hs1, Hout1, H2, H3, H4, H5, H6, H7, C3, C4, C5, C6, C7, Ht.
  unfold copy_init_scripts in H6.
  apply bind_Ok_inv in H6 as ([] & s5' & [= <-] & H6).
  eapply copy_loop_last in H6 as (a & c & m & m' & [_ Ca] & Hsrc & Hfinal);
    [|by apply plain_names_relative|exact Hsplit|].
  2:{ rewrite (Hdst rc Hrc). apply Forall_forall. intros z Hz Hname.
      assert (Hzin : z ∈ init_rcs self) by (rewrite Hsplit; set_solver).
      rewrite (Hdst z Hzin) in Hname.
      rewrite Forall_forall in Hl2. apply (Hl2 z Hz).
      apply app_inv_head in Hname. by injection Hname. }
  rewrite (Hdst rc Hrc) in Hfinal.
  exists c, m. split.
  { rewrite Ca in Hsrc
      by (intros [r Hq]; apply Hout; rewrite Hq; by apply prefix_app_r).
    cbn [fs set_log] in Hsrc.
    rewrite C5 in Hsrc by (intros Hq; by apply top_level_inside, inside_under in Hq).
    rewrite C4 in Hsrc by (intros Hq; by apply in_prebuilt_inside, inside_under in Hq).
    rewrite C3 in Hsrc by (intros Hq; by apply top_level_inside, inside_under in Hq).
    rewrite Hout1 in Hsrc by done. case_bool_decide; congruence. }
  assert (Hw' : fs w' !! (t ++ ["recovery"; "root"; name rc]) = Some (File c m')).
  { rewrite C7; [done|]. intros (r & E). apply app_inv_head in E. discriminate E. }
  assert (m' = created_mode w) as ->; [|done].
  rewrite <- (created_mode_env w s3) by (by etransitivity).
  eapply (keeps_modes_new s3 s6); [done| |exact Hfinal].
  rewrite C3.
  - rewrite Hs1. rewrite bool_decide_eq_false_2; [done|]. unfold base_dirs.
    rewrite !elem_of_cons. intros [?|[?|[?|[?|?%elem_of_nil]]]]; done.
  - intros (x & r & E & Hx & Hy & _). apply app_inv_head in E. by injection E as <- _.
Qed.


End Tree.

(** ** [DeviceTree.dump_to_folder]: the entries of the folder *)

Section Layout.

Context `{Collaborators}.

(** The names in [prebuilt] of the artifacts that the image has. *)
Definition present_artifacts (image_info : ImageInfo) : list string :=
  omap (λ ax : option Path * string,
          match ax.1 with Some _ => Some ax.2 | None => None end)
       (artifacts image_info).

(** The entries of a generated device tree folder, relative to it. *)
Definition tree_entries (self : DeviceTree) (git : bool) : list Path :=
  base_dirs
  ++ map (λ tco : string * string * string, [tco.2]) (templates self)
  ++ [["recovery.fstab"]]
  ++ map (λ x, ["prebuilt"; x]) (present_artifacts (image_info self))
  ++ map (λ rc, ["recovery"; "root"; name rc]) (init_rcs self)
  ++ (if git then [[".git"]] else []).

(** A footprint given as a list of paths relative to [t]. *)
Definition below (t : Path) (F : list Path) : Path → Prop :=
  λ q, ∃ l, l ∈ F ∧ q = t ++ l.

Lemma grow_entries (t : Path) (F La Lb : list Path) a b :
  changes (below t F) a b →
  (∀ l, is_Some (fs a !! (t ++ l)) → l ∈ La) →
  (∀ l, l ∈ La → l ∈ Lb) → (∀ l, l ∈ F → l ∈ Lb) →
  ∀ l, is_Some (fs b !! (t ++ l)) → l ∈ Lb.
Proof.
  intros [_ Hch] Ha Hsub HF l Hl. destruct (decide (l ∈ F)) as [Hin|Hout]; [auto|].
  rewrite Hch in Hl; [auto|]. intros (l' & Hl' & E). apply app_inv_head in E. by subst.
Qed.

Lemma templates_plain (self : DeviceTree) tpl cp out :
  plain (codename (device_info self)) = true →
  (tpl, cp, out) ∈ templates self → parts_of out = [out].
Proof.
  intros Hc Hin. unfold templates in Hin. rewrite !elem_of_cons, elem_of_nil in Hin.
  destruct Hin as [E|[E|[E|[E|[E|[E|[E|[E|[E|[E|[]]]]]]]]]]]; injection E as -> -> ->;
    first [by apply parts_of_omni_plain | reflexivity].
Qed.

Ltac pick := repeat first [apply list_elem_of_here | apply list_elem_of_further].

Lemma ch_write_makefiles_at (self : DeviceTree) (t : Path) :
  plain (codename (device_info self)) = true →
  steps (changes (below t (map (λ tco : string * string * string, [tco.2]) (templates self))))
        (write_makefiles self t).
Proof.
  intros Hc. unfold write_makefiles, _render_template.
  apply steps_bind; [apply _ | apply changes_LOGD | intros _].
  repeat (apply steps_bind;
    [ apply _
    | apply ch_render; eexists; split; [|reflexivity];
      rewrite ?out_name_omni, ?(parts_of_omni_plain _ Hc); cbn [map templates snd]; pick
    | intros _ ]).
  apply steps_ret, _.
Qed.

Lemma ch_set_permissions_at (t : Path) :
  steps (changes (below t [["extract-files.sh"]; ["setup-makefiles.sh"]])) (set_permissions t).
Proof.
  unfold set_permissions, joinpath.
  apply steps_bind; [apply _ | | intros _];
    apply changes_chmod; eexists; (split; [|reflexivity]); pick.
Qed.

Lemma ch_copy_prebuilts_at (self : DeviceTree) (t : Path) :
  steps (changes (below t (map (λ x, ["prebuilt"; x]) (present_artifacts (image_info self)))))
        (copy_prebuilts self (t ++ ["prebuilt"])).
Proof.
  unfold copy_prebuilts, present_artifacts, artifacts, joinpath.
  destruct (kernel (image_info self)), (dt (image_info self)),
           (dtb (image_info self)), (dtbo (image_info self));
    cbn [omap map fst snd copy_if_present];
    (apply steps_bind; [apply _ | apply changes_LOGD | intros _]);
    repeat first
      [ apply steps_ret; apply _
      | apply changes_copyfile; eexists; (split; [|by rewrite <- app_assoc]); cbn; pick
      | apply steps_bind; [apply _ | | intros _] ].
Qed.

Lemma ch_write_fstab_below (self : DeviceTree) (t : Path) :
  steps (changes (below t [["recovery.fstab"]])) (write_fstab self t).
Proof.
  unfold write_fstab, joinpath.
  apply steps_bind; [apply _ | apply changes_LOGD | intros _].
  apply changes_write_text. eexists. split; [|reflexivity]. pick.
Qed.

Lemma ch_copy_init_scripts_at (self : DeviceTree) (t : Path) :
  plain_names (init_rcs self) →
  steps (changes (below t (map (λ rc, ["recovery"; "root"; name rc]) (init_rcs self))))
        (copy_init_scripts self (t ++ ["recovery"; "root"])).
Proof.
  intros Hplain. unfold copy_init_scripts.
  apply steps_bind; [apply _ | apply changes_LOGD | intros _].
  apply steps_for_each; [apply _|]. intros rc Hrc.
  apply changes_copyfile.
  unfold plain_names in Hplain. rewrite Forall_forall in Hplain.
  rewrite (plain_joinstr _ _ (Hplain rc Hrc)), <- app_assoc.
  eexists. split; [|reflexivity]. apply list_elem_of_In, in_map_iff. exists rc.
  split; [done|]. by apply list_elem_of_In.
Qed.

Lemma copy_loop_all (rr : Path) (l : list Path) w w' :
  for_each l (λ init_rc, copyfile init_rc (joinstr rr (name init_rc))) w = (Ok tt, w') →
  ∀ rc, rc ∈ l → is_file (fs w') (joinstr rr (name rc)) = true.
Proof.
  revert w. induction l as [|x l IH]; intros w Hrun rc Hrc; [by apply elem_of_nil in Hrc|].
  cbn [for_each] in Hrun. apply bind_Ok_inv in Hrun as ([] & a & Hcopy & Hrest).
  apply elem_of_cons in Hrc as [->|Hrc]; [|by eapply IH].
  apply copyfile_Ok in Hcopy as (c & m & m' & _ & Hdst).
  assert (Hk : steps keeps_modes
                 (for_each l (λ init_rc, copyfile init_rc (joinstr rr (name init_rc))))).
  { apply steps_for_each; [apply _|]. intros y _. apply km_copyfile. }
  apply (steps_run _ _ _ _ _ Hk) in Hrest.
  destruct (keeps_modes_file _ _ _ _ _ Hrest Hdst) as [c' Hc]. apply is_file_true. eauto.
Qed.

Lemma keeps_modes_some w w' q :
  keeps_modes w w' → is_Some (fs w !! q) → is_Some (fs w' !! q).
Proof.
  intros K [[c m|] E].
  - destruct (keeps_modes_file _ _ _ _ _ K E) as [c' ->]. by eexists.
  - rewrite (keeps_modes_dir _ _ _ K E). by eexists.
Qed.


Lemma git_is_no_generated_entry (self : DeviceTree) : [".git"] ∉ tree_entries self false.
Proof.
  unfold tree_entries. rewrite !elem_of_app. intros [Hl|[Hl|[Hl|[Hl|[Hl|Hl]]]]].
  - unfold base_dirs in Hl. rewrite !elem_of_cons, elem_of_nil in Hl.
    destruct Hl as [?|[?|[?|[?|[]]]]]; discriminate.
  - apply list_elem_of_In, in_map_iff in Hl as ([[tpl cp] out] & E & Hin).
    cbn [snd] in E. injection E as ->.
    apply list_elem_of_In in Hin. unfold templates in Hin.
    rewrite !elem_of_cons, elem_of_nil in Hin.
    destruct Hin as [E|[E|[E|[E|[E|[E|[E|[E|[E|[E|[]]]]]]]]]]];
      injection E as _ _ E; cbn in E; discriminate E.
  - apply list_elem_of_singleton in Hl. discriminate Hl.
  - apply list_elem_of_In, in_map_iff in Hl as (x & E & _). discriminate E.
  - apply list_elem_of_In, in_map_iff in Hl as (x & E & _). discriminate E.
  - by apply elem_of_nil in Hl.
Qed.

(** X12: after a successful [dump_to_folder] the device tree folder holds
    exactly: itself, [prebuilt], [recovery] and [recovery/root]; the ten
    generated files and [recovery.fstab]; in [prebuilt] one file for each
    artifact that the image has; in [recovery/root] one file for each name
    of an init script; and [.git] when a snapshot was asked for.  What git
    keeps below [.git] is its own and is left open. *)
Theorem folder_holds_exactly_the_generated_tree
    (self : DeviceTree) (output_path : Path) (git : bool) w p w' (l : Path) :
  let t := device_tree_folder_of self output_path in
  fs_wf (fs w) →
  plain (codename (device_info self)) = true →
  plain_names (init_rcs self) →
  dump_to_folder self output_path git w = (Ok p, w') →
  (∀ x r, l ≠ ".git" :: x :: r) →
  is_Some (fs w' !! (t ++ l)) ↔ l ∈ tree_entries self git.
Proof.
  intros t Hwf Hc Hplain Hrun Hnotgit.
  apply dump_to_folder_blocks in Hrun
    as (s1 & s2 & s3 & s4 & s5 & s6 & (-> & Ht & Henv1 & Hs1 & Hout1)
        & (H2 & H3 & H4 & H5 & H6 & H7) & (D3 & D4 & D5 & D6 & D7) & K2 & K);
    [|done|by apply plain_names_relative].
  fold t in Hs1, Hout1, H2, H3, H4, H5, H6, H7, D3, D4, D5, D6, D7, Ht.
  destruct (before_snapshot t s1 s3 s4 s5 s6 Hs1 D3 D4 D5 D6) as (Hgit & Hdir & _).
  pose proof (steps_run _ _ _ _ _ (ch_write_makefiles_at self t Hc) H2) as C2.
  pose proof (steps_run _ _ _ _ _ (ch_set_permissions_at t) H3) as C3.
  pose proof (steps_run _ _ _ _ _ (ch_copy_prebuilts_at self t) H4) as C4.
  pose proof (steps_run _ _ _ _ _ (ch_write_fstab_below self t) H5) as C5.
  pose proof (steps_run _ _ _ _ _ (ch_copy_init_scripts_at self t Hplain) H6) as C6.
  pose proof (steps_run _ _ _ _ _ (km_copy_prebuilts self _) H4) as K4.
  pose proof (steps_run _ _ _ _ _ (km_write_fstab self t) H5) as K5.
  pose proof (steps_run _ _ _ _ _ (km_copy_init_scripts self _) H6) as K6.
  destruct (decide (l = [".git"])) as [->|Hne].
  { (* git's directory itself *)
    destruct git.
    - destruct (create_git_repo_run self t s6 Hgit Hdir) as (w'' & c & Hrun & Hgit' & _).
      rewrite Hrun in H7. injection H7 as ->. rewrite Hgit'.
      split; [|by eexists]. intros _. unfold tree_entries. rewrite !elem_of_app.
      do 5 right. apply list_elem_of_here.
    - subst w'. rewrite Hgit. split; [by intros [? ?]|].
      intros Hin. by apply git_is_no_generated_entry in Hin. }
  assert (Hl : ∀ r, l ≠ ".git" :: r).
  { intros [|x r] E; [done | by apply (Hnotgit x r)]. }
  assert (G : fs w' !! (t ++ l) = fs s6 !! (t ++ l)).
  { destruct D7 as [_ D7]. apply D7. intros [r E]. apply app_inv_head in E.
    by apply (Hl r). }
  rewrite G. clear G.
  destruct (write_makefiles_files self t s1 s2 H2) as (He & Hs & _).
  assert (F5 : ∀ q, is_Some (fs s5 !! q) → is_Some (fs s6 !! q)).
  { intros q. by apply keeps_modes_some. }
  assert (F4 : ∀ q, is_Some (fs s4 !! q) → is_Some (fs s6 !! q)).
  { intros q Hq. by apply F5, (keeps_modes_some s4). }
  assert (F3 : ∀ q, is_Some (fs s3 !! q) → is_Some (fs s6 !! q)).
  { intros q Hq. by apply F4, (keeps_modes_some s3). }
  assert (F2 : ∀ q, is_Some (fs s2 !! q) → is_Some (fs s6 !! q)).
  { intros q Hq. apply F3. pose proof (set_permissions_Ok t s2 s3 H3) as (_ & Pe & Ps & Po).
    destruct He as (c1 & m1 & He), Hs as (c2 & m2 & Hs).
    destruct (decide (q = t ++ ["extract-files.sh"])) as [->|N1];
      [rewrite (Pe _ _ He); by eexists|].
    destruct (decide (q = t ++ ["setup-makefiles.sh"])) as [->|N2];
      [rewrite (Ps _ _ Hs); by eexists|].
    by rewrite Po. }
  assert (F1 : ∀ q, is_Some (fs s1 !! q) → is_Some (fs s6 !! q)).
  { intros q Hq. by apply F2, (keeps_modes_some s1). }
  unfold tree_entries. split.
  - (* every entry is a listed one *)
    fold (tree_entries self git). revert l Hnotgit Hne Hl.
    assert (E1 : ∀ l, is_Some (fs s1 !! (t ++ l)) → l ∈ tree_entries self git).
    { intros l. rewrite Hs1. case_bool_decide as Hl; [|by intros [? ?]].
      intros _. unfold tree_entries. apply elem_of_app. by left. }
    assert (E2 : ∀ l, is_Some (fs s2 !! (t ++ l)) → l ∈ tree_entries self git).
    { apply (grow_entries t _ _ _ s1 s2 C2 E1); [done|].
      intros l Hl. unfold tree_entries. rewrite !elem_of_app. auto. }
    assert (E3 : ∀ l, is_Some (fs s3 !! (t ++ l)) → l ∈ tree_entries self git).
    { apply (grow_entries t _ _ _ s2 s3 C3 E2); [done|].
      intros l Hl. unfold tree_entries. rewrite !elem_of_app. right. left.
      unfold templates. cbn [map snd]. revert Hl. rewrite !elem_of_cons, elem_of_nil.
      intros [->|[->|[]]]; auto 20. }
    assert (E4 : ∀ l, is_Some (fs s4 !! (t ++ l)) → l ∈ tree_entries self git).
    { apply (grow_entries t _ _ _ s3 s4 C4 E3); [done|].
      intros l Hl. unfold tree_entries. rewrite !elem_of_app. auto 10. }
    assert (E5 : ∀ l, is_Some (fs s5 !! (t ++ l)) → l ∈ tree_entries self git).
    { apply (grow_entries t _ _ _ s4 s5 C5 E4); [done|].
      intros l Hl. unfold tree_entries. rewrite !elem_of_app. auto 10. }
    assert (E6 : ∀ l, is_Some (fs s6 !! (t ++ l)) → l ∈ tree_entries self git).
    { apply (grow_entries t _ _ _ s5 s6 C6 E5); [done|].
      intros l Hl. unfold tree_entries. rewrite !elem_of_app. auto 10. }
    intros l _ _ _. apply E6.
  - (* every listed entry is there *)
    rewrite !elem_of_app. intros [Hin|[Hin|[Hin|[Hin|[Hin|Hin]]]]].
    + apply F1. rewrite Hs1. rewrite bool_decide_eq_true_2 by done. by eexists.
    + apply list_elem_of_In, in_map_iff in Hin as ([[tpl cp] out] & <- & Hin).
      apply list_elem_of_In in Hin. cbn [snd].
      destruct (write_makefiles_texts self t s1 s2 H2 tpl cp out Hin) as [m Hm].
      rewrite (templates_plain self tpl cp out Hc Hin) in Hm.
      apply F2. rewrite Hm. by eexists.
    + apply list_elem_of_singleton in Hin as ->.
      unfold write_fstab in H5. apply bind_Ok_inv in H5 as ([] & a & _ & H5).
      apply write_text_Ok in H5 as [m Hm]. apply F5. unfold joinpath in Hm.
      rewrite Hm. by eexists.
    + apply list_elem_of_In, in_map_iff in Hin as (x & <- & Hx).
      unfold present_artifacts in Hx.
      apply list_elem_of_In, list_elem_of_omap in Hx as ([art x'] & Hin & Hsome).
      cbn [fst snd] in Hsome. destruct art as [src|]; [|discriminate].
      injection Hsome as ->.
      pose proof (copy_prebuilts_Ok self _ s3 s4 H4 (Some src) x Hin)
        as (a & c & m & m' & _ & _ & Hdst).
      apply F4. rewrite <- app_assoc in Hdst. cbn [app] in Hdst. rewrite Hdst. by eexists.
    + apply list_elem_of_In, in_map_iff in Hin as (rc & <- & Hrc).
      apply list_elem_of_In in Hrc.
      unfold copy_init_scripts in H6. apply bind_Ok_inv in H6 as ([] & a & _ & H6).
      pose proof (copy_loop_all _ _ _ _ H6 rc Hrc) as Hf.
      unfold plain_names in Hplain. rewrite Forall_forall in Hplain.
      rewrite (plain_joinstr _ _ (Hplain rc Hrc)), <- app_assoc in Hf. cbn [app] in Hf.
      apply is_file_true in Hf as (c & m & ->). by eexists.
    + destruct git; [|by apply elem_of_nil in Hin].
      by apply list_elem_of_singleton in Hin.
Qed.

End Layout.

(** ** [DeviceTree.dump_to_folder]: a failure on the way *)

Section Failure.

Context `{Collaborators}.



End Failure.

(** ** The further properties on the demo image *)

(** The demo image generates its device tree, with and without a snapshot. *)
Lemma demo_run (git : bool) :
  ∃ w', dump_to_folder demo_tree ["o"] git (world_of image_fs) = (Ok demo_folder, w').
Proof.
  destruct git; eexists; apply run_eq; vm_compute; reflexivity.
Qed.

Lemma demo_wf : fs_wf (fs (world_of image_fs)).
Proof. apply fs_wfb_correct. vm_compute. reflexivity. Qed.

Lemma demo_plain_names : plain_names (init_rcs demo_tree).
Proof. repeat (constructor; [vm_compute; reflexivity|]). constructor. Qed.

Lemma demo_script_names : script_names (init_rcs demo_tree).
Proof. repeat (constructor; [vm_compute; reflexivity|]). constructor. Qed.

Lemma demo_entry_names : entry_names ["o"; "acme"; "crab"].
Proof. repeat (constructor; [vm_compute; reflexivity|]). constructor. Qed.

(** X3, on the demo image: [__init__] builds the demo tree; it reads
    [prop.default] and [system/etc/recovery.fstab], and no other file. *)
Lemma init_builds_the_device_tree_witness :
  ∃ w', DeviceTree_init ["w"; "boot.img"] (world_of image_fs) = (Ok demo_tree, w')
        ∧ fs w' = image_fs
        ∧ reads w' = [ ramdisk_root ++ ["prop.default"];
                       ramdisk_root ++ ["system"; "etc"; "recovery.fstab"] ].
Proof.
  destruct (@init_builds_the_device_tree demo ["w"; "boot.img"] (world_of image_fs)
              (image_info demo_tree) (world_of image_fs) ramdisk_root
              [ ramdisk_root // ["default.prop"] ]
              (drop 2 (get_extended_buildprop_locations image_fs ramdisk_root))
              (ramdisk_root // ["prop.default"]) "crab" 420%Z "crab" "crab"
              [ ramdisk_root // ["etc"; "recovery.fstab"] ]
              [ ramdisk_root // ["vendor"; "etc"; "recovery.fstab"] ]
              (ramdisk_root // ["system"; "etc"; "recovery.fstab"]) "/data ext4" 420%Z
              "/data ext4")
    as (w' & Hrun & Hfs & Hreads).
  - vm_compute. reflexivity.
  - vm_compute. reflexivity.
  - vm_compute. reflexivity.
  - vm_compute. reflexivity.
  - repeat constructor.
  - vm_compute. reflexivity.
  - vm_compute. reflexivity.
  - vm_compute. reflexivity.
  - vm_compute. reflexivity.
  - repeat constructor.
  - vm_compute. reflexivity.
  - vm_compute. reflexivity.
  - exists w'. split; [|split; [exact Hfs | exact Hreads]].
    rewrite Hrun. vm_compute. reflexivity.
Defined.

(** X5, on the demo image: the two [init.usb.rc] are found, [init.rc] is
    not. *)
Lemma init_scripts_are_the_rc_entries_witness :
  ∃ l, find_init_rcs ramdisk_root (world_of image_fs) = (Ok l, world_of image_fs)
       ∧ (ramdisk_root ++ ["init.usb.rc"]) ∈ l
       ∧ (ramdisk_root ++ ["vendor"; "etc"; "init"; "init.usb.rc"]) ∈ l
       ∧ (ramdisk_root ++ ["init.rc"]) ∉ l.
Proof.
  destruct (init_scripts_are_the_rc_entries ramdisk_root (world_of image_fs))
    as (l & Hrun & Hl).
  { intros l. reflexivity. }
  exists l. split; [exact Hrun|]. clear Hrun.
  assert (Hrc : ∀ d, d ∈ [ ramdisk_root; ramdisk_root ++ ["system"; "etc"; "init"];
                           ramdisk_root ++ ["vendor"; "etc"; "init"] ] →
                     image_fs !! d = Some Dir →
                     is_Some (image_fs !! (d ++ ["init.usb.rc"])) →
                     (d ++ ["init.usb.rc"]) ∈ l).
  { intros d Hd Hdir Hsome. apply Hl. exists d. split; [exact Hd|]. split; [exact Hdir|].
    split; [intros E; by apply app_nil in E as [_ ?]|].
    split; [apply parent_snoc|]. split; [exact Hsome|].
    rewrite name_snoc. split; [vm_compute; reflexivity | intros E; discriminate E]. }
  split; [|split].
  - apply (Hrc ramdisk_root); [apply list_elem_of_here | vm_compute; reflexivity |].
    vm_compute. eexists. reflexivity.
  - change (ramdisk_root ++ ["vendor"; "etc"; "init"; "init.usb.rc"])
      with ((ramdisk_root ++ ["vendor"; "etc"; "init"]) ++ ["init.usb.rc"]).
    apply (Hrc (ramdisk_root ++ ["vendor"; "etc"; "init"])).
    + apply list_elem_of_further, list_elem_of_further, list_elem_of_here.
    + vm_compute. reflexivity.
    + vm_compute. eexists. reflexivity.
  - intros Hin. apply Hl in Hin as (d & _ & _ & _ & _ & _ & _ & Hname). by apply Hname.
Defined.

(** X6, on the demo image: after the run the image file is as it was. *)
Lemma nothing_outside_is_altered_witness :
  fs (dump_to_folder demo_tree ["o"] true (world_of image_fs)).2 !! ["w"; "boot.img"]
  = Some (File "img" 420).
Proof.
  pose proof (nothing_outside_is_altered demo_tree ["o"] true (world_of image_fs)
                demo_entry_names demo_script_names ["w"; "boot.img"]) as Hq.
  assert (E : fs (world_of image_fs) !! ["w"; "boot.img"] = Some (File "img" 420))
    by (vm_compute; reflexivity).
  rewrite E in Hq. apply Hq. intros [k Hk]. vm_compute in Hk. discriminate Hk.
Defined.

(** A file system in which the output path is a file. *)
Definition blocked_fs : gmap Path node :=
  mkfs [ ([], Dir); (["o"], File "notes" 420) ].

(** X7, with a file as the output path. *)
Lemma file_above_the_folder_witness :
  dump_to_folder demo_tree ["o"] false (world_of blocked_fs)
  = (Err NotADirectoryError,
     set_log (log (world_of blocked_fs) ++ ["Creating device tree folders..."])
             (world_of blocked_fs)).
Proof.
  apply (file_above_the_folder demo_tree ["o"] false (world_of blocked_fs) ["o"] "notes" 420).
  - apply fs_wfb_correct. vm_compute. reflexivity.
  - exists ["acme"; "crab"]. vm_compute. reflexivity.
  - intros E. vm_compute in E. discriminate E.
  - vm_compute. reflexivity.
Defined.



(** X9, on the demo image. *)
Lemma generated_files_hold_their_templates_witness :
  ∃ w', dump_to_folder demo_tree ["o"] false (world_of image_fs) = (Ok demo_folder, w')
        ∧ (∃ m, fs w' !! (demo_folder ++ ["Android.bp"])
                = Some (File "// Android.bp 2022 crab" m))
        ∧ (∃ m, fs w' !! (demo_folder ++ ["omni_crab.mk"])
                = Some (File "# omni_device.mk 2022 crab" m))
        ∧ (∃ m, fs w' !! (demo_folder ++ ["recovery.fstab"])
                = Some (File "twrp:/data ext4" m)).
Proof.
  destruct (demo_run false) as [w' Hrun]. exists w'. split; [exact Hrun|].
  destruct (generated_files_hold_their_templates demo_tree ["o"] false (world_of image_fs)
              demo_folder w' demo_wf (plain_names_relative _ demo_plain_names) Hrun)
    as [Htpl Hfstab].
  split; [|split; [|exact Hfstab]].
  - apply (Htpl "Android.bp" "//" "Android.bp"). apply list_elem_of_here.
  - apply (Htpl "omni_device.mk" "#" "omni_crab.mk").
    do 6 apply list_elem_of_further. apply list_elem_of_here.
Defined.

(** X10, on the demo image: of the two [init.usb.rc], the one of
    [vendor/etc/init] comes last. *)
Lemma every_script_is_copied_witness :
  ∃ w', dump_to_folder demo_tree ["o"] false (world_of image_fs) = (Ok demo_folder, w')
        ∧ ∃ c m, image_fs !! (ramdisk_root ++ ["vendor"; "etc"; "init"; "init.usb.rc"])
                 = Some (File c m)
                 ∧ fs w' !! (demo_folder ++ ["recovery"; "root"; "init.usb.rc"])
                   = Some (File c (created_mode (world_of image_fs))).
Proof.
  destruct (demo_run false) as [w' Hrun]. exists w'. split; [exact Hrun|].
  apply (every_script_is_copied demo_tree ["o"] false (world_of image_fs) demo_folder w'
           [ ramdisk_root ++ ["init.usb.rc"] ] []
           (ramdisk_root ++ ["vendor"; "etc"; "init"; "init.usb.rc"])
           demo_wf demo_plain_names Hrun).
  - reflexivity.
  - constructor.
  - intros [k Hk]. discriminate Hk.
Defined.


(** X12, on the demo image: the folder holds [prebuilt/kernel] and no
    [prebuilt/dtb.img], one [recovery/root/init.usb.rc], and no [.git]
    without a snapshot; with a snapshot it holds [.git]. *)
Lemma folder_holds_exactly_the_generated_tree_witness :
  (∃ w', dump_to_folder demo_tree ["o"] false (world_of image_fs) = (Ok demo_folder, w')
         ∧ is_Some (fs w' !! (demo_folder ++ ["prebuilt"; "kernel"]))
         ∧ fs w' !! (demo_folder ++ ["prebuilt"; "dtb.img"]) = None
         ∧ fs w' !! (demo_folder ++ [".git"]) = None)
  ∧ (∃ w', dump_to_folder demo_tree ["o"] true (world_of image_fs) = (Ok demo_folder, w')
           ∧ is_Some (fs w' !! (demo_folder ++ [".git"]))
           ∧ fs w' !! (demo_folder ++ ["old.txt"]) = None).
Proof.
  assert (Hl : ∀ git w' l,
            dump_to_folder demo_tree ["o"] git (world_of image_fs) = (Ok demo_folder, w') →
            (∀ x r, l ≠ ".git" :: x :: r) →
            is_Some (fs w' !! (device_tree_folder_of demo_tree ["o"] ++ l))
            ↔ l ∈ tree_entries demo_tree git).
  { intros git w' l Hrun Hnot.
    exact (folder_holds_exactly_the_generated_tree demo_tree ["o"] git
             (world_of image_fs) demo_folder w' l demo_wf
             ltac:(vm_compute; reflexivity) demo_plain_names Hrun Hnot). }
  assert (Hno : ∀ git w' l,
            dump_to_folder demo_tree ["o"] git (world_of image_fs) = (Ok demo_folder, w') →
            (∀ x r, l ≠ ".git" :: x :: r) →
            l ∉ tree_entries demo_tree git →
            fs w' !! (device_tree_folder_of demo_tree ["o"] ++ l) = None).
  { intros git w' l Hrun Hnot Hout.
    destruct (fs w' !! (device_tree_folder_of demo_tree ["o"] ++ l)) eqn:E; [|done].
    destruct Hout. apply (Hl git w' l Hrun Hnot). by eexists. }
  split.
  - destruct (demo_run false) as [w' Hrun]. exists w'. split; [exact Hrun|].
    split; [|split].
    + apply (Hl false w' ["prebuilt"; "kernel"] Hrun); [intros x r E; discriminate E|].
      apply (bool_decide_unpack _). vm_compute. exact I.
    + apply (Hno false w' ["prebuilt"; "dtb.img"] Hrun); [intros x r E; discriminate E|].
      apply (bool_decide_unpack _). vm_compute. exact I.
    + apply (Hno false w' [".git"] Hrun); [intros x r E; discriminate E|].
      apply (bool_decide_unpack _). vm_compute. exact I.
  - destruct (demo_run true) as [w' Hrun]. exists w'. split; [exact Hrun|]. split.
    + apply (Hl true w' [".git"] Hrun); [intros x r E; discriminate E|].
      apply (bool_decide_unpack _). vm_compute. exact I.
    + apply (Hno true w' ["old.txt"] Hrun); [intros x r E; discriminate E|].
      apply (bool_decide_unpack _). vm_compute. exact I.
Defined.


(** An image with both ramdisks, unpacked next to the demo image. *)
Definition two_ramdisks : ImageInfo :=
  {| kernel := None; dt := None; dtb := None; dtbo := None;
     ramdisk := Some ramdisk_root; vendor_ramdisk := Some ["w"; "out"];
     attributes := [] |}.

(** X2, on the demo image: both ramdisks are directories and the standard
    one is taken; a standard ramdisk that is a file gives way to the vendor
    one. *)
Lemma standard_ramdisk_is_preferred_witness :
  is_dir image_fs ["w"; "out"] = true
  ∧ (select_ramdisk two_ramdisks (world_of image_fs)).1 = Ok ramdisk_root
  ∧ (select_ramdisk
       {| kernel := None; dt := None; dtb := None; dtbo := None;
          ramdisk := Some ["w"; "boot.img"]; vendor_ramdisk := Some ["w"; "out"];
          attributes := [] |} (world_of image_fs)).1 = Ok ["w"; "out"].
Proof.
  split; [vm_compute; reflexivity|]. split.
  - destruct (standard_ramdisk_is_preferred two_ramdisks (world_of image_fs)) as [Hs _].
    rewrite (Hs ramdisk_root); [reflexivity | reflexivity | vm_compute; reflexivity].
  - match goal with |- (select_ramdisk ?ii _).1 = _ =>
      destruct (standard_ramdisk_is_preferred ii (world_of image_fs)) as (_ & Hv & _)
    end.
    rewrite (Hv ["w"; "out"]); [reflexivity | vm_compute; reflexivity | reflexivity |].
    vm_compute. reflexivity.
Defined.

(** X4: without the image file nothing is done; with the demo image
    stripped of its partition tables, the property file is read and the
    failure is the one of the partition table. *)
Lemma init_fails_at_the_first_missing_piece_witness :
  DeviceTree_init ["w"; "boot.img"] (world_of bare_fs)
  = (Err (FileNotFoundError "Specified file doesn't exist"), world_of bare_fs)
  ∧ (let w := world_of (delete (ramdisk_root ++ ["system"; "etc"; "recovery.fstab"])
                          (delete (ramdisk_root ++ ["vendor"; "etc"; "recovery.fstab"])
                             image_fs)) in
     (DeviceTree_init ["w"; "boot.img"] w).1 = Err (AssertionError "fstab not found")
     ∧ reads (DeviceTree_init ["w"; "boot.img"] w).2 = [ ramdisk_root ++ ["prop.default"] ]).
Proof.
  split.
  - apply (init_fails_at_the_first_missing_piece ["w"; "boot.img"] (world_of bare_fs)).
    vm_compute. reflexivity.
  - intros w.
    destruct (init_fails_at_the_first_missing_piece ["w"; "boot.img"] w) as [_ Hrest].
    destruct (Hrest (image_info demo_tree) w) as [_ Hram];
      [vm_compute; reflexivity | vm_compute; reflexivity |].
    destruct (Hram ramdisk_root) as [_ Hfstab]; [vm_compute; reflexivity|].
    apply (Hfstab [ ramdisk_root // ["default.prop"] ]
             (drop 2 (get_extended_buildprop_locations (fs w) ramdisk_root))
             (ramdisk_root // ["prop.default"]) "crab" 420%Z "crab" "crab").
    + vm_compute. reflexivity.
    + repeat constructor.
    + vm_compute. reflexivity.
    + vm_compute. reflexivity.
    + vm_compute. reflexivity.
    + repeat constructor.
Defined.
